(** * CasaOS app-store aggregation: metadata resolver, run tracker,
      aggregation pipeline and marketplace export

    A shallow embedding of [casaos_dash.py] and [generate_cosmos_market.py].

    Python values are the trees [value]; a mapping is an association list
    with string keys, in insertion order, looked up at its first matching
    key.  A Python expression that may raise becomes a computation in the
    error monad [res].  Strings are Rocq strings, a character being a code
    point below 256.  Floats, dates and the other YAML scalar kinds are
    outside the model.

    What a run reads from its environment (HTTP answers, cache files, the
    clock) is an input of the model: the records [folder_visit] and
    [repo_visit] hold the answers given while one folder, one repository is
    processed. *)

From Stdlib Require Import ZArith Ascii String Sorting.Sorted Sorting.Permutation.
From stdpp Require Import base gmap sets list strings pretty.

Open Scope string_scope.
Set Warnings "-register-all".

(** ** Python values *)

Inductive value : Type :=
| VNone
| VBool (b : bool)
| VInt (z : Z)
| VStr (s : string)
| VList (l : list value)
| VDict (d : list (string * value)).

Abbreviation pydict := (list (string * value)).

(** Exceptions the modelled code can raise. *)
Inductive exn : Type :=
| AttributeError
| TypeError
| KeyError
| IndexError.

Inductive res (A : Type) : Type :=
| Ok (a : A)
| Raise (e : exn).
Arguments Ok {A} a.
Arguments Raise {A} e.

Definition bind {A B : Type} (m : res A) (k : A -> res B) : res B :=
  match m with
  | Ok a => k a
  | Raise e => Raise e
  end.

Notation "'let*' x ':=' m 'in' k" := (bind m (fun x => k))
  (at level 10, x name, m at level 100, k at level 200).

Definition is_ok {A : Type} (m : res A) : bool :=
  match m with Ok _ => true | Raise _ => false end.

(** ** Strings *)

Definition string_eqb (a b : string) : bool := bool_decide (a = b).

Fixpoint is_prefix (p s : string) : bool :=
  match p, s with
  | EmptyString, _ => true
  | String a p', String b s' => bool_decide (a = b) && is_prefix p' s'
  | String _ _, EmptyString => false
  end.

(** [needle in hay] for two strings. *)
Fixpoint contains (needle hay : string) : bool :=
  is_prefix needle hay ||
  match hay with
  | EmptyString => false
  | String _ hay' => contains needle hay'
  end.

(** [s.split(c, 1)] when [c] occurs in [s]: the text before and after the
    first occurrence. *)
Fixpoint split_first (c : ascii) (s : string) : option (string * string) :=
  match s with
  | EmptyString => None
  | String a s' =>
      if bool_decide (a = c) then Some (EmptyString, s')
      else match split_first c s' with
           | Some (k, v) => Some (String a k, v)
           | None => None
           end
  end.

(** [s.split(c)[0]]. *)
Definition first_segment (c : ascii) (s : string) : string :=
  match split_first c s with
  | Some (k, _) => k
  | None => s
  end.

Fixpoint has_char (c : ascii) (s : string) : bool :=
  match s with
  | EmptyString => false
  | String a s' => bool_decide (a = c) || has_char c s'
  end.

(** [s.split(c)[-1]]: the text after the last occurrence of [c]. *)
Fixpoint last_segment (c : ascii) (s : string) : string :=
  match s with
  | EmptyString => EmptyString
  | String a s' =>
      if has_char c s' then last_segment c s'
      else if bool_decide (a = c) then s'
      else s
  end.

Definition code (a : ascii) : N := N_of_ascii a.

Definition in_range (lo hi : N) (a : ascii) : bool :=
  ((lo <=? code a) && (code a <=? hi))%N.

(** [str.lower] on code points below 256. *)
Definition lower_char (a : ascii) : ascii :=
  if in_range 65 90 a
     || (in_range 192 222 a && negb (code a =? 215)%N)
  then ascii_of_N (code a + 32)
  else a.

Fixpoint lower (s : string) : string :=
  match s with
  | EmptyString => EmptyString
  | String a s' => String (lower_char a) (lower s')
  end.

(** ** Truthiness and the dictionary protocol *)

Definition truthy (v : value) : bool :=
  match v with
  | VNone => false
  | VBool b => b
  | VInt z => negb (z =? 0)%Z
  | VStr s => negb (string_eqb s "")
  | VList l => match l with [] => false | _ => true end
  | VDict d => match d with [] => false | _ => true end
  end.

Fixpoint lookup_key (k : string) (d : pydict) : option value :=
  match d with
  | [] => None
  | (k', v) :: d' => if string_eqb k' k then Some v else lookup_key k d'
  end.

(** [d[k] = v]: an existing key keeps its position. *)
Fixpoint dict_set (k : string) (v : value) (d : pydict) : pydict :=
  match d with
  | [] => [(k, v)]
  | (k', v') :: d' =>
      if string_eqb k' k then (k, v) :: d' else (k', v') :: dict_set k v d'
  end.

(** [d.get(k, dflt)] on a mapping. *)
Definition dict_get (d : pydict) (k : string) (dflt : value) : value :=
  match lookup_key k d with
  | Some v => v
  | None => dflt
  end.

(** [v.get(k, dflt)] on any value: only mappings have [get]. *)
Definition py_get (v : value) (k : string) (dflt : value) : res value :=
  match v with
  | VDict d => Ok (dict_get d k dflt)
  | _ => Raise AttributeError
  end.

(** [a or b]: [b] is evaluated only when [a] is falsy. *)
Definition or_else (a : value) (b : res value) : res value :=
  if truthy a then Ok a else b.

(** [needle in v] for a string [needle]. *)
Definition py_in (needle : string) (v : value) : res bool :=
  match v with
  | VStr s => Ok (contains needle s)
  | VList l =>
      Ok (existsb (fun x => match x with
                            | VStr s => string_eqb s needle
                            | _ => false
                            end) l)
  | VDict d => Ok (existsb (fun p => string_eqb (fst p) needle) d)
  | VNone | VBool _ | VInt _ => Raise TypeError
  end.

(** [v[k]] for a string key. *)
Definition py_index (v : value) (k : string) : res value :=
  match v with
  | VDict d =>
      match lookup_key k d with
      | Some x => Ok x
      | None => Raise KeyError
      end
  | _ => Raise TypeError
  end.

(** [ports[0]]. *)
Definition py_first (v : value) : res value :=
  match v with
  | VList (x :: _) => Ok x
  | VList [] => Raise IndexError
  | VStr (String a _) => Ok (VStr (String a EmptyString))
  | VStr EmptyString => Raise IndexError
  | VDict _ => Raise KeyError
  | VNone | VBool _ | VInt _ => Raise TypeError
  end.

(** [v.lower()]: only strings have [lower]. *)
Definition py_lower (v : value) : res string :=
  match v with
  | VStr s => Ok (lower s)
  | _ => Raise AttributeError
  end.

(** ** Dates and the library functions taken as given *)

(** A [datetime]: the wall-clock reading in microseconds and, for an aware
    value, its offset from UTC in microseconds. *)
Record datetime : Type := {
  dt_wall : Z;
  dt_utcoffset : option Z
}.

(** [a > b] on datetimes: comparing a naive with an aware one raises. *)
Definition dt_gt (a b : datetime) : res bool :=
  match dt_utcoffset a, dt_utcoffset b with
  | None, None => Ok (dt_wall b <? dt_wall a)%Z
  | Some oa, Some ob => Ok (dt_wall b - ob <? dt_wall a - oa)%Z
  | _, _ => Raise TypeError
  end.

(** The two library functions the scripts call whose text is not part of the
    repository: the [repr] Python prints for a list or a mapping, and
    [datetime.fromisoformat] ([None] when it raises [ValueError]). *)
Class Builtins : Type := {
  repr_container : value -> string;
  fromisoformat : string -> option datetime
}.

Section Resolver.
Context `{B : Builtins}.

(** [str(v)]. *)
Definition py_str (v : value) : string :=
  match v with
  | VNone => "None"
  | VBool true => "True"
  | VBool false => "False"
  | VInt z => pretty z
  | VStr s => s
  | VList _ | VDict _ => repr_container v
  end.

(** ** Metadata resolver: [extract_compose_metadata] *)

(** [m.get('en_US', m.get('en_us', m.get('en', '')))]. *)
Definition select_locale (m : pydict) : value :=
  dict_get m "en_US" (dict_get m "en_us" (dict_get m "en" (VStr ""))).

(** [if isinstance(x, dict): x = x.get('en_US', ...)]. *)
Definition localized (x : value) : value :=
  match x with
  | VDict m => select_locale m
  | _ => x
  end.

(** The loop turning a list of ["key=value"] entries into a mapping, used
    for the service labels and for the environment. *)
Fixpoint pairs_to_dict (entries : list value) (acc : pydict) : res pydict :=
  match entries with
  | [] => Ok acc
  | entry :: rest =>
      let* has_eq := py_in "=" entry in
      if has_eq then
        match entry with
        | VStr s =>
            match split_first "=" s with
            | Some (key, v) => pairs_to_dict rest (dict_set key (VStr v) acc)
            | None => pairs_to_dict rest acc
            end
        | _ => Raise AttributeError
        end
      else pairs_to_dict rest acc
  end.

(** [next(iter(services.values())) if services else {}]. *)
Definition first_service (services : value) : res value :=
  if truthy services then
    match services with
    | VDict ((_, v) :: _) => Ok v
    | _ => Raise AttributeError
    end
  else Ok (VDict []).

Definition label_dict_of (labels : value) : res value :=
  match labels with
  | VList entries =>
      let* d := pairs_to_dict entries [] in Ok (VDict d)
  | _ => Ok (if truthy labels then labels else VDict [])
  end.

(** [first or label_dict.get(lkey) or conf_data.get(ckey, cdflt)]. *)
Definition priority_chain (first label_dict conf_data : value)
    (lkey ckey : string) (cdflt : value) : res value :=
  or_else first
    (let* l := py_get label_dict lkey VNone in
     or_else l (py_get conf_data ckey cdflt)).

Definition category_mapping : list (string * list string) :=
  [ ("Media", ["plex"; "jellyfin"; "emby"; "kodi"; "sonarr"; "radarr";
               "lidarr"; "bazarr"; "tautulli"; "overseerr"; "jellyseerr";
               "navidrome"]);
    ("Downloader", ["qbittorrent"; "transmission"; "deluge"; "sabnzbd";
                    "nzbget"; "jackett"; "prowlarr"; "autobrr"]);
    ("Cloud", ["nextcloud"; "owncloud"; "seafile"; "syncthing";
               "filebrowser"]);
    ("Database", ["mariadb"; "mysql"; "postgres"; "mongodb"; "redis";
                  "influxdb"]);
    ("Network", ["pihole"; "adguard"; "nginx"; "traefik"; "cloudflared";
                 "wireguard"; "ddns"]);
    ("Home Automation", ["homeassistant"; "openhab"; "node-red"; "mosquitto";
                         "zigbee2mqtt"; "esphome"]);
    ("Utilities", ["portainer"; "watchtower"; "duplicati"; "resilio";
                   "uptime"; "grafana"; "netdata"]);
    ("AI", ["ollama"; "stable-diffusion"; "chatgpt"; "open-webui";
            "anythingllm"; "flowise"; "dify"]);
    ("Notes", ["trilium"; "obsidian"; "joplin"; "memos"; "hedgedoc";
               "logseq"]);
    ("Developer", ["gitea"; "jenkins"; "code-server"; "vscode"]);
    ("Finance", ["firefly"; "actual"; "budget"]) ].

(** The first category one of whose keywords occurs in [app_name]. *)
Fixpoint infer_category (table : list (string * list string))
    (app_name : string) : option string :=
  match table with
  | [] => None
  | (cat, apps) :: table' =>
      if existsb (fun app => contains app app_name) apps then Some cat
      else infer_category table' app_name
  end.

Definition resolve_description (casaos_info : value) : res value :=
  let* d := py_get casaos_info "description" VNone in
  let description := localized d in
  if truthy description then Ok description
  else
    let* tagline := py_get casaos_info "tagline" VNone in
    match tagline with
    | VDict m => Ok (select_locale m)
    | VStr _ => Ok tagline
    | _ => Ok description
    end.

Definition resolve_category (casaos_info label_dict conf_data title : value)
    : res value :=
  let* c := py_get casaos_info "category" VNone in
  let* category :=
    priority_chain c label_dict conf_data "casaos.category" "category" VNone in
  let* category :=
    if truthy category then Ok category
    else
      let* t := or_else title (py_get conf_data "title" (VStr "")) in
      let* app_name := py_lower t in
      match infer_category category_mapping app_name with
      | Some cat => Ok (VStr cat)
      | None => Ok category
      end in
  Ok (if truthy category then category else VStr "Uncategorized").

Definition resolve_version (label_dict main_service : value) : res value :=
  match label_dict with
  | VDict ld =>
      let* image := py_get main_service "image" (VStr "") in
      let* has_colon := py_in ":" image in
      let* dflt :=
        if has_colon then
          match image with
          | VStr s => Ok (VStr (last_segment ":" s))
          | _ => Raise AttributeError
          end
        else Ok (VStr "") in
      Ok (dict_get ld "casaos.version" dflt)
  | _ => Raise AttributeError
  end.

(** The [port] entry, [None] when the service lists no ports. *)
Definition resolve_port (main_service : value) : res (option value) :=
  let* ports := py_get main_service "ports" (VList []) in
  if truthy ports then
    let* first_port := py_first ports in
    match first_port with
    | VDict fp =>
        let target := dict_get fp "target" (dict_get fp "published" (VStr "")) in
        Ok (Some (VStr (if truthy target then py_str target else "")))
    | _ =>
        let s := py_str first_port in
        if contains ":" s then Ok (Some (VStr (first_segment ":" s)))
        else Ok (Some (VStr s))
    end
  else Ok None.

Definition resolve_environment (main_service : value) : res value :=
  let* environment := py_get main_service "environment" (VList []) in
  match environment with
  | VList entries =>
      let* env_dict := pairs_to_dict entries [] in Ok (VDict env_dict)
  | _ => Ok environment
  end.

(** The [memory] entry, [None] when the guard of the last [if] is false. *)
Definition resolve_memory (main_service : value) : res (option value) :=
  let* has_deploy := py_in "deploy" main_service in
  if has_deploy then
    let* deploy := py_index main_service "deploy" in
    let* has_resources := py_in "resources" deploy in
    if has_resources then
      let* resources := py_index deploy "resources" in
      let* limits := py_get resources "limits" (VDict []) in
      let* memory := py_get limits "memory" (VStr "") in
      Ok (Some memory)
    else Ok None
  else Ok None.

Definition opt_entry (k : string) (o : option value) : pydict :=
  match o with
  | Some v => [(k, v)]
  | None => []
  end.

Definition extract_compose_metadata (compose_data conf_data : value)
    : res pydict :=
  if negb (truthy compose_data) then Ok []
  else
    let* casaos_info := py_get compose_data "x-casaos" (VDict []) in
    let* services := py_get compose_data "services" (VDict []) in
    let* main_service := first_service services in
    let* labels := py_get main_service "labels" (VList []) in
    let* label_dict := label_dict_of labels in
    let* t := py_get casaos_info "title" VNone in
    let* title :=
      priority_chain (localized t) label_dict conf_data
        "casaos.title" "title" (VStr "") in
    let* i := py_get casaos_info "icon" VNone in
    let* icon :=
      priority_chain i label_dict conf_data "casaos.icon" "icon" (VStr "") in
    let* d := resolve_description casaos_info in
    let* description :=
      priority_chain d label_dict conf_data
        "casaos.description" "description" (VStr "") in
    let* category := resolve_category casaos_info label_dict conf_data title in
    let* a := py_get casaos_info "author" VNone in
    let* author :=
      priority_chain a label_dict conf_data "casaos.author" "author" (VStr "") in
    let* version := resolve_version label_dict main_service in
    let* port := resolve_port main_service in
    let* v := py_get main_service "volumes" (VList []) in
    let volumes := if truthy v then v else VList [] in
    let* environment := resolve_environment main_service in
    let* memory := resolve_memory main_service in
    Ok (([ ("title", title); ("icon", icon); ("description", description);
          ("category", category); ("author", author); ("version", version) ]
        ++ opt_entry "port" port
        ++ [ ("volumes", volumes); ("environment", environment) ]
        ++ opt_entry "memory" memory)%list).

End Resolver.

(** ** Source connector: what one run observes of its environment *)

(** The state of a cache file when it is consulted: absent, older than its
    freshness window, fresh but unreadable, or fresh with parsed content. *)
Inductive cache_state : Type :=
| Absent
| Stale
| FreshUnreadable
| Fresh (payload : value).

(** [os.path.exists(cache_file)]. *)
Definition cache_exists (c : cache_state) : bool :=
  match c with
  | Absent => false
  | _ => true
  end.

(** The outcome of [requests.get] on one candidate file name.  For an
    answer, [parsed] is [yaml.safe_load(response.text)], [None] when that
    raises. *)
Inductive response : Type :=
| Http (status : Z) (parsed : option value)
| Timeout
| RequestError
| OtherError.

Definition compose_files : list string :=
  ["docker-compose.yml"; "docker-compose.yaml"; "compose.yml"; "compose.yaml"].

(** The [for compose_file in compose_files] loop of [get_docker_compose]. *)
Fixpoint fetch_compose (fetch : string -> response) (candidates : list string)
    : value :=
  match candidates with
  | [] => VDict []
  | compose_file :: rest =>
      match fetch compose_file with
      | Http status parsed =>
          if (status =? 200)%Z then
            match parsed with
            | Some compose_data => compose_data
            | None => fetch_compose fetch rest
            end
          else fetch_compose fetch rest
      | Timeout | RequestError | OtherError => fetch_compose fetch rest
      end
  end.

Definition get_docker_compose (cache : cache_state) (fetch : string -> response)
    : value :=
  match cache with
  | Fresh cached => cached
  | Absent | Stale | FreshUnreadable => fetch_compose fetch compose_files
  end.

(** The statistics of a repository are the value [get_repo_stats] returned:
    the mapping it builds from the API answer, its fallback, or whatever a
    fresh cache file holds.  The fallback: *)
Definition fallback_stats_dict : pydict :=
  [("stars", VInt 0); ("forks", VInt 0); ("default_branch", VStr "main")].

Definition fallback_stats : value := VDict fallback_stats_dict.

(** The answers the environment gives while one app folder is processed. *)
Record folder_visit : Type := {
  fv_folder : string;
  fv_app_cache : cache_state;
  fv_conf : value;
  fv_compose_cache : cache_state;
  fv_fetch : string -> response;
  fv_screenshots : value;
  fv_created : option string;
  fv_now : string
}.

(** One entry of [REPOS] with the answers of [get_repo_stats] and
    [list_app_folders] for it. *)
Record repo_visit : Type := {
  rv_owner : string;
  rv_repo : string;
  rv_stats : value;
  rv_folders : list folder_visit
}.

Definition REPOS : list (string * string) :=
  [ ("IceWhaleTech", "CasaOS-AppStore");
    ("WisdomSky", "CasaOS-LinuxServer-AppStore");
    ("WisdomSky", "CasaOS-Coolstore");
    ("mr-manuel", "CasaOS-HomeAutomation-AppStore");
    ("bigbeartechworld", "big-bear-casaos");
    ("mariosemes", "CasaOS-TMCstore");
    ("justserdar", "ZimaOS-AppStore") ].

(** The content of [cache/last_run.json] at start. *)
Inductive run_file : Type :=
| NoRunFile
| BadRunFile
| RunFile (data : value).

Section Pipeline.
Context `{B : Builtins}.

(** ** Run tracker *)

(** The block that sets [last_run_time]; every exception leaves it [None]. *)
Definition load_last_run (f : run_file) : option datetime :=
  match f with
  | RunFile (VDict d) =>
      match dict_get d "last_run" (VStr "") with
      | VStr s => fromisoformat s
      | _ => None
      end
  | _ => None
  end.

(** [created.replace("Z", "+00:00")]. *)
Fixpoint replace_Z (s : string) : string :=
  match s with
  | EmptyString => EmptyString
  | String a s' =>
      if bool_decide (a = "Z"%char) then "+00:00" +:+ replace_Z s'
      else String a (replace_Z s')
  end.

Definition opt_str (o : option string) : value :=
  match o with
  | Some s => VStr s
  | None => VNone
  end.

(** The novelty flag of one app folder on a cache miss. *)
Definition is_new (last_run_time : option datetime) (created : option string)
    (cache_file_exists : bool) : bool :=
  match last_run_time, created with
  | Some last_run, Some c =>
      if truthy (VStr c) then
        match fromisoformat (replace_Z c) with
        | Some created_dt =>
            match dt_gt created_dt last_run with
            | Ok newer => newer
            | Raise _ => false
            end
        | None => false
        end
      else negb cache_file_exists
  | _, _ => negb cache_file_exists
  end.

(** ** Aggregation pipeline *)

Definition placeholder_icon : string := "https://via.placeholder.com/64".

Definition folder_url (owner repo : string) (branch : value) (folder : string)
    : string :=
  "https://github.com/" +:+ owner +:+ "/" +:+ repo +:+ "/tree/"
    +:+ py_str branch +:+ "/Apps/" +:+ folder.

(** The body of the [try] block: fetch, resolve, assemble.  [repo_stats] is
    the entry of [repo_stats_cache] for the repository, which the loop
    stored before it came to the folders. *)
Definition assemble (last_run_time : option datetime) (owner repo : string)
    (repo_stats : value) (fv : folder_visit) : res pydict :=
  let folder := fv_folder fv in
  let* branch := py_get repo_stats "default_branch" (VStr "main") in
  let conf := fv_conf fv in
  let compose := get_docker_compose (fv_compose_cache fv) (fv_fetch fv) in
  let screenshots := fv_screenshots fv in
  let* compose_metadata := extract_compose_metadata compose conf in
  let* title :=
    or_else (dict_get compose_metadata "title" VNone)
      (let* c := py_get conf "title" VNone in
       or_else c (Ok (VStr folder))) in
  let* desc :=
    or_else (dict_get compose_metadata "description" VNone)
      (let* c := py_get conf "description" VNone in
       or_else c (Ok (VStr "No description available."))) in
  let* icon :=
    or_else (dict_get compose_metadata "icon" VNone)
      (py_get conf "icon" (VStr placeholder_icon)) in
  let category := dict_get compose_metadata "category" (VStr "Uncategorized") in
  let author := dict_get compose_metadata "author" (VStr "Unknown") in
  let version := dict_get compose_metadata "version" (VStr "Unknown") in
  let* w := py_get conf "website" VNone in
  let* website :=
    or_else w
      (let* u := py_get conf "url" VNone in
       or_else u (Ok (VStr (folder_url owner repo branch folder)))) in
  let created := fv_created fv in
  let new := is_new last_run_time created (cache_exists (fv_app_cache fv)) in
  let* stars := py_index repo_stats "stars" in
  let* forks := py_index repo_stats "forks" in
  let* shots := py_get screenshots "screenshots" (VList []) in
  let* shot_count := py_get screenshots "count" (VInt 0) in
  Ok [ ("title", title);
       ("description", desc);
       ("icon", icon);
       ("category", category);
       ("repo", VStr (owner +:+ "/" +:+ repo));
       ("url", website);
       ("created", opt_str created);
       ("author", author);
       ("version", version);
       ("port", dict_get compose_metadata "port" VNone);
       ("volumes", dict_get compose_metadata "volumes" (VList []));
       ("environment", dict_get compose_metadata "environment" (VDict []));
       ("memory", dict_get compose_metadata "memory" VNone);
       ("compose_available", VBool (truthy compose));
       ("stars", stars);
       ("forks", forks);
       ("is_new", VBool new);
       ("screenshots", shots);
       ("screenshot_count", shot_count);
       ("updated_at", VStr (fv_now fv)) ].

(** The [except] handler: the record it builds for a folder that failed.
    It reads the statistics again, outside any [try]. *)
Definition placeholder (owner repo : string) (repo_stats : value)
    (fv : folder_visit) : res pydict :=
  let folder := fv_folder fv in
  let* branch := py_get repo_stats "default_branch" (VStr "main") in
  let* stars := py_index repo_stats "stars" in
  let* forks := py_index repo_stats "forks" in
  Ok [ ("title", VStr folder);
       ("description", VStr "Error loading app data");
       ("icon", VStr placeholder_icon);
       ("category", VStr "Error");
       ("repo", VStr (owner +:+ "/" +:+ repo));
       ("url", VStr (folder_url owner repo branch folder));
       ("created", VNone);
       ("author", VStr "Unknown");
       ("version", VStr "Unknown");
       ("port", VNone);
       ("volumes", VList []);
       ("environment", VDict []);
       ("memory", VNone);
       ("compose_available", VBool false);
       ("stars", stars);
       ("forks", forks);
       ("is_new", VBool false);
       ("screenshots", VList []);
       ("screenshot_count", VInt 0);
       ("updated_at", VStr (fv_now fv)) ].

(** The cached record reused for a folder, if any: a fresh, readable and
    non-empty cache file. *)
Definition cache_hit (c : cache_state) : option value :=
  match c with
  | Fresh app_data => if truthy app_data then Some app_data else None
  | _ => None
  end.

(** The body of [for folder in folders]: the record appended to [apps].
    An exception of the handler is caught nowhere: it ends the run. *)
Definition process_folder (last_run_time : option datetime)
    (owner repo : string) (repo_stats : value) (fv : folder_visit)
    : res value :=
  match cache_hit (fv_app_cache fv) with
  | Some app_data => Ok app_data
  | None =>
      match assemble last_run_time owner repo repo_stats fv with
      | Ok app_data => Ok (VDict app_data)
      | Raise _ =>
          let* app_data := placeholder owner repo repo_stats fv in
          Ok (VDict app_data)
      end
  end.

(** The loop [for folder in folders]: the records appended to [apps]. *)
Fixpoint process_folders (last_run_time : option datetime)
    (owner repo : string) (repo_stats : value) (folders : list folder_visit)
    : res (list value) :=
  match folders with
  | [] => Ok []
  | fv :: rest =>
      let* app_data := process_folder last_run_time owner repo repo_stats fv in
      let* others := process_folders last_run_time owner repo repo_stats rest in
      Ok (app_data :: others)
  end.

Definition repo_key (rv : repo_visit) : string :=
  rv_owner rv +:+ "/" +:+ rv_repo rv.

(** The body of [for owner, repo in REPOS], threading [repo_stats_cache] and
    [apps]. *)
Definition process_repo (last_run_time : option datetime)
    (state : gmap string value * list value) (rv : repo_visit)
    : res (gmap string value * list value) :=
  let '(repo_stats_cache, apps) := state in
  let repo_stats_cache :=
    match repo_stats_cache !! repo_key rv with
    | Some _ => repo_stats_cache
    | None => <[repo_key rv := rv_stats rv]> repo_stats_cache
    end in
  let repo_stats := default fallback_stats (repo_stats_cache !! repo_key rv) in
  let* new :=
    process_folders last_run_time (rv_owner rv) (rv_repo rv) repo_stats
      (rv_folders rv) in
  Ok (repo_stats_cache, (apps ++ new)%list).

(** The loop [for owner, repo in REPOS] from [state] on. *)
Fixpoint process_repos (last_run_time : option datetime)
    (state : gmap string value * list value) (repos : list repo_visit)
    : res (gmap string value * list value) :=
  match repos with
  | [] => Ok state
  | rv :: rest =>
      let* state' := process_repo last_run_time state rv in
      process_repos last_run_time state' rest
  end.

(** [apps] when the two nested loops are done. *)
Definition collect (last_run_time : option datetime) (repos : list repo_visit)
    : res (list value) :=
  let* final := process_repos last_run_time (∅, []) repos in
  Ok (snd final).

(** The sort key [x["created"] or ""], a string. *)
Definition sort_key (x : value) : res string :=
  let* c := py_index x "created" in
  if truthy c then
    match c with
    | VStr s => Ok s
    | _ => Raise TypeError
    end
  else Ok "".

Fixpoint sort_keys (apps : list value) : res (list (string * value)) :=
  match apps with
  | [] => Ok []
  | x :: rest =>
      let* k := sort_key x in
      let* keyed := sort_keys rest in
      Ok ((k, x) :: keyed)
  end.

(** [a < b] on strings. *)
Definition str_ltb (a b : string) : bool :=
  match String.compare a b with
  | Lt => true
  | _ => false
  end.

(** Insertion keeping equal keys in their original order, largest key
    first. *)
Fixpoint insert_desc (x : string * value) (sorted : list (string * value))
    : list (string * value) :=
  match sorted with
  | [] => [x]
  | y :: rest =>
      if str_ltb (fst x) (fst y) then y :: insert_desc x rest
      else x :: sorted
  end.

Definition sort_desc (keyed : list (string * value)) : list (string * value) :=
  foldr insert_desc [] keyed.

(** [apps.sort(key=lambda x: x["created"] or "", reverse=True)]. *)
Definition sort_apps (apps : list value) : res (list value) :=
  let* keyed := sort_keys apps in
  Ok (map snd (sort_desc keyed)).

(** The whole run: the ordered collection handed to the renderer. *)
Definition run (last_run : run_file) (repos : list repo_visit)
    : res (list value) :=
  let* apps := collect (load_last_run last_run) repos in
  sort_apps apps.

End Pipeline.

(** ** Marketplace export: [generate_cosmos_market.py] *)

Fixpoint str_take (n : nat) (s : string) : string :=
  match n, s with
  | S n', String a s' => String a (str_take n' s')
  | _, _ => EmptyString
  end.

Fixpoint str_drop (n : nat) (s : string) : string :=
  match n, s with
  | S n', String _ s' => str_drop n' s'
  | _, _ => s
  end.

Definition slash : ascii := "/"%char.
Definition newline : ascii := ascii_of_N 10.

(** The longest prefix without a slash, and what follows it. *)
Fixpoint span_segment (s : string) : string * string :=
  match s with
  | EmptyString => (EmptyString, EmptyString)
  | String a s' =>
      if bool_decide (a = slash) then (EmptyString, s)
      else let '(seg, rest) := span_segment s' in (String a seg, rest)
  end.

(** [([^/]+)/?$] against the text after ["/Apps/"]: the group, if it
    matches.  [$] also matches just before a final newline. *)
Definition match_folder_tail (r : string) : option string :=
  let '(seg, rest) := span_segment r in
  if string_eqb seg "" then None
  else if string_eqb rest "" then Some seg
  else if string_eqb rest "/" then Some seg
  else if string_eqb rest (String slash (String newline EmptyString)) then Some seg
  else None.

(** [re.search(r'/Apps/([^/]+)/?$', url)] on a string: the leftmost start
    at which the pattern matches. *)
Fixpoint search_app_folder (url : string) : option string :=
  match (if is_prefix "/Apps/" url then match_folder_tail (str_drop 6 url)
         else None) with
  | Some folder => Some folder
  | None =>
      match url with
      | EmptyString => None
      | String _ url' => search_app_folder url'
      end
  end.

(** [([^/]+)/] against the text after ["/tree/"]. *)
Definition match_branch_tail (r : string) : option string :=
  let '(seg, rest) := span_segment r in
  if string_eqb seg "" then None
  else if string_eqb rest "" then None
  else Some seg.

Fixpoint search_branch (url : string) : option string :=
  match (if is_prefix "/tree/" url then match_branch_tail (str_drop 6 url)
         else None) with
  | Some branch => Some branch
  | None =>
      match url with
      | EmptyString => None
      | String _ url' => search_branch url'
      end
  end.

(** [re.search] accepts a string only. *)
Definition extract_app_folder_from_url (url : value) : res (option string) :=
  match url with
  | VStr s => Ok (search_app_folder s)
  | _ => Raise TypeError
  end.

Definition get_branch_from_url (url : value) : res string :=
  match url with
  | VStr s => Ok (default "main" (search_branch s))
  | _ => Raise TypeError
  end.

(** The class [\s] on code points below 256. *)
Definition is_whitespace (a : ascii) : bool :=
  in_range 9 13 a || in_range 28 32 a
  || (code a =? 133)%N || (code a =? 160)%N.

Definition is_alnum (a : ascii) : bool :=
  in_range 97 122 a || in_range 65 90 a || in_range 48 57 a.

Definition dash : ascii := "-"%char.

(** [re.sub(r'[^a-zA-Z0-9\s-]', '', s)]. *)
Fixpoint drop_special (s : string) : string :=
  match s with
  | EmptyString => EmptyString
  | String a s' =>
      if is_alnum a || is_whitespace a || bool_decide (a = dash)
      then String a (drop_special s')
      else drop_special s'
  end.

(** [re.sub(r'\s+', '-', s)]; [in_run] holds inside a run of whitespace. *)
Fixpoint dash_whitespace (in_run : bool) (s : string) : string :=
  match s with
  | EmptyString => EmptyString
  | String a s' =>
      if is_whitespace a then
        if in_run then dash_whitespace true s'
        else String dash (dash_whitespace true s')
      else String a (dash_whitespace false s')
  end.

Fixpoint lstrip_dash (s : string) : string :=
  match s with
  | String a s' => if bool_decide (a = dash) then lstrip_dash s' else s
  | EmptyString => EmptyString
  end.

(** [s.strip('-')]. *)
Definition strip_dash (s : string) : string :=
  String.rev (lstrip_dash (String.rev (lstrip_dash s))).

(** The parameter [name] has already been through [str]. *)
Definition sanitize_id (name : string) : string :=
  lower (strip_dash (dash_whitespace false (drop_special name))).

Definition category_tags : list (string * list string) :=
  [ ("Media", ["media"; "streaming"; "entertainment"]);
    ("Downloader", ["download"; "torrent"; "usenet"]);
    ("Cloud", ["cloud"; "storage"; "sync"]);
    ("Database", ["database"; "sql"; "data"]);
    ("Network", ["network"; "dns"; "proxy"]);
    ("Home Automation", ["home-automation"; "iot"; "smart-home"]);
    ("Utilities", ["utilities"; "tools"]);
    ("AI", ["ai"; "machine-learning"; "llm"]);
    ("Notes", ["notes"; "productivity"; "documentation"]);
    ("Developer", ["developer"; "devops"; "git"]);
    ("Finance", ["finance"; "budget"; "money"]);
    ("Photos", ["photos"; "gallery"; "images"]);
    ("Documents", ["documents"; "office"; "pdf"]) ].

(** The tags added for the first table entry whose name occurs in
    [category], both in lower case. *)
Fixpoint extra_tags (table : list (string * list string)) (category : string)
    : list string :=
  match table with
  | [] => []
  | (cat, extra) :: table' =>
      if contains (lower cat) (lower category) then extra
      else extra_tags table' category
  end.

(** The result is [list(set(tags))], whose order Python leaves open: a
    set. *)
Definition get_tags_from_category (category : value) : res (gset string) :=
  if negb (truthy category) then Ok {[ "self-hosted" ]}
  else
    match category with
    | VStr c =>
        if string_eqb c "Uncategorized" then Ok {[ "self-hosted" ]}
        else Ok (list_to_set (c :: extra_tags category_tags c)
                 ∪ {[ "self-hosted" ]})
    | _ => Raise AttributeError
    end.

(** Iterating a value with [for]. *)
Fixpoint chars (s : string) : list value :=
  match s with
  | EmptyString => []
  | String a s' => VStr (String a EmptyString) :: chars s'
  end.

Definition py_iter (v : value) : res (list value) :=
  match v with
  | VList l => Ok l
  | VStr s => Ok (chars s)
  | VDict d => Ok (map (fun p => VStr (fst p)) d)
  | VNone | VBool _ | VInt _ => Raise TypeError
  end.

Definition is_str (v : value) (s : string) : bool :=
  match v with
  | VStr s' => string_eqb s' s
  | _ => false
  end.

Fixpoint join (sep : string) (parts : list string) : string :=
  match parts with
  | [] => EmptyString
  | [p] => p
  | p :: rest => p +:+ sep +:+ join sep rest
  end.

(** The record written for one app.  The four constant entries [image],
    [supported_architectures], [logo] and [artefacts] are left out. *)
Record cosmos_app : Type := {
  ca_name : string;
  ca_longDescription : string;
  ca_description : string;
  ca_tags : gset string;
  ca_repository : string;
  ca_id : string;
  ca_screenshots : list value;
  ca_icon : value;
  ca_compose : string
}.

Definition set_id (c : cosmos_app) (new_id : string) : cosmos_app :=
  {| ca_name := ca_name c;
     ca_longDescription := ca_longDescription c;
     ca_description := ca_description c;
     ca_tags := ca_tags c;
     ca_repository := ca_repository c;
     ca_id := new_id;
     ca_screenshots := ca_screenshots c;
     ca_icon := ca_icon c;
     ca_compose := ca_compose c |}.

Section Market.
Context `{B : Builtins}.

(** [m.get('en_us') or m.get('en') or m.get('en_US')
     or str(list(m.values())[0]) if m else dflt]. *)
Definition market_locale (m : pydict) (dflt : string) : value :=
  match m with
  | [] => VStr dflt
  | (_, first) :: _ =>
      let a := dict_get m "en_us" VNone in
      if truthy a then a
      else
        let b := dict_get m "en" VNone in
        if truthy b then b
        else
          let c := dict_get m "en_US" VNone in
          if truthy c then c else VStr (py_str first)
  end.

Definition market_text (x : value) (dflt : string) : value :=
  match x with
  | VDict m => market_locale m dflt
  | _ => x
  end.

Definition format_long_description (app : pydict) : string :=
  let desc := market_text (dict_get app "description" (VStr "")) "" in
  let author := dict_get app "author" VNone in
  let version := dict_get app "version" VNone in
  let port := dict_get app "port" VNone in
  let meta :=
    ((if truthy author && negb (is_str author "Unknown")
      then ["<b>Author:</b> " +:+ py_str author] else [])
     ++ (if truthy version && negb (is_str version "Unknown")
         then ["<b>Version:</b> " +:+ py_str version] else [])
     ++ (if truthy port
         then ["<b>Default Port:</b> " +:+ py_str port] else []))%list in
  let parts :=
    (["<p>" +:+ py_str desc +:+ "</p>"]
     ++ (match meta with
         | [] => []
         | _ => ["<p>" +:+ join " | " meta +:+ "</p>"]
         end)
     ++ ["<p><i>Source: CasaOS App Store ("
           +:+ py_str (dict_get app "repo" (VStr "Unknown"))
           +:+ ")</i></p>"])%list in
  join (String newline EmptyString) parts.

(** The loop collecting screenshot URLs. *)
Fixpoint screenshot_urls (shots : list value) : list value :=
  match shots with
  | [] => []
  | screenshot :: rest =>
      match screenshot with
      | VDict d =>
          if truthy (dict_get d "url" VNone)
          then dict_get d "url" VNone :: screenshot_urls rest
          else screenshot_urls rest
      | VStr _ => screenshot :: screenshot_urls rest
      | _ => screenshot_urls rest
      end
  end.

Definition compose_url_of (repo : value) (branch : string)
    (folder : option string) : string :=
  match folder with
  | Some f =>
      if truthy repo && truthy (VStr f) then
        "https://raw.githubusercontent.com/" +:+ py_str repo +:+ "/"
          +:+ branch +:+ "/Apps/" +:+ f +:+ "/docker-compose.yml"
      else ""
  | None => ""
  end.

Definition convert_app_to_cosmos (app : value) : res cosmos_app :=
  match app with
  | VDict a =>
      let title := market_text (dict_get a "title" (VStr "Unknown")) "Unknown" in
      let desc := market_text (dict_get a "description" (VStr "")) "" in
      let app_url := dict_get a "url" (VStr "") in
      let* folder := extract_app_folder_from_url app_url in
      let* branch := get_branch_from_url app_url in
      let repo := dict_get a "repo" (VStr "") in
      let compose_url := compose_url_of repo branch folder in
      let* shots := py_iter (dict_get a "screenshots" (VList [])) in
      let* tags := get_tags_from_category (dict_get a "category" (VStr "")) in
      Ok {| ca_name := py_str title;
            ca_longDescription := format_long_description a;
            ca_description :=
              if truthy desc then str_take 200 (py_str desc)
              else "No description available.";
            ca_tags := tags;
            ca_repository :=
              if truthy app_url then py_str app_url
              else "https://github.com/" +:+ py_str repo;
            ca_id := sanitize_id (py_str title);
            ca_screenshots := screenshot_urls shots;
            ca_icon := dict_get a "icon" (VStr "");
            ca_compose := compose_url |}
  | _ => Raise AttributeError
  end.

(** [app.get('repo', '').split('/')[-1][:10].lower()]. *)
Definition repo_suffix (app : value) : res string :=
  let* repo := py_get app "repo" (VStr "") in
  match repo with
  | VStr s => Ok (lower (str_take 10 (last_segment slash s)))
  | _ => Raise AttributeError
  end.

(** The [while cosmos_app['id'] in seen_ids] loop, run for at most [fuel]
    rounds: [None] when the fuel runs out first. *)
Fixpoint find_free_id (fuel : nat) (seen_ids : gset string)
    (original_id id : string) (counter : Z) : option string :=
  if bool_decide (id ∈ seen_ids) then
    match fuel with
    | O => None
    | S fuel' =>
        find_free_id fuel' seen_ids original_id
          (original_id +:+ "-" +:+ pretty counter) (counter + 1)%Z
    end
  else Some id.

(** The loop with as many rounds as it can need: one more than there are
    identifiers in [seen_ids]. *)
Definition free_id (seen_ids : gset string) (original_id id : string) : string :=
  default id (find_free_id (S (size seen_ids)) seen_ids original_id id 1).

(** The body of [for app in apps], threading [cosmos_apps] and
    [seen_ids]. *)
Definition main_step (state : list cosmos_app * gset string) (app : value)
    : res (list cosmos_app * gset string) :=
  let '(cosmos_apps, seen_ids) := state in
  let* available := py_get app "compose_available" (VBool false) in
  if negb (truthy available) then Ok state
  else
    let* cosmos_app := convert_app_to_cosmos app in
    if negb (truthy (VStr (ca_compose cosmos_app))) then Ok state
    else
      let original_id := ca_id cosmos_app in
      let* id1 :=
        if bool_decide (original_id ∈ seen_ids) then
          let* suffix := repo_suffix app in
          Ok (original_id +:+ "-" +:+ suffix)
        else Ok original_id in
      let new_id := free_id seen_ids original_id id1 in
      Ok ((cosmos_apps ++ [set_id cosmos_app new_id])%list,
          {[ new_id ]} ∪ seen_ids).

Fixpoint main_loop (apps : list value)
    (state : list cosmos_app * gset string)
    : res (list cosmos_app * gset string) :=
  match apps with
  | [] => Ok state
  | app :: rest =>
      let* state' := main_step state app in
      main_loop rest state'
  end.

(** [main] from the loaded [data] on: the list written to
    [servapps.json]. *)
Definition main (data : value) : res (list cosmos_app) :=
  let* apps_field := py_get data "apps" (VList []) in
  let* apps := py_iter apps_field in
  let* final := main_loop apps ([], ∅) in
  Ok (fst final).

End Market.

(** ** An instance of the library functions, to run the model *)

Definition digit (a : ascii) : option Z :=
  if in_range 48 57 a then Some (Z.of_N (code a) - 48)%Z else None.

(** Exactly [n] decimal digits at the head of [s]. *)
Fixpoint digits (n : nat) (acc : Z) (s : string) : option (Z * string) :=
  match n with
  | O => Some (acc, s)
  | S n' =>
      match s with
      | String a s' =>
          match digit a with
          | Some d => digits n' (10 * acc + d)%Z s'
          | None => None
          end
      | EmptyString => None
      end
  end.

Definition expect (c : ascii) (s : string) : option string :=
  match s with
  | String a s' => if bool_decide (a = c) then Some s' else None
  | EmptyString => None
  end.

Definition is_leap (y : Z) : bool :=
  ((y mod 4 =? 0) && (negb (y mod 100 =? 0) || (y mod 400 =? 0)))%Z.

Definition days_in_month (y m : Z) : Z :=
  if (m =? 2)%Z then (if is_leap y then 29 else 28)%Z
  else if ((m =? 4) || (m =? 6) || (m =? 9) || (m =? 11))%Z then 30%Z
  else 31%Z.

(** Days from 1970-01-01 to the given civil date. *)
Definition days_from_civil (y m d : Z) : Z :=
  let y' := (if m <=? 2 then y - 1 else y)%Z in
  let era := (y' / 400)%Z in
  let yoe := (y' - era * 400)%Z in
  let mp := (if 2 <? m then m - 3 else m + 9)%Z in
  let doy := ((153 * mp + 2) / 5 + d - 1)%Z in
  let doe := (yoe * 365 + yoe / 4 - yoe / 100 + doy)%Z in
  (era * 146097 + doe - 719468)%Z.

(** The fraction of a second: nothing, [.fff] or [.ffffff]. *)
Definition parse_fraction (s : string) : option (Z * string) :=
  match expect "."%char s with
  | Some s1 =>
      match digits 6 0 s1 with
      | Some r => Some r
      | None =>
          match digits 3 0 s1 with
          | Some (ms, s2) => Some ((ms * 1000)%Z, s2)
          | None => None
          end
      end
  | None => Some (0%Z, s)
  end.

(** The offset: nothing, or a sign and [HH:MM]. *)
Definition parse_offset (s : string) : option (option Z) :=
  match s with
  | EmptyString => Some None
  | String sign s1 =>
      '(h, s2) ← digits 2 0 s1;
      s3 ← expect ":"%char s2;
      '(m, s4) ← digits 2 0 s3;
      let magnitude := ((h * 60 + m) * 60 * 1000000)%Z in
      if negb (string_eqb s4 "") || negb (h <? 24)%Z || negb (m <? 60)%Z
      then None
      else if bool_decide (sign = "+"%char) then Some (Some magnitude)
      else if bool_decide (sign = "-"%char) then Some (Some (- magnitude)%Z)
      else None
  end.

(** [YYYY-MM-DD], optionally followed by a separator, [HH:MM:SS], a
    fraction and an offset: the shapes [isoformat()] prints and the commit
    API sends.  The library accepts a few more. *)
Definition parse_iso (s : string) : option datetime :=
  '(y, s1) ← digits 4 0 s;
  s2 ← expect "-"%char s1;
  '(m, s3) ← digits 2 0 s2;
  s4 ← expect "-"%char s3;
  '(d, s5) ← digits 2 0 s4;
  if negb ((1 <=? y) && (1 <=? m) && (m <=? 12) && (1 <=? d)
           && (d <=? days_in_month y m))%Z
  then None
  else
    let day_us := (days_from_civil y m d * 86400 * 1000000)%Z in
    match s5 with
    | EmptyString => Some {| dt_wall := day_us; dt_utcoffset := None |}
    | String _ s6 =>
        '(hh, s7) ← digits 2 0 s6;
        s8 ← expect ":"%char s7;
        '(mi, s9) ← digits 2 0 s8;
        s10 ← expect ":"%char s9;
        '(ss, s11) ← digits 2 0 s10;
        '(us, s12) ← parse_fraction s11;
        off ← parse_offset s12;
        if negb ((hh <? 24) && (mi <? 60) && (ss <? 60))%Z then None
        else
          Some {| dt_wall :=
                    (day_us + ((hh * 60 + mi) * 60 + ss) * 1000000 + us)%Z;
                  dt_utcoffset := off |}
    end.

(** Lists and mappings are printed as a fixed mark: the examples below never
    print one. *)
Definition plain_builtins : Builtins :=
  {| repr_container := fun _ => "<container>";
     fromisoformat := parse_iso |}.


(** A size on values: every value stored in a mapping is smaller than the
    mapping. *)
Fixpoint vsize (v : value) : nat :=
  match v with
  | VList l => S (list_sum (map vsize l))
  | VDict d => S (list_sum (map (fun p => vsize (snd p)) d))
  | _ => 1
  end.

(** ** Source connector: listing, history, statistics, screenshots *)

(** The outcome of one call of the GitHub API: an answer with its status and
    [response.json()] ([None] when that raises), or an exception of
    [requests.get]. *)
Inductive api_answer : Type :=
| Answer (status : Z) (json : option value)
| NoAnswer.

(** [[item['name'] for item in items if item['type'] == 'dir']]. *)
Fixpoint dir_names (items : list value) : res (list value) :=
  match items with
  | [] => Ok []
  | item :: rest =>
      let* type := py_index item "type" in
      if is_str type "dir" then
        let* name := py_index item "name" in
        let* names := dir_names rest in
        Ok (name :: names)
      else dir_names rest
  end.

(** Every failure, of the call or of the comprehension, gives the empty
    list. *)
Definition list_app_folders (ans : api_answer) : list value :=
  match ans with
  | Answer status (Some listing) =>
      if (status =? 200)%Z then
        match (let* items := py_iter listing in dir_names items) with
        | Ok names => names
        | Raise _ => []
        end
      else []
  | Answer _ None | NoAnswer => []
  end.

(** [v[-1]]. *)
Definition py_last (v : value) : res value :=
  match v with
  | VList l =>
      match last l with
      | Some x => Ok x
      | None => Raise IndexError
      end
  | VStr s =>
      match last (chars s) with
      | Some x => Ok x
      | None => Raise IndexError
      end
  | VDict _ => Raise KeyError
  | VNone | VBool _ | VInt _ => Raise TypeError
  end.

(** [commits[-1]['commit']['author']['date'] if commits else None]. *)
Definition earliest_date (commits : value) : res value :=
  if truthy commits then
    let* oldest := py_last commits in
    let* commit := py_index oldest "commit" in
    let* author := py_index commit "author" in
    py_index author "date"
  else Ok VNone.

Definition get_creation_date (ans : api_answer) : value :=
  match ans with
  | Answer status (Some commits) =>
      if (status =? 200)%Z then
        match earliest_date commits with
        | Ok date => date
        | Raise _ => VNone
        end
      else VNone
  | Answer _ None | NoAnswer => VNone
  end.

(** [cache] is the state of [repo_stats_<owner>_<repo>.json], [now] the
    reading of the clock. *)
Definition get_repo_stats (cache : cache_state) (ans : api_answer)
    (now : string) : value :=
  match cache with
  | Fresh cached => cached
  | Absent | Stale | FreshUnreadable =>
      match ans with
      | Answer status (Some (VDict repo_data)) =>
          if (status =? 200)%Z then
            VDict [ ("stars", dict_get repo_data "stargazers_count" (VInt 0));
                    ("forks", dict_get repo_data "forks_count" (VInt 0));
                    ("default_branch",
                      dict_get repo_data "default_branch" (VStr "main"));
                    ("updated_at", VStr now) ]
          else VDict fallback_stats_dict
      | _ => VDict fallback_stats_dict
      end
  end.

(** [get_conf_json_raw]: the parsed body of a 200 answer, else [{}]. *)
Definition get_conf_json_raw (ans : api_answer) : value :=
  match ans with
  | Answer status (Some conf) =>
      if (status =? 200)%Z then conf else VDict []
  | Answer _ None | NoAnswer => VDict []
  end.

Definition screenshot_patterns : list string :=
  [ "screenshot-1.png"; "screenshot-2.png"; "screenshot-3.png";
    "screenshot-4.png"; "screenshot-5.png";
    "screenshot1.png"; "screenshot2.png"; "screenshot3.png";
    "screen1.png"; "screen2.png"; "screen3.png";
    "image1.png"; "image2.png"; "image3.png";
    "preview1.png"; "preview2.png"; "preview3.png";
    "demo1.png"; "demo2.png"; "demo3.png" ].

(** The outcome of probing one screenshot file that is not on disk: an
    answer with its status and content type, [saved] telling whether writing
    the image succeeded, or an exception of [requests.get]. *)
Inductive shot_answer : Type :=
| ShotHttp (status : Z) (content_type : string) (saved : bool)
| ShotError.

Fixpoint ends_with_slash (s : string) : bool :=
  match s with
  | EmptyString => false
  | String a EmptyString => bool_decide (a = slash)
  | String _ s' => ends_with_slash s'
  end.

(** [os.path.join(a, b)] on POSIX. *)
Definition path_join (a b : string) : string :=
  if is_prefix "/" b then b
  else if string_eqb a "" || ends_with_slash a then a +:+ b
  else a +:+ "/" +:+ b.

Section Screenshots.
Context `{B : Builtins}.

(** The entry recorded for one screenshot file. *)
Definition shot_entry (owner repo folder : string) (branch : value)
    (screenshot_file : string) : value :=
  VDict [ ("filename", VStr screenshot_file);
          ("local_path",
            VStr (path_join
                    (path_join "screenshots"
                       (owner +:+ "_" +:+ repo +:+ "_" +:+ folder))
                    screenshot_file));
          ("url",
            VStr ("https://raw.githubusercontent.com/" +:+ owner +:+ "/"
                  +:+ repo +:+ "/" +:+ py_str branch +:+ "/Apps/" +:+ folder
                  +:+ "/" +:+ screenshot_file)) ].

(** The [for screenshot_file in screenshot_patterns] loop: a file already
    on disk is recorded without a request. *)
Fixpoint probe_screenshots (owner repo folder : string) (branch : value)
    (on_disk : string -> bool) (fetch : string -> shot_answer)
    (patterns : list string) : list value :=
  match patterns with
  | [] => []
  | screenshot_file :: rest =>
      let others :=
        probe_screenshots owner repo folder branch on_disk fetch rest in
      if on_disk screenshot_file then
        shot_entry owner repo folder branch screenshot_file :: others
      else
        match fetch screenshot_file with
        | ShotHttp status content_type saved =>
            if (status =? 200)%Z && is_prefix "image/" content_type && saved
            then shot_entry owner repo folder branch screenshot_file :: others
            else others
        | ShotError => others
        end
  end.

Definition get_app_screenshots (owner repo folder : string) (branch : value)
    (cache : cache_state) (on_disk : string -> bool)
    (fetch : string -> shot_answer) (now : string) : value :=
  match cache with
  | Fresh cached => cached
  | Absent | Stale | FreshUnreadable =>
      let screenshots :=
        probe_screenshots owner repo folder branch on_disk fetch
          screenshot_patterns in
      VDict [ ("screenshots", VList screenshots);
              ("count", VInt (Z.of_nat (length screenshots)));
              ("updated_at", VStr now) ]
  end.

End Screenshots.

(** * Vocabulary of the statements *)

(** The parsed content of an answer the compose loop returns on: status 200
    and a body that parses. *)
Definition usable (r : response) : option value :=
  match r with
  | Http status (Some compose_data) =>
      if (status =? 200)%Z then Some compose_data else None
  | _ => None
  end.

(** A record whose [created] entry is null or a string. *)
Definition created_typed (x : value) : bool :=
  match x with
  | VDict d =>
      match lookup_key "created" d with
      | Some VNone | Some (VStr _) => true
      | _ => false
      end
  | _ => false
  end.

(** The sort key of a record, the empty string standing for a missing
    creation date. *)
Definition created_key (x : value) : string :=
  match sort_key x with
  | Ok k => k
  | Raise _ => ""
  end.


(** The identifier tried in round [counter] of the collision loop. *)
Definition candidate (original_id : string) (counter : Z) : string :=
  original_id +:+ "-" +:+ pretty counter.

(** The loop invariant of [main]: the identifiers written so far are
    pairwise distinct and all recorded in [seen_ids]. *)
Definition ids_distinct (state : list cosmos_app * gset string) : Prop :=
  NoDup (map ca_id (fst state))
  /\ forall c, c ∈ fst state -> ca_id c ∈ snd state.

(** An app entry of the shape the pipeline writes: a mapping whose [url]
    and [repo] are strings, whose [category] is a string or empty, and
    whose [screenshots] can be iterated. *)
Definition app_wf (app : value) : bool :=
  match app with
  | VDict a =>
      match dict_get a "url" (VStr ""), dict_get a "repo" (VStr "") with
      | VStr _, VStr _ =>
          (match dict_get a "category" (VStr "") with
           | VStr _ => true
           | c => negb (truthy c)
           end)
          && is_ok (py_iter (dict_get a "screenshots" (VList [])))
      | _, _ => false
      end
  | _ => false
  end.

(** An output entry is the converted entry up to its identifier. *)
Definition renamed (converted written : cosmos_app) : Prop :=
  written = set_id converted (ca_id written).






(** The shapes of compose documents and conf data the resolver copes
    with. *)
Definition is_vstr (v : value) : bool :=
  match v with
  | VStr _ => true
  | _ => false
  end.

(** A string, or an empty value. *)
Definition text_or_empty (v : value) : bool := is_vstr v || negb (truthy v).

(** A list of strings. *)
Definition strings_only (l : list value) : bool := forallb is_vstr l.

(** Labels: a list of strings, a mapping whose [casaos.title] is a text,
    or nothing. *)
Definition labels_shaped (labels : value) : bool :=
  match labels with
  | VList entries => strings_only entries
  | VDict ld => text_or_empty (dict_get ld "casaos.title" VNone)
  | _ => negb (truthy labels)
  end.

(** Ports: nothing, a list or a string. *)
Definition ports_shaped (ports : value) : bool :=
  match ports with
  | VList _ | VStr _ => true
  | _ => negb (truthy ports)
  end.

(** Environment: a list of strings, or anything that is not a list. *)
Definition environment_shaped (environment : value) : bool :=
  match environment with
  | VList entries => strings_only entries
  | _ => true
  end.

(** The deploy block: absent, or a mapping whose [resources], if any, is a
    mapping whose [limits], if any, is a mapping. *)
Definition deploy_shaped (main_service : pydict) : bool :=
  match lookup_key "deploy" main_service with
  | None => true
  | Some (VDict deploy) =>
      match lookup_key "resources" deploy with
      | None => true
      | Some (VDict resources) =>
          match dict_get resources "limits" (VDict []) with
          | VDict _ => true
          | _ => false
          end
      | Some _ => false
      end
  | Some _ => false
  end.

(** The primary service: its labels, image, ports, environment and deploy
    block. *)
Definition service_shaped (main_service : pydict) : bool :=
  labels_shaped (dict_get main_service "labels" (VList []))
  && is_vstr (dict_get main_service "image" (VStr ""))
  && ports_shaped (dict_get main_service "ports" (VList []))
  && environment_shaped (dict_get main_service "environment" (VList []))
  && deploy_shaped main_service.

(** A compose document and conf data of the expected shapes: both
    mappings; the vendor-extension block a mapping whose title is a text or
    a locale mapping selecting one; the services empty or a mapping whose
    first service is a well-shaped mapping; the conf title a string. *)
Definition well_shaped (compose_data conf_data : value) : bool :=
  match compose_data, conf_data with
  | VDict d, VDict c =>
      match dict_get d "x-casaos" (VDict []) with
      | VDict casaos_info =>
          text_or_empty (localized (dict_get casaos_info "title" VNone))
      | _ => false
      end
      && is_vstr (dict_get c "title" (VStr ""))
      && (let services := dict_get d "services" (VDict []) in
          if truthy services then
            match services with
            | VDict ((_, VDict main_service) :: _) =>
                service_shaped main_service
            | _ => false
            end
          else true)
  | _, _ => false
  end.

(** A mapping all of whose values are strings. *)
Definition string_values (d : pydict) : Prop :=
  Forall (fun p => is_vstr (snd p) = true) d.

(** The fields of an AppRecord, in the order they are written. *)
Definition app_fields : list string :=
  ["title"; "description"; "icon"; "category"; "repo"; "url"; "created";
   "author"; "version"; "port"; "volumes"; "environment"; "memory";
   "compose_available"; "stars"; "forks"; "is_new"; "screenshots";
   "screenshot_count"; "updated_at"].

(** The fields that are never null. *)
Definition defined_fields : list string :=
  ["title"; "description"; "category"; "repo"; "url"; "volumes";
   "compose_available"; "is_new"; "updated_at"].

(** No field of the record is null. *)
Definition no_null (d : pydict) : bool :=
  forallb (fun p => match snd p with VNone => false | _ => true end) d.

(** The record has the field, and it is not null. *)
Definition field_defined (k : string) (d : pydict) : Prop :=
  exists v, lookup_key k d = Some v /\ v <> VNone.


(** Statistics of the shape [get_repo_stats] builds: a mapping that carries
    [stars] and [forks]. *)
Definition stats_shaped (repo_stats : value) : bool :=
  match repo_stats with
  | VDict d =>
      match lookup_key "stars" d, lookup_key "forks" d with
      | Some _, Some _ => true
      | _, _ => false
      end
  | _ => false
  end.



Section Vocabulary.
Context `{B : Builtins}.

(** The converted entry of an app that [main] keeps: its
    [compose_available] is truthy and a compose URL could be built. *)
Definition listed (app : value) : option cosmos_app :=
  match py_get app "compose_available" (VBool false) with
  | Ok available =>
      if truthy available then
        match convert_app_to_cosmos app with
        | Ok cosmos_app =>
            if string_eqb (ca_compose cosmos_app) "" then None
            else Some cosmos_app
        | Raise _ => None
        end
      else None
  | Raise _ => None
  end.


End Vocabulary.

(** ** Vocabulary of the further properties *)

(** The name of a listing entry that is a directory. *)
Definition dir_name (item : value) : option value :=
  match item with
  | VDict d =>
      match lookup_key "type" d with
      | Some type => if is_str type "dir" then lookup_key "name" d else None
      | None => None
      end
  | _ => None
  end.

(** A listing entry the comprehension can read: a mapping with a [type],
    and with a [name] when it is a directory. *)
Definition entry_readable (item : value) : bool :=
  match item with
  | VDict d =>
      match lookup_key "type" d with
      | Some type =>
          if is_str type "dir"
          then bool_decide (is_Some (lookup_key "name" d))
          else true
      | None => false
      end
  | _ => false
  end.

(** The date recorded in one commit entry. *)
Definition commit_date (entry : value) : res value :=
  let* commit := py_index entry "commit" in
  let* author := py_index commit "author" in
  py_index author "date".

(** A screenshot candidate that ends up in the index: on disk already, or
    answered 200 with an image that could be saved. *)
Definition shot_accepted (on_disk : string -> bool)
    (fetch : string -> shot_answer) (screenshot_file : string) : bool :=
  on_disk screenshot_file
  || match fetch screenshot_file with
     | ShotHttp status content_type saved =>
         (status =? 200)%Z && is_prefix "image/" content_type && saved
     | ShotError => false
     end.

(** Every character of the string satisfies [p]. *)
Fixpoint all_chars (p : ascii -> bool) (s : string) : bool :=
  match s with
  | EmptyString => true
  | String a s' => p a && all_chars p s'
  end.

Definition first_char (s : string) : option ascii :=
  match s with
  | EmptyString => None
  | String a _ => Some a
  end.

Fixpoint last_char (s : string) : option ascii :=
  match s with
  | EmptyString => None
  | String a s' =>
      match last_char s' with
      | Some b => Some b
      | None => Some a
      end
  end.

(** A lower-case letter, a digit or a hyphen. *)
Definition url_safe_char (a : ascii) : bool :=
  in_range 97 122 a || in_range 48 57 a || bool_decide (a = dash).

(** What [sanitize_id] keeps before it replaces whitespace. *)
Definition kept_char (a : ascii) : bool :=
  is_alnum a || is_whitespace a || bool_decide (a = dash).

(** A letter, a digit or a hyphen. *)
Definition word_char (a : ascii) : bool :=
  is_alnum a || bool_decide (a = dash).

(** The identifier written for an entry is the one of the converted entry,
    or that one followed by a hyphen and a suffix. *)
Definition derived (converted written : cosmos_app) : Prop :=
  written = set_id converted (ca_id written)
  /\ (ca_id written = ca_id converted
      \/ exists suffix,
           ca_id written = ca_id converted +:+ "-" +:+ suffix).

(** * Sample inputs *)

(** 2024-03-01T12:00:00+00:00. *)
Definition march_first : datetime :=
  {| dt_wall := 1709294400000000; dt_utcoffset := Some 0%Z |}.

(** A compose document with one service and no vendor-extension block. *)
Definition nginx_doc : value :=
  VDict [("services", VDict [("web", VDict [("image", VStr "nginx:1.25")])])].

(** The response map of the claim: [compose.yml] answers 404,
    [docker-compose.yml] answers 200. *)
Definition claim_fetch (f : string) : response :=
  if string_eqb f "docker-compose.yml" then Http 200 (Some nginx_doc)
  else Http 404 None.

(** [docker-compose.yml] answers 200 with a body that does not parse,
    [docker-compose.yaml] answers 200 with a good one. *)
Definition garbled_fetch (f : string) : response :=
  if string_eqb f "docker-compose.yml" then Http 200 None
  else if string_eqb f "docker-compose.yaml" then Http 200 (Some nginx_doc)
  else Http 404 None.

(** What [get_app_screenshots] returns when it finds none. *)
Definition empty_shots : value :=
  VDict [("screenshots", VList []); ("count", VInt 0)].

(** A compose document whose only service has an empty body. *)
Definition hollow_doc : value := VDict [("services", VDict [("web", VNone)])].

(** Only [compose.yaml] exists. *)
Definition hollow_fetch (f : string) : response :=
  if string_eqb f "compose.yaml" then Http 200 (Some hollow_doc)
  else Http 404 None.

(** Three folder visits: one whose compose document makes the resolver
    raise, one that succeeds, one served from the cache. *)
Definition fv_broken : folder_visit :=
  {| fv_folder := "broken";
     fv_app_cache := Absent;
     fv_conf := VDict [];
     fv_compose_cache := Absent;
     fv_fetch := hollow_fetch;
     fv_screenshots := empty_shots;
     fv_created := Some "2024-03-02T08:30:00Z";
     fv_now := "2024-03-05T10:00:00.000000" |}.

Definition fv_nginx : folder_visit :=
  {| fv_folder := "nginx";
     fv_app_cache := Stale;
     fv_conf := VDict [("title", VStr "Nginx")];
     fv_compose_cache := Absent;
     fv_fetch := claim_fetch;
     fv_screenshots := empty_shots;
     fv_created := Some "2024-03-02T08:30:00Z";
     fv_now := "2024-03-05T10:00:01.000000" |}.

Definition cached_record : value :=
  VDict [("title", VStr "Plex"); ("category", VStr "Media");
         ("created", VStr "2023-11-20T07:00:00Z");
         ("compose_available", VBool true)].

Definition fv_cached : folder_visit :=
  {| fv_folder := "plex";
     fv_app_cache := Fresh cached_record;
     fv_conf := VDict [];
     fv_compose_cache := Absent;
     fv_fetch := fun _ => Timeout;
     fv_screenshots := empty_shots;
     fv_created := None;
     fv_now := "2024-03-05T10:00:02.000000" |}.

Definition sample_repos : list repo_visit :=
  [ {| rv_owner := "IceWhaleTech"; rv_repo := "CasaOS-AppStore";
       rv_stats := VDict [("stars", VInt 120); ("forks", VInt 30);
                          ("default_branch", VStr "main")];
       rv_folders := [fv_broken; fv_nginx] |};
    {| rv_owner := "WisdomSky"; rv_repo := "CasaOS-Coolstore";
       rv_stats := fallback_stats;
       rv_folders := [fv_cached] |} ].




Definition sample_last_run : run_file :=
  RunFile (VDict [("last_run", VStr "2024-03-01T12:00:00+00:00")]).

(** The input of the claim: the three sources of a title. *)
Definition titled_doc (vendor label : string) : value :=
  VDict [ ("x-casaos", VDict [("title", VStr vendor)]);
          ("services",
            VDict [("app",
                    VDict [("image", VStr "app:1.0");
                           ("labels",
                             VList [VStr ("casaos.title=" +:+ label)])])]) ].







(** Conf data with a title. *)
Definition titled_conf (title : string) : value :=
  VDict [("title", VStr title)].

(** Entries of [apps_data.json]: three whose titles collide on the
    identifier [plex], one without compose file, one whose URL names no app
    folder. *)
Definition market_app (title url repo : string) (available : value) : value :=
  VDict [ ("title", VStr title); ("url", VStr url); ("repo", VStr repo);
          ("category", VStr "Media"); ("compose_available", available) ].

Definition market_apps : list value :=
  [ market_app "Plex" "https://github.com/o/r1/tree/main/Apps/plex" "o/r1"
      (VBool true);
    market_app "Plex!" "https://github.com/o/r2/tree/master/Apps/Plex/" "o/r2"
      (VBool true);
    market_app "plex" "https://github.com/x/r2/tree/master/Apps/plex2" "x/r2"
      (VBool true);
    market_app "Emby  Server" "https://github.com/x/r2/tree/master/Apps/emby"
      "x/r2" (VBool false);
    market_app "Kodi" "https://example.org/kodi" "x/r2" (VBool true) ].

Definition market_data : value := VDict [("apps", VList market_apps)].

(** Records with and without a creation date. *)
Definition dated (title : string) (created : value) : value :=
  VDict [("title", VStr title); ("created", created)].

Definition dated_apps : list value :=
  [ dated "a" (VStr "2023-11-20T07:00:00Z"); dated "b" VNone;
    dated "c" (VStr "2024-03-02T08:30:00Z"); dated "d" VNone;
    dated "e" (VStr "2023-11-20T07:00:00Z") ].

(** A directory listing: two app folders and a file. *)
Definition sample_listing : list value :=
  [ VDict [("name", VStr "plex"); ("type", VStr "dir")];
    VDict [("name", VStr "README.md"); ("type", VStr "file")];
    VDict [("name", VStr "nginx"); ("type", VStr "dir")] ].

(** A commit history, newest first. *)
Definition sample_commits : list value :=
  [ VDict [("commit", VDict [("author",
             VDict [("date", VStr "2024-03-02T08:30:00Z")])])];
    VDict [("commit", VDict [("author",
             VDict [("date", VStr "2023-11-20T07:00:00Z")])])] ].

(** Two screenshots are on disk already, one more can be downloaded. *)
Definition sample_on_disk (f : string) : bool :=
  string_eqb f "screenshot-1.png" || string_eqb f "preview2.png".

Definition sample_shot_fetch (f : string) : shot_answer :=
  if string_eqb f "screen1.png" then ShotHttp 200 "image/png" true
  else if string_eqb f "demo1.png" then ShotHttp 200 "text/html" true
  else ShotHttp 404 "text/plain" false.

(** * Properties *)

Ltac inv_bind H :=
  match type of H with
  | bind ?m _ = Ok _ =>
      let E := fresh "E" in
      destruct m eqn:E; simpl in H; [| discriminate H]
  end.

Lemma string_eqb_false (a b : string) : string_eqb a b = false <-> a <> b.
Proof. unfold string_eqb. apply bool_decide_eq_false. Qed.

Lemma lookup_key_vsize (k : string) (d : pydict) (v : value) :
  lookup_key k d = Some v -> vsize v < vsize (VDict d).
Proof.
  simpl. induction d as [| [k' v'] d IH]; simpl; [discriminate |].
  destruct (string_eqb k' k).
  - intros [= ->]. lia.
  - intros H. specialize (IH H). lia.
Qed.

Lemma dict_get_not_self (d : pydict) (k : string) (dflt : value) :
  dflt <> VDict d -> dict_get d k dflt <> VDict d.
Proof.
  intros Hd. unfold dict_get.
  destruct (lookup_key k d) as [v |] eqn:E; [| exact Hd].
  intros ->. apply lookup_key_vsize in E. lia.
Qed.

(** The configured repositories have pairwise distinct keys, so each asks
    for its statistics once. *)
Example REPOS_keys_distinct :
  NoDup (map (fun p => fst p +:+ "/" +:+ snd p) REPOS).
Proof. by apply (bool_decide_unpack _). Qed.

(** ** Locale selection *)

(** C1, as the code has it: for a locale mapping, selection returns the
    value under [en_US] if that key is present, else the value under
    [en_us], else the value under [en], else the empty string; it never
    returns the mapping itself. *)
Theorem select_locale_order (m : pydict) :
  localized (VDict m) = select_locale m
  /\ select_locale m =
       match lookup_key "en_US" m with
       | Some v => v
       | None =>
           match lookup_key "en_us" m with
           | Some v => v
           | None =>
               match lookup_key "en" m with
               | Some v => v
               | None => VStr ""
               end
           end
       end
  /\ select_locale m <> VDict m.
Proof.
  split; [reflexivity |]. split.
  - unfold select_locale, dict_get.
    destruct (lookup_key "en_US" m); [reflexivity |].
    destruct (lookup_key "en_us" m); [reflexivity |].
    destruct (lookup_key "en" m); reflexivity.
  - unfold select_locale.
    do 3 apply dict_get_not_self. discriminate.
Qed.

(** C1, as the spec words it, fails: a mapping without an English key
    selects the empty string, not its first value, and the resolver then
    falls through to the next source of the title. *)
Lemma select_locale_no_first_value :
  let m := [("fr_FR", VStr "Bonjour"); ("de_DE", VStr "Hallo")] in
  select_locale m = VStr ""
  /\ select_locale m <> VStr "Bonjour"
  /\ extract_compose_metadata (B := plain_builtins)
       (VDict [("x-casaos", VDict [("title", VDict m)])])
       (VDict [("title", VStr "from conf")])
     = Ok [ ("title", VStr "from conf"); ("icon", VStr "");
            ("description", VStr ""); ("category", VStr "Uncategorized");
            ("author", VStr ""); ("version", VStr "");
            ("volumes", VList []); ("environment", VDict []) ].
Proof.
  split; [reflexivity |]. split; [discriminate |].
  vm_compute. reflexivity.
Qed.

(** ** Run tracker *)

Section RunTrackerFacts.
Context `{B : Builtins}.

(** C2, as the code has it: with a prior run timestamp and a resolved
    creation timestamp that parses and can be compared with it, [is_new] is
    [created > last_run]; when no creation timestamp was resolved, or when
    there is no prior run timestamp, [is_new] holds exactly when no cache
    file for the app's record existed. *)
Theorem is_new_rule (last_run_time : option datetime)
    (created : option string) (cache_file_exists : bool) :
  (forall last_run c created_dt newer,
      last_run_time = Some last_run ->
      created = Some c ->
      c <> "" ->
      fromisoformat (replace_Z c) = Some created_dt ->
      dt_gt created_dt last_run = Ok newer ->
      is_new last_run_time created cache_file_exists = newer)
  /\ (last_run_time = None \/ created = None \/ created = Some "" ->
      is_new last_run_time created cache_file_exists
      = negb cache_file_exists).
Proof.
  split.
  - intros last_run c created_dt newer -> -> Hc Hparse Hgt.
    unfold is_new. simpl.
    apply string_eqb_false in Hc. rewrite Hc. simpl.
    rewrite Hparse, Hgt. reflexivity.
  - intros [-> | [-> | ->]].
    + reflexivity.
    + destruct last_run_time; reflexivity.
    + destruct last_run_time; reflexivity.
Qed.

End RunTrackerFacts.

Lemma is_new_rule_witness :
  is_new (B := plain_builtins) (Some march_first)
    (Some "2024-03-02T08:30:00Z") true = true
  /\ is_new (B := plain_builtins) None (Some "2024-03-02T08:30:00Z") false
     = true.
Proof.
  split.
  - apply (proj1 (is_new_rule (B := plain_builtins) (Some march_first)
                    (Some "2024-03-02T08:30:00Z") true)
             march_first "2024-03-02T08:30:00Z"
             {| dt_wall := 1709368200000000; dt_utcoffset := Some 0%Z |}).
    + reflexivity.
    + reflexivity.
    + discriminate.
    + vm_compute. reflexivity.
    + vm_compute. reflexivity.
  - apply (proj2 (is_new_rule (B := plain_builtins) None
                    (Some "2024-03-02T08:30:00Z") false)).
    left. reflexivity.
Defined.

(** C2, as the spec words it, fails: with a prior run timestamp and no
    creation timestamp, a folder without a cache file is flagged new. *)
Lemma is_new_without_created :
  is_new (B := plain_builtins) (Some march_first) None false <> false.
Proof. vm_compute. discriminate. Qed.

(** The timestamp the run itself saves is naive ([datetime.now()]), the
    commit dates end in [Z] and parse as aware: the comparison raises, the
    bare [except] swallows it, and a newer app is not flagged. *)
Example is_new_naive_last_run :
  fromisoformat (Builtins := plain_builtins) "2024-03-01T12:00:00.250000"
  = Some {| dt_wall := 1709294400250000; dt_utcoffset := None |}
  /\ is_new (B := plain_builtins)
       (fromisoformat (Builtins := plain_builtins) "2024-03-01T12:00:00.250000")
       (Some "2024-03-02T08:30:00Z") true = false.
Proof. split; vm_compute; reflexivity. Qed.

(** The last-run file: absent, unreadable or ill-formed content all mean no
    prior run. *)
Lemma load_last_run_absent `{B : Builtins} :
  load_last_run NoRunFile = None /\ load_last_run BadRunFile = None.
Proof. split; reflexivity. Qed.

(** ** Compose-file resolution *)

Lemma fetch_compose_skip (fetch : string -> response) (f : string)
    (rest : list string) :
  usable (fetch f) = None ->
  fetch_compose fetch (f :: rest) = fetch_compose fetch rest.
Proof.
  simpl. unfold usable.
  destruct (fetch f) as [status [v |] | | |]; try reflexivity.
  - destruct (status =? 200)%Z; [discriminate | reflexivity].
  - destruct (status =? 200)%Z; reflexivity.
Qed.

Lemma fetch_compose_first (fetch : string -> response)
    (candidates : list string) (i : nat) (f : string) (v : value) :
  candidates !! i = Some f ->
  usable (fetch f) = Some v ->
  (forall j g, j < i -> candidates !! j = Some g -> usable (fetch g) = None) ->
  fetch_compose fetch candidates = v.
Proof.
  revert i. induction candidates as [| c rest IH]; intros i Hi Hv Hbefore.
  - destruct i; discriminate.
  - destruct i as [| i].
    + injection Hi as ->. simpl. unfold usable in Hv.
      destruct (fetch f) as [status [w |] | | |]; try discriminate.
      destruct (status =? 200)%Z; [congruence | discriminate].
    + rewrite fetch_compose_skip.
      * apply (IH i); [exact Hi | exact Hv |].
        intros j g Hj Hg. apply (Hbefore (S j) g); [lia | exact Hg].
      * apply (Hbefore 0 c); [lia | reflexivity].
Qed.

Lemma fetch_compose_none (fetch : string -> response)
    (candidates : list string) :
  (forall g, g ∈ candidates -> usable (fetch g) = None) ->
  fetch_compose fetch candidates = VDict [].
Proof.
  induction candidates as [| c rest IH]; intros Hall; [reflexivity |].
  rewrite fetch_compose_skip.
  - apply IH. intros g Hg. apply Hall. right. exact Hg.
  - apply Hall. left.
Qed.

(** C5, as the code has it: on a miss of the compose cache the four
    candidates are tried in the fixed order and the result is the parsed
    content of the first one that answers 200 with a body that parses; a
    candidate answering 200 with an unparsable body is passed over like a
    404.  With [docker-compose.yml] such an answer, the result is its
    content whatever the other candidates answer. *)
Theorem get_docker_compose_first_usable (cache : cache_state)
    (fetch : string -> response) :
  compose_files
  = ["docker-compose.yml"; "docker-compose.yaml"; "compose.yml"; "compose.yaml"]
  /\ (forall i f v,
        (forall cached, cache <> Fresh cached) ->
        compose_files !! i = Some f ->
        fetch f = Http 200 (Some v) ->
        (forall j g, j < i -> compose_files !! j = Some g ->
                     usable (fetch g) = None) ->
        get_docker_compose cache fetch = v)
  /\ (forall v,
        (forall cached, cache <> Fresh cached) ->
        fetch "docker-compose.yml" = Http 200 (Some v) ->
        get_docker_compose cache fetch = v)
  /\ ((forall cached, cache <> Fresh cached) ->
      (forall g, g ∈ compose_files -> usable (fetch g) = None) ->
      get_docker_compose cache fetch = VDict []).
Proof.
  assert (Hmiss : (forall cached, cache <> Fresh cached) ->
                  get_docker_compose cache fetch
                  = fetch_compose fetch compose_files).
  { intros Hc. destruct cache; try reflexivity. exfalso. by eapply Hc. }
  split; [reflexivity |]. split; [| split].
  - intros i f v Hc Hi Hf Hbefore. rewrite (Hmiss Hc).
    apply (fetch_compose_first fetch compose_files i f v); auto.
    rewrite Hf. reflexivity.
  - intros v Hc Hf. rewrite (Hmiss Hc).
    apply (fetch_compose_first fetch compose_files 0 "docker-compose.yml" v).
    + reflexivity.
    + rewrite Hf. reflexivity.
    + intros j g Hj. lia.
  - intros Hc Hall. rewrite (Hmiss Hc). apply fetch_compose_none. exact Hall.
Qed.

Lemma get_docker_compose_first_usable_witness :
  get_docker_compose Absent claim_fetch = nginx_doc.
Proof.
  apply (proj1 (proj2 (proj2 (get_docker_compose_first_usable Absent claim_fetch)))).
  - intros cached. discriminate.
  - reflexivity.
Defined.

(** C5, as the spec words it, fails: the first candidate answering 200 is
    [docker-compose.yml], its body does not parse, and the result is the
    content of [docker-compose.yaml]. *)
Lemma get_docker_compose_skips_unparsable :
  garbled_fetch "docker-compose.yml" = Http 200 None
  /\ garbled_fetch "docker-compose.yaml" = Http 200 (Some nginx_doc)
  /\ get_docker_compose Absent garbled_fetch = nginx_doc.
Proof. repeat split. Qed.

(** ** The final sort *)




Lemma insert_desc_perm (x : string * value) (l : list (string * value)) :
  insert_desc x l ≡ₚ x :: l.
Proof.
  induction l as [| y l IH]; simpl; [reflexivity |].
  destruct (str_ltb (fst x) (fst y)); [| reflexivity].
  rewrite IH. apply Permutation_swap.
Qed.

Lemma sort_desc_perm (l : list (string * value)) : sort_desc l ≡ₚ l.
Proof.
  induction l as [| x l IH]; simpl; [reflexivity |].
  rewrite insert_desc_perm. by constructor.
Qed.



Lemma created_typed_key (x : value) :
  created_typed x = true -> sort_key x = Ok (created_key x).
Proof.
  unfold created_typed, created_key, sort_key, py_index.
  destruct x as [| | | | | d]; try discriminate.
  destruct (lookup_key "created" d) as [[| | | s | |] |]; try discriminate;
    simpl; intros _; [reflexivity |].
  destruct (negb (string_eqb s "")); reflexivity.
Qed.

Lemma sort_keys_typed (apps : list value) :
  Forall (fun x => created_typed x = true) apps ->
  sort_keys apps = Ok (map (fun x => (created_key x, x)) apps).
Proof.
  induction 1 as [| x apps Hx _ IH]; simpl; [reflexivity |].
  rewrite (created_typed_key x Hx). simpl. rewrite IH. reflexivity.
Qed.


(** ** Marketplace export *)

Section MarketFacts.
Context `{B : Builtins}.

Lemma candidate_inj (original_id : string) : Inj (=) (=) (candidate original_id).
Proof.
  intros a b H. unfold candidate in H.
  apply (inj (String.app original_id)) in H.
  apply (inj (String.app "-")) in H.
  by apply (inj pretty) in H.
Qed.

Lemma find_free_id_fresh (fuel : nat) (seen_ids : gset string)
    (original_id id : string) (counter : Z) (r : string) :
  find_free_id fuel seen_ids original_id id counter = Some r -> r ∉ seen_ids.
Proof.
  revert id counter. induction fuel as [| fuel IH]; intros id counter; simpl.
  - case_bool_decide; [discriminate |]. by intros [= <-].
  - case_bool_decide; [apply IH |]. by intros [= <-].
Qed.

Lemma find_free_id_more_fuel (fuel extra : nat) (seen_ids : gset string)
    (original_id id : string) (counter : Z) (r : string) :
  find_free_id fuel seen_ids original_id id counter = Some r ->
  find_free_id (fuel + extra) seen_ids original_id id counter = Some r.
Proof.
  revert id counter. induction fuel as [| fuel IH]; intros id counter; simpl.
  - case_bool_decide as Hin; [discriminate |]. intros [= <-].
    destruct extra; simpl; by rewrite bool_decide_eq_false_2.
  - case_bool_decide; [apply IH | done].
Qed.

(** When the fuel runs out, every identifier tried so far is taken. *)
Lemma find_free_id_exhausted (fuel : nat) (seen_ids : gset string)
    (original_id id : string) (counter : Z) :
  find_free_id fuel seen_ids original_id id counter = None ->
  forall k : nat, k < fuel ->
    candidate original_id (counter + Z.of_nat k) ∈ seen_ids.
Proof.
  revert id counter. induction fuel as [| fuel IH]; intros id counter Hnone k Hk.
  - lia.
  - simpl in Hnone. case_bool_decide as Hid; [| discriminate].
    fold (candidate original_id counter) in Hnone.
    destruct k as [| k].
    + replace (counter + Z.of_nat 0)%Z with counter by lia.
      destruct fuel; simpl in Hnone; case_bool_decide; done.
    + replace (counter + Z.of_nat (S k))%Z
        with ((counter + 1) + Z.of_nat k)%Z by lia.
      apply (IH _ _ Hnone). lia.
Qed.

Lemma candidates_bounded (seen_ids : gset string) (original_id : string)
    (counter : Z) (n : nat) :
  (forall k : nat, k < n ->
     candidate original_id (counter + Z.of_nat k) ∈ seen_ids) ->
  n <= size seen_ids.
Proof.
  intros Hall.
  set (l := map (fun k : nat => candidate original_id (counter + Z.of_nat k))
              (seq 0 n)).
  assert (Hnodup : NoDup l).
  { unfold l. apply NoDup_fmap_2_strong; [| apply NoDup_seq].
    intros a b _ _ H. apply candidate_inj in H. lia. }
  assert (Hsub : (list_to_set l : gset string) ⊆ seen_ids).
  { intros x Hx. apply elem_of_list_to_set in Hx. unfold l in Hx.
    apply list_elem_of_fmap in Hx as (k & -> & Hk).
    apply elem_of_seq in Hk. apply Hall. lia. }
  apply subseteq_size in Hsub.
  rewrite (size_list_to_set l Hnodup) in Hsub.
  unfold l in Hsub. rewrite length_map, length_seq in Hsub. exact Hsub.
Qed.

Lemma find_free_id_enough_fuel (seen_ids : gset string)
    (original_id id : string) (counter : Z) :
  exists r,
    find_free_id (S (size seen_ids)) seen_ids original_id id counter = Some r.
Proof.
  destruct (find_free_id (S (size seen_ids)) seen_ids original_id id counter)
    as [r |] eqn:E; [by exists r |].
  pose proof (find_free_id_exhausted _ _ _ _ _ E) as Hall.
  apply candidates_bounded in Hall. lia.
Qed.

(** The collision loop terminates: it needs no more rounds than one more
    than the identifiers seen, and its result is not among them. *)
Lemma free_id_fresh (seen_ids : gset string) (original_id id : string) :
  (free_id seen_ids original_id id ∉ seen_ids)
  /\ forall fuel, S (size seen_ids) <= fuel ->
       find_free_id fuel seen_ids original_id id 1
       = Some (free_id seen_ids original_id id).
Proof.
  unfold free_id.
  destruct (find_free_id_enough_fuel seen_ids original_id id 1) as [r Hr].
  rewrite Hr. simpl. split.
  - by eapply find_free_id_fresh.
  - intros fuel Hfuel.
    replace fuel with (S (size seen_ids) + (fuel - S (size seen_ids))) by lia.
    by apply find_free_id_more_fuel.
Qed.

Lemma main_step_distinct (state state' : list cosmos_app * gset string)
    (app : value) :
  ids_distinct state -> main_step state app = Ok state' -> ids_distinct state'.
Proof.
  destruct state as [cosmos_apps seen_ids]. intros [Hnd Hseen] Hstep.
  unfold main_step in Hstep.
  inv_bind Hstep.
  destruct (negb (truthy a)); [simplify_eq; by split |].
  inv_bind Hstep. rename a0 into cosmos_app.
  destruct (negb (negb (string_eqb (ca_compose cosmos_app) "")));
    [simplify_eq; by split |].
  inv_bind Hstep. rename a0 into id1.
  simplify_eq.
  pose proof (proj1 (free_id_fresh seen_ids (ca_id cosmos_app) id1)) as Hfresh.
  set (new_id := free_id seen_ids (ca_id cosmos_app) id1) in *.
  split; simpl.
  - rewrite map_app. simpl. apply NoDup_app. split; [exact Hnd |]. split.
    + intros x Hx Hx'. apply list_elem_of_singleton in Hx' as ->.
      apply list_elem_of_fmap in Hx as (c & Hc & Hin).
      apply Hfresh. rewrite Hc. by apply Hseen.
    + apply NoDup_singleton.
  - intros c Hc. apply elem_of_app in Hc as [Hc | Hc].
    + apply elem_of_union_r. by apply Hseen.
    + apply list_elem_of_singleton in Hc as ->. simpl.
      apply elem_of_union_l. by apply elem_of_singleton.
Qed.

Lemma main_loop_distinct (apps : list value)
    (state state' : list cosmos_app * gset string) :
  ids_distinct state -> main_loop apps state = Ok state' -> ids_distinct state'.
Proof.
  revert state. induction apps as [| app rest IH]; intros state Hinv Hloop.
  - simpl in Hloop. by injection Hloop as <-.
  - simpl in Hloop. inv_bind Hloop.
    eapply IH; [| exact Hloop]. by eapply main_step_distinct.
Qed.

Lemma main_step_total (state : list cosmos_app * gset string) (app : value) :
  app_wf app = true -> exists state', main_step state app = Ok state'.
Proof.
  destruct state as [cosmos_apps seen_ids].
  destruct app as [| | | | | a]; try discriminate. unfold app_wf.
  destruct (dict_get a "url" (VStr "")) as [| | | url | |] eqn:Eurl;
    try discriminate.
  destruct (dict_get a "repo" (VStr "")) as [| | | repo | |] eqn:Erepo;
    try discriminate.
  intros Hwf. apply andb_true_iff in Hwf as [Hcat Hshots].
  unfold main_step, py_get, bind at 1.
  destruct (negb (truthy (dict_get a "compose_available" (VBool false))));
    [eauto |].
  unfold convert_app_to_cosmos, repo_suffix, py_get. rewrite Eurl, Erepo.
  unfold extract_app_folder_from_url, get_branch_from_url. cbn [bind].
  destruct (py_iter (dict_get a "screenshots" (VList []))) as [shots |];
    [cbn [bind] | discriminate].
  assert (Htags : exists tags,
             get_tags_from_category (dict_get a "category" (VStr ""))
             = Ok tags).
  { unfold get_tags_from_category.
    destruct (dict_get a "category" (VStr "")) as [| b | z | c | l | d];
      try (rewrite Hcat; eauto); try (simpl; eauto; fail).
    destruct (negb (truthy (VStr c))); [eauto |].
    destruct (string_eqb c "Uncategorized"); eauto. }
  destruct Htags as [tags ->]. cbn [bind ca_compose ca_id].
  match goal with
  | |- context [if negb ?b then _ else _] => destruct (negb b)
  end; [eauto |].
  case_bool_decide; cbn [bind]; eauto.
Qed.

Lemma main_loop_total (apps : list value)
    (state : list cosmos_app * gset string) :
  Forall (fun app => app_wf app = true) apps ->
  exists state', main_loop apps state = Ok state'.
Proof.
  intros Hwf. revert state.
  induction Hwf as [| app rest Happ _ IH]; intros state; simpl; [eauto |].
  destruct (main_step_total state app Happ) as [state' ->]. simpl. apply IH.
Qed.

(** C9: whenever [main] writes its output the identifiers in it are
    pairwise distinct, and it does write one for every list of well-formed
    app entries: the collision loop always ends, on an identifier not seen
    before. *)
Theorem main_ids_distinct :
  (forall data out, main data = Ok out -> NoDup (map ca_id out))
  /\ (forall apps,
        Forall (fun app => app_wf app = true) apps ->
        exists out,
          main (VDict [("apps", VList apps)]) = Ok out
          /\ NoDup (map ca_id out))
  /\ (forall seen_ids original_id id,
        (free_id seen_ids original_id id ∉ seen_ids)
        /\ forall fuel, S (size seen_ids) <= fuel ->
             find_free_id fuel seen_ids original_id id 1
             = Some (free_id seen_ids original_id id)).
Proof.
  assert (Hmain : forall data out,
             main data = Ok out -> NoDup (map ca_id out)).
  { intros data out Hm. unfold main in Hm.
    inv_bind Hm. inv_bind Hm. inv_bind Hm. injection Hm as <-.
    eapply (main_loop_distinct _ ([], ∅)); [| exact E1].
    split; simpl; [constructor | intros c Hc; by apply elem_of_nil in Hc]. }
  split; [exact Hmain |]. split; [| apply free_id_fresh].
  intros apps Hwf.
  destruct (main_loop_total apps ([], ∅) Hwf) as [[out seen_ids] Hloop].
  assert (Hrun : main (VDict [("apps", VList apps)]) = Ok out).
  { unfold main. simpl. rewrite Hloop. reflexivity. }
  exists out. split; [exact Hrun |]. by eapply Hmain.
Qed.

Lemma main_step_listed (cosmos_apps out : list cosmos_app)
    (seen_ids seen_ids' : gset string) (app : value) :
  main_step (cosmos_apps, seen_ids) app = Ok (out, seen_ids') ->
  exists new, out = (cosmos_apps ++ new)%list
              /\ Forall2 renamed (omap listed [app]) new.
Proof.
  intros Hstep. unfold main_step in Hstep. simpl. unfold listed.
  inv_bind Hstep.
  destruct (truthy a); simpl in Hstep.
  - inv_bind Hstep. rename a0 into cosmos_app.
    destruct (string_eqb (ca_compose cosmos_app) ""); simpl in Hstep.
    + simplify_eq. exists []. split; [by rewrite app_nil_r | constructor].
    + inv_bind Hstep. simplify_eq.
      eexists [_]. split; [reflexivity |].
      repeat constructor.
  - simplify_eq. exists []. split; [by rewrite app_nil_r | constructor].
Qed.

Lemma main_loop_listed (apps : list value) (cosmos_apps out : list cosmos_app)
    (seen_ids seen_ids' : gset string) :
  main_loop apps (cosmos_apps, seen_ids) = Ok (out, seen_ids') ->
  exists new, out = (cosmos_apps ++ new)%list
              /\ Forall2 renamed (omap listed apps) new.
Proof.
  revert cosmos_apps seen_ids.
  induction apps as [| app rest IH]; intros cosmos_apps seen_ids Hloop.
  - simpl in Hloop. simplify_eq.
    exists []. split; [by rewrite app_nil_r | constructor].
  - simpl in Hloop. inv_bind Hloop. destruct a as [mid seen_mid].
    apply main_step_listed in E as (new1 & -> & H1).
    apply IH in Hloop as (new2 & -> & H2).
    exists (new1 ++ new2)%list. split; [by rewrite app_assoc |].
    change (app :: rest) with ([app] ++ rest)%list.
    rewrite omap_app. by apply Forall2_app.
Qed.

(** C10: the output of [main] is, entry for entry and in order, the
    conversion of exactly the input apps whose [compose_available] is
    true and for which a compose URL could be built; an app whose
    [compose_available] is false or absent contributes no entry. *)
Theorem main_lists_available (data : value) (out : list cosmos_app) :
  main data = Ok out ->
  (exists apps,
      (let* apps_field := py_get data "apps" (VList []) in py_iter apps_field)
      = Ok apps
      /\ Forall2 renamed (omap listed apps) out
      /\ forall written, written ∈ out ->
           ca_compose written <> ""
           /\ exists app converted,
                app ∈ apps /\ listed app = Some converted
                /\ renamed converted written)
  /\ (forall app converted,
        listed app = Some converted ->
        exists a available,
          app = VDict a
          /\ dict_get a "compose_available" (VBool false) = available
          /\ truthy available = true
          /\ (forall b, available = VBool b -> b = true)
          /\ convert_app_to_cosmos app = Ok converted
          /\ ca_compose converted <> "")
  /\ (forall a,
        lookup_key "compose_available" a = None
        \/ lookup_key "compose_available" a = Some (VBool false) ->
        listed (VDict a) = None).
Proof.
  intros Hmain.
  assert (Hlisted : forall app converted,
        listed app = Some converted ->
        exists a available,
          app = VDict a
          /\ dict_get a "compose_available" (VBool false) = available
          /\ truthy available = true
          /\ (forall b, available = VBool b -> b = true)
          /\ convert_app_to_cosmos app = Ok converted
          /\ ca_compose converted <> "").
  { intros app converted Hl. unfold listed in Hl.
    destruct app as [| | | | | a]; try discriminate. cbn [py_get] in Hl.
    destruct (truthy (dict_get a "compose_available" (VBool false))) eqn:Ht;
      [| discriminate].
    destruct (convert_app_to_cosmos (VDict a)) as [c |] eqn:Ec;
      [| discriminate].
    destruct (string_eqb (ca_compose c) "") eqn:Eu; [discriminate |].
    injection Hl as <-. exists a, (dict_get a "compose_available" (VBool false)).
    repeat split; try assumption; try reflexivity.
    - intros b Hb. rewrite Hb in Ht. exact Ht.
    - by apply string_eqb_false. }
  split; [| split; [exact Hlisted |]].
  - unfold main in Hmain.
    inv_bind Hmain. inv_bind Hmain. inv_bind Hmain. simplify_eq.
    destruct a1 as [out seen_ids]. simpl.
    apply main_loop_listed in E1 as (new & -> & Hnew). simpl in *.
    exists a0. split; [by rewrite E0 |]. split; [exact Hnew |].
    intros written Hw.
    apply list_elem_of_lookup in Hw as [i Hi].
    destruct (Forall2_lookup_r _ _ _ _ _ Hnew Hi) as (converted & Hc & Hren).
    apply list_elem_of_lookup_2 in Hc.
    apply list_elem_of_omap in Hc as (app & Happ & Hl).
    split.
    + destruct (Hlisted _ _ Hl) as (a' & v & _ & _ & _ & _ & _ & Hurl).
      rewrite Hren. exact Hurl.
    + by exists app, converted.
  - intros a Ha. unfold listed, py_get, dict_get.
    destruct Ha as [-> | ->]; reflexivity.
Qed.

End MarketFacts.

(** ** Lists of [key=value] entries *)

Lemma str_app_assoc (a b c : string) : (a +:+ b) +:+ c = a +:+ (b +:+ c).
Proof.
  induction a as [| x a IH]; [reflexivity |].
  change (String x ((a +:+ b) +:+ c) = String x (a +:+ b +:+ c)).
  by rewrite IH.
Qed.

Lemma str_app_nil_r (a : string) : a +:+ "" = a.
Proof.
  induction a as [| x a IH]; [reflexivity |].
  change (String x (a +:+ "") = String x a). by rewrite IH.
Qed.

Lemma split_first_app (c : ascii) (k v : string) :
  has_char c k = false ->
  split_first c (k +:+ String c v) = Some (k, v).
Proof.
  induction k as [| a k IH]; simpl.
  - intros _. by rewrite bool_decide_eq_true_2.
  - intros H. apply orb_false_iff in H as [Ha Hk].
    rewrite Ha. by rewrite (IH Hk).
Qed.

Lemma contains_char (c : ascii) (s : string) :
  contains (String c EmptyString) s = has_char c s.
Proof.
  induction s as [| a s IH]; simpl; [reflexivity |].
  rewrite IH. destruct (bool_decide (c = a)) eqn:E1;
    destruct (bool_decide (a = c)) eqn:E2; try reflexivity.
  - apply bool_decide_eq_true in E1. apply bool_decide_eq_false in E2.
    congruence.
  - apply bool_decide_eq_false in E1. apply bool_decide_eq_true in E2.
    congruence.
Qed.

Lemma has_char_app (c : ascii) (a b : string) :
  has_char c (a +:+ b) = has_char c a || has_char c b.
Proof.
  induction a as [| x a IH]; simpl; [reflexivity |].
  rewrite IH. by rewrite orb_assoc.
Qed.

Lemma has_char_sep (c : ascii) (k v : string) :
  has_char c (k +:+ String c v) = true.
Proof.
  rewrite has_char_app. simpl. rewrite bool_decide_eq_true_2 by done.
  by rewrite orb_true_r.
Qed.

Lemma first_segment_app (c : ascii) (k v : string) :
  has_char c k = false -> first_segment c (k +:+ String c v) = k.
Proof. intros H. unfold first_segment. by rewrite split_first_app. Qed.

Lemma last_segment_app (c : ascii) (n t : string) :
  has_char c t = false -> last_segment c (n +:+ String c t) = t.
Proof.
  intros Ht. induction n as [| a n IH]; simpl.
  - rewrite Ht. by rewrite bool_decide_eq_true_2.
  - rewrite has_char_app. simpl. rewrite bool_decide_eq_true_2 by done.
    rewrite orb_true_r. simpl. exact IH.
Qed.

Lemma lookup_dict_set (k : string) (v : value) (d : pydict) :
  lookup_key k (dict_set k v d) = Some v.
Proof.
  induction d as [| [k' v'] d IH]; simpl.
  - unfold string_eqb. by rewrite bool_decide_eq_true_2.
  - destruct (string_eqb k' k) eqn:E; simpl.
    + unfold string_eqb. by rewrite bool_decide_eq_true_2.
    + by rewrite E.
Qed.

Lemma pairs_to_dict_app (l1 l2 : list value) (acc : pydict) :
  pairs_to_dict (l1 ++ l2)%list acc
  = (let* d := pairs_to_dict l1 acc in pairs_to_dict l2 d).
Proof.
  revert acc. induction l1 as [| entry l1 IH]; intros acc; [reflexivity |].
  cbn [app pairs_to_dict].
  destruct (py_in "=" entry) as [has_eq |]; cbn [bind]; [| reflexivity].
  destruct has_eq; [| apply IH].
  destruct entry; try reflexivity.
  destruct (split_first "=" s) as [[key v] |]; apply IH.
Qed.

Lemma pairs_to_dict_last (key v : string) (acc : pydict) :
  has_char "=" key = false ->
  pairs_to_dict [VStr (key +:+ String "=" v)] acc
  = Ok (dict_set key (VStr v) acc).
Proof.
  intros Hk. cbn [pairs_to_dict py_in bind].
  rewrite contains_char, has_char_sep.
  by rewrite split_first_app.
Qed.

Lemma pairs_to_dict_skip (s : string) (rest : list value) (acc : pydict) :
  has_char "=" s = false ->
  pairs_to_dict (VStr s :: rest) acc = pairs_to_dict rest acc.
Proof.
  intros Hs. cbn [pairs_to_dict py_in bind]. by rewrite contains_char, Hs.
Qed.

Lemma split_first_inv (c : ascii) (s k v : string) :
  split_first c s = Some (k, v) ->
  s = k +:+ String c v /\ has_char c k = false.
Proof.
  revert k. induction s as [| a s IH]; intros k; cbn [split_first];
    [discriminate |].
  case_bool_decide as Ha.
  - intros [= <- <-]. by subst a.
  - destruct (split_first c s) as [[k' v'] |]; [| discriminate].
    intros [= <- <-]. destruct (IH k' eq_refl) as [-> Hk]. split; [done |].
    cbn [has_char]. by rewrite bool_decide_eq_false_2, Hk.
Qed.

Lemma is_prefix_app (p s : string) : is_prefix p (p +:+ s) = true.
Proof.
  induction p as [| a p IH]; [reflexivity |].
  change (String a p +:+ s) with (String a (p +:+ s)).
  cbn [is_prefix]. by rewrite bool_decide_eq_true_2, IH.
Qed.

Lemma lookup_dict_set_ne (k k' : string) (v : value) (d : pydict) :
  k <> k' -> lookup_key k' (dict_set k v d) = lookup_key k' d.
Proof.
  intros Hne. apply string_eqb_false in Hne.
  induction d as [| [k0 v0] d IH]; cbn [dict_set lookup_key].
  - by rewrite Hne.
  - destruct (string_eqb k0 k) eqn:E; cbn [lookup_key].
    + rewrite Hne. unfold string_eqb in E. apply bool_decide_eq_true in E.
      subst k0. by rewrite Hne.
    + by rewrite IH.
Qed.

(** Entries that do not start with [key=] leave the value of [key] as it
    was. *)
Lemma pairs_to_dict_other (entries : list string) (key : string)
    (acc : pydict) :
  Forall (fun e => is_prefix (key +:+ "=") e = false) entries ->
  exists d,
    pairs_to_dict (map VStr entries) acc = Ok d
    /\ lookup_key key d = lookup_key key acc.
Proof.
  intros Hall. revert acc.
  induction Hall as [| e entries He _ IH]; intros acc; [by exists acc |].
  cbn [map pairs_to_dict py_in bind].
  destruct (contains "=" e); [| apply IH].
  destruct (split_first "=" e) as [[k v] |] eqn:Es; [| apply IH].
  destruct (IH (dict_set k (VStr v) acc)) as (d & Hd & Hlookup).
  exists d. split; [exact Hd |]. rewrite Hlookup.
  apply lookup_dict_set_ne. intros ->.
  apply split_first_inv in Es as [-> _].
  assert (Hp : is_prefix (key +:+ "=") (key +:+ String "=" v) = true).
  { change (String "=" v) with ("=" +:+ v).
    rewrite <- str_app_assoc. apply is_prefix_app. }
  congruence.
Qed.

(** Lists of strings are always read. *)
Lemma pairs_to_dict_total (entries : list string) (acc : pydict) :
  exists d, pairs_to_dict (map VStr entries) acc = Ok d.
Proof.
  revert acc. induction entries as [| e entries IH]; intros acc;
    [by exists acc |].
  cbn [map pairs_to_dict py_in bind].
  destruct (contains "=" e); [| apply IH].
  destruct (split_first "=" e) as [[k v] |]; apply IH.
Qed.

(** The last entry for a key decides its value. *)
Lemma pairs_to_dict_last_wins (before after : list string) (key v : string)
    (acc : pydict) :
  has_char "=" key = false ->
  Forall (fun e => is_prefix (key +:+ "=") e = false) after ->
  exists d,
    pairs_to_dict (map VStr (before ++ [key +:+ "=" +:+ v] ++ after)) acc
    = Ok d
    /\ lookup_key key d = Some (VStr v).
Proof.
  intros Hkey Hafter.
  destruct (pairs_to_dict_total before acc) as [d1 Hd1].
  destruct (pairs_to_dict_other after key (dict_set key (VStr v) d1) Hafter)
    as (d & Hd & Hlookup).
  exists d. split; [| by rewrite Hlookup, lookup_dict_set].
  rewrite !map_app, !pairs_to_dict_app, Hd1. cbn [bind map].
  rewrite pairs_to_dict_app.
  change (key +:+ "=" +:+ v) with (key +:+ String "=" v).
  by rewrite (pairs_to_dict_last key v d1 Hkey).
Qed.

(** An entry without [=] is passed over. *)
Lemma pairs_to_dict_plain (before after : list string) (e : string)
    (acc : pydict) :
  has_char "=" e = false ->
  pairs_to_dict (map VStr (before ++ [e] ++ after)) acc
  = pairs_to_dict (map VStr (before ++ after)) acc.
Proof.
  intros He. rewrite !map_app, !pairs_to_dict_app.
  destruct (pairs_to_dict (map VStr before) acc) as [d |]; cbn [bind];
    [| reflexivity].
  cbn [map]. rewrite pairs_to_dict_app.
  by rewrite (pairs_to_dict_skip e [] d He).
Qed.

(** ** Metadata resolver *)

Section ResolverFacts.
Context `{B : Builtins}.

(** What a successful run of the resolver on a non-empty compose document
    went through. *)
Lemma extract_inv (compose_data conf_data : value) (md : pydict) :
  extract_compose_metadata compose_data conf_data = Ok md ->
  truthy compose_data = true ->
  exists casaos_info services main_service labels label_dict
         t title i icon d description category a author version
         port v environment memory,
    py_get compose_data "x-casaos" (VDict []) = Ok casaos_info
    /\ py_get compose_data "services" (VDict []) = Ok services
    /\ first_service services = Ok main_service
    /\ py_get main_service "labels" (VList []) = Ok labels
    /\ label_dict_of labels = Ok label_dict
    /\ py_get casaos_info "title" VNone = Ok t
    /\ priority_chain (localized t) label_dict conf_data
         "casaos.title" "title" (VStr "") = Ok title
    /\ py_get casaos_info "icon" VNone = Ok i
    /\ priority_chain i label_dict conf_data "casaos.icon" "icon" (VStr "")
       = Ok icon
    /\ resolve_description casaos_info = Ok d
    /\ priority_chain d label_dict conf_data
         "casaos.description" "description" (VStr "") = Ok description
    /\ resolve_category casaos_info label_dict conf_data title = Ok category
    /\ py_get casaos_info "author" VNone = Ok a
    /\ priority_chain a label_dict conf_data "casaos.author" "author" (VStr "")
       = Ok author
    /\ resolve_version label_dict main_service = Ok version
    /\ resolve_port main_service = Ok port
    /\ py_get main_service "volumes" (VList []) = Ok v
    /\ resolve_environment main_service = Ok environment
    /\ resolve_memory main_service = Ok memory
    /\ md = ([ ("title", title); ("icon", icon); ("description", description);
               ("category", category); ("author", author);
               ("version", version) ]
             ++ opt_entry "port" port
             ++ [ ("volumes", if truthy v then v else VList []);
                  ("environment", environment) ]
             ++ opt_entry "memory" memory)%list.
Proof.
  intros H Ht. unfold extract_compose_metadata in H. rewrite Ht in H.
  cbn [negb] in H.
  repeat match type of H with
         | bind ?m _ = Ok _ =>
             let E := fresh "E" in
             destruct m eqn:E; cbn [bind] in H; [| discriminate H]
         end.
  injection H as <-.
  do 19 eexists.
  repeat (split; [first [eassumption | reflexivity] |]). reflexivity.
Qed.

Lemma lookup_md (k : string) (title icon description category author version
    volumes environment : value) (port memory : option value) :
  let md := ([ ("title", title); ("icon", icon); ("description", description);
               ("category", category); ("author", author);
               ("version", version) ]
             ++ opt_entry "port" port
             ++ [ ("volumes", volumes); ("environment", environment) ]
             ++ opt_entry "memory" memory)%list in
  lookup_key "title" md = Some title
  /\ lookup_key "category" md = Some category
  /\ lookup_key "volumes" md = Some volumes
  /\ map fst md
     = (["title"; "icon"; "description"; "category"; "author"; "version"]
        ++ map fst (opt_entry "port" port)
        ++ ["volumes"; "environment"]
        ++ map fst (opt_entry "memory" memory))%list.
Proof.
  destruct port, memory; repeat split.
Qed.

(** ** Priority of the three sources *)

Lemma resolve_version_dict (label_dict main_service version : value) :
  resolve_version label_dict main_service = Ok version ->
  exists ld, label_dict = VDict ld.
Proof.
  unfold resolve_version. destruct label_dict; try discriminate. eauto.
Qed.

End ResolverFacts.

Section ShapeFacts.
Context `{B : Builtins}.

Lemma dict_set_string_values (k s : string) (d : pydict) :
  string_values d -> string_values (dict_set k (VStr s) d).
Proof.
  induction 1 as [| [k' v'] d Hv Hd IH]; simpl.
  - repeat constructor.
  - destruct (string_eqb k' k); constructor; auto.
Qed.

Lemma dict_get_string_values (d : pydict) (k : string) (dflt : value) :
  string_values d -> text_or_empty dflt = true ->
  text_or_empty (dict_get d k dflt) = true.
Proof.
  intros Hd Hdflt. unfold dict_get.
  destruct (lookup_key k d) as [v |] eqn:E; [| exact Hdflt].
  induction Hd as [| [k' v'] d Hv Hd IH]; simpl in E; [discriminate |].
  destruct (string_eqb k' k); [| by apply IH].
  injection E as <-. unfold text_or_empty. simpl in Hv. by rewrite Hv.
Qed.

Lemma pairs_to_dict_strings (entries : list value) (acc : pydict) :
  strings_only entries = true -> string_values acc ->
  exists d, pairs_to_dict entries acc = Ok d /\ string_values d.
Proof.
  revert acc. induction entries as [| entry rest IH]; intros acc Hs Hacc.
  - exists acc. by split.
  - simpl in Hs. apply andb_true_iff in Hs as [He Hrest].
    destruct entry as [| | | s | |]; try discriminate.
    simpl. destruct (contains "=" s); [| by apply IH].
    destruct (split_first "=" s) as [[key v] |]; [| by apply IH].
    apply IH; [exact Hrest |]. by apply dict_set_string_values.
Qed.

Lemma label_dict_of_shaped (labels : value) :
  labels_shaped labels = true ->
  exists ld, label_dict_of labels = Ok (VDict ld)
             /\ text_or_empty (dict_get ld "casaos.title" VNone) = true.
Proof.
  unfold labels_shaped, label_dict_of.
  destruct labels as [| b | z | s | entries | ld]; simpl.
  - intros _. by exists [].
  - destruct b; [discriminate |]. intros _. by exists [].
  - destruct (z =? 0)%Z; [| discriminate]. intros _. by exists [].
  - destruct (string_eqb s ""); [| discriminate]. intros _. by exists [].
  - intros Hs.
    destruct (pairs_to_dict_strings entries [] Hs) as (d & -> & Hd);
      [constructor |].
    exists d. split; [reflexivity |]. by apply dict_get_string_values.
  - intros Hld. destruct ld as [| p ld]; [by exists [] |].
    by exists (p :: ld).
Qed.

Lemma priority_chain_total (first : value) (ld conf : pydict)
    (lkey ckey : string) (cdflt : value) :
  exists r,
    priority_chain first (VDict ld) (VDict conf) lkey ckey cdflt = Ok r.
Proof.
  unfold priority_chain, or_else. destruct (truthy first); [eauto |].
  cbn [py_get bind]. destruct (truthy (dict_get ld lkey VNone)); eauto.
Qed.

Lemma text_truthy_vstr (v : value) :
  text_or_empty v = true -> truthy v = true -> is_vstr v = true.
Proof.
  unfold text_or_empty. intros H Ht. rewrite Ht in H.
  by rewrite orb_false_r in H.
Qed.

(** With texts in all three sources the resolved title is a string. *)
Lemma title_chain_string (first : value) (ld conf : pydict) (title : value) :
  text_or_empty first = true ->
  text_or_empty (dict_get ld "casaos.title" VNone) = true ->
  is_vstr (dict_get conf "title" (VStr "")) = true ->
  priority_chain first (VDict ld) (VDict conf) "casaos.title" "title" (VStr "")
  = Ok title ->
  is_vstr title = true.
Proof.
  intros Hf Hl Hc. unfold priority_chain, or_else.
  destruct (truthy first) eqn:Ef.
  - intros [= <-]. by apply text_truthy_vstr.
  - cbn [py_get bind].
    destruct (truthy (dict_get ld "casaos.title" VNone)) eqn:El.
    + intros [= <-]. by apply text_truthy_vstr.
    + intros [= <-]. exact Hc.
Qed.

Lemma resolve_description_total (casaos_info : pydict) :
  exists d, resolve_description (VDict casaos_info) = Ok d.
Proof.
  unfold resolve_description. cbn [py_get bind].
  destruct (truthy (localized (dict_get casaos_info "description" VNone)));
    [eauto |].
  destruct (dict_get casaos_info "tagline" VNone); eauto.
Qed.

Lemma resolve_category_total (casaos_info ld conf : pydict) (title : value) :
  is_vstr title = true ->
  is_vstr (dict_get conf "title" (VStr "")) = true ->
  exists category,
    resolve_category (VDict casaos_info) (VDict ld) (VDict conf) title
    = Ok category.
Proof.
  intros Ht Hc. unfold resolve_category. cbn [py_get bind].
  destruct (priority_chain_total (dict_get casaos_info "category" VNone)
              ld conf "casaos.category" "category" VNone) as [c ->].
  cbn [bind]. destruct (truthy c); cbn [bind]; [eauto |].
  unfold or_else. destruct (truthy title).
  - destruct title; try discriminate. cbn [bind py_lower].
    destruct (infer_category category_mapping (lower s)); cbn [bind]; eauto.
  - cbn [py_get]. destruct (dict_get conf "title" (VStr ""));
      try discriminate. cbn [bind py_lower].
    destruct (infer_category category_mapping (lower s)); cbn [bind]; eauto.
Qed.

Lemma resolve_category_truthy (casaos_info label_dict conf_data title
    category : value) :
  resolve_category casaos_info label_dict conf_data title = Ok category ->
  truthy category = true.
Proof.
  unfold resolve_category. intros H.
  inv_bind H. inv_bind H. inv_bind H. injection H as <-.
  destruct (truthy a1) eqn:E2; [exact E2 | reflexivity].
Qed.

Lemma resolve_version_total (ld main_service : pydict) :
  is_vstr (dict_get main_service "image" (VStr "")) = true ->
  exists version,
    resolve_version (VDict ld) (VDict main_service) = Ok version.
Proof.
  intros Hi. unfold resolve_version. cbn [py_get bind].
  destruct (dict_get main_service "image" (VStr "")); try discriminate.
  cbn [py_in bind]. destruct (contains ":" s); cbn [bind]; eauto.
Qed.

Lemma resolve_port_total (main_service : pydict) :
  ports_shaped (dict_get main_service "ports" (VList [])) = true ->
  exists port, resolve_port (VDict main_service) = Ok port.
Proof.
  intros Hp. unfold resolve_port. cbn [py_get bind].
  destruct (dict_get main_service "ports" (VList [])) as [| b | z | s | l | d];
    unfold ports_shaped in Hp;
    try (apply negb_true_iff in Hp; rewrite Hp; eauto; fail).
  - destruct s as [| c s]; [simpl; eauto |].
    cbn [truthy py_first bind].
    destruct (negb (string_eqb (String c s) "")); [| eauto].
    cbn [bind py_str].
    destruct (contains ":" (String c EmptyString)); eauto.
  - destruct l as [| x l]; [simpl; eauto |]. cbn [truthy py_first bind].
    destruct x; try (destruct (contains ":" _)); eauto.
Qed.

Lemma resolve_environment_total (main_service : pydict) :
  environment_shaped (dict_get main_service "environment" (VList [])) = true ->
  exists environment,
    resolve_environment (VDict main_service) = Ok environment.
Proof.
  intros He. unfold resolve_environment. cbn [py_get bind].
  destruct (dict_get main_service "environment" (VList [])); eauto.
  simpl in He.
  destruct (pairs_to_dict_strings l [] He) as (d & -> & _); [constructor |].
  cbn [bind]. eauto.
Qed.

Lemma existsb_key_lookup (k : string) (d : pydict) :
  existsb (fun p => string_eqb (fst p) k) d
  = match lookup_key k d with Some _ => true | None => false end.
Proof.
  induction d as [| [k' v] d IH]; simpl; [reflexivity |].
  destruct (string_eqb k' k); [reflexivity | exact IH].
Qed.

Lemma resolve_memory_total (main_service : pydict) :
  deploy_shaped main_service = true ->
  exists memory, resolve_memory (VDict main_service) = Ok memory.
Proof.
  unfold deploy_shaped, resolve_memory. cbn [py_in bind py_index].
  rewrite existsb_key_lookup.
  destruct (lookup_key "deploy" main_service) as [deploy |]; [| eauto].
  destruct deploy as [| | | | | deploy]; try discriminate.
  cbn [bind py_in py_index]. rewrite existsb_key_lookup.
  destruct (lookup_key "resources" deploy) as [resources |]; [| eauto].
  destruct resources as [| | | | | resources]; try discriminate.
  cbn [bind py_get].
  destruct (dict_get resources "limits" (VDict [])); try discriminate.
  cbn [bind py_get]. eauto.
Qed.

End ShapeFacts.

Section ResolverTotality.
Context `{B : Builtins}.

Lemma extract_on_service (d conf casaos_info main_service : pydict)
    (services : value) :
  truthy (VDict d) = true ->
  dict_get d "x-casaos" (VDict []) = VDict casaos_info ->
  dict_get d "services" (VDict []) = services ->
  first_service services = Ok (VDict main_service) ->
  text_or_empty (localized (dict_get casaos_info "title" VNone)) = true ->
  is_vstr (dict_get conf "title" (VStr "")) = true ->
  service_shaped main_service = true ->
  exists md, extract_compose_metadata (VDict d) (VDict conf) = Ok md.
Proof.
  intros Ht Hci Hsv Hms Htitle Hconf Hshape.
  unfold service_shaped in Hshape.
  repeat (apply andb_true_iff in Hshape as [Hshape ?]).
  unfold extract_compose_metadata. rewrite Ht. cbn [negb py_get bind].
  rewrite Hci, Hsv. cbn [bind]. rewrite Hms. cbn [bind py_get].
  destruct (label_dict_of_shaped _ Hshape) as (ld & -> & Hlabel).
  cbn [bind].
  destruct (priority_chain_total
              (localized (dict_get casaos_info "title" VNone)) ld conf
              "casaos.title" "title" (VStr "")) as [title Etitle].
  rewrite Etitle. cbn [bind].
  pose proof (title_chain_string _ _ _ _ Htitle Hlabel Hconf Etitle) as Hstr.
  destruct (priority_chain_total (dict_get casaos_info "icon" VNone) ld conf
              "casaos.icon" "icon" (VStr "")) as [icon ->].
  cbn [bind].
  destruct (resolve_description_total casaos_info) as [desc ->]. cbn [bind].
  destruct (priority_chain_total desc ld conf
              "casaos.description" "description" (VStr "")) as [description ->].
  cbn [bind].
  destruct (resolve_category_total casaos_info ld conf title Hstr Hconf)
    as [category ->].
  cbn [bind].
  destruct (priority_chain_total (dict_get casaos_info "author" VNone) ld conf
              "casaos.author" "author" (VStr "")) as [author ->].
  cbn [bind].
  destruct (resolve_version_total ld main_service) as [version ->];
    [assumption |].
  cbn [bind].
  destruct (resolve_port_total main_service) as [port ->]; [assumption |].
  cbn [bind].
  destruct (resolve_environment_total main_service) as [environment ->];
    [assumption |].
  cbn [bind].
  destruct (resolve_memory_total main_service) as [memory ->]; [assumption |].
  cbn [bind]. eauto.
Qed.

(** C8, as the code has it: on an empty compose document the resolver
    returns the empty mapping whatever the conf data are; on a compose
    document and conf data of the shapes [well_shaped] it returns a
    mapping; and it is not total: on a compose document whose first service
    is not a mapping it raises, whatever else the document and the conf
    data hold. *)
Theorem extract_compose_metadata_total (compose_data conf_data : value) :
  (truthy compose_data = false ->
   extract_compose_metadata compose_data conf_data = Ok [])
  /\ (well_shaped compose_data conf_data = true ->
      exists md, extract_compose_metadata compose_data conf_data = Ok md)
  /\ (forall d name main_service others,
        compose_data = VDict d ->
        dict_get d "services" (VDict [])
        = VDict ((name, main_service) :: others) ->
        (forall ms, main_service <> VDict ms) ->
        extract_compose_metadata compose_data conf_data
        = Raise AttributeError).
Proof.
  split; [| split].
  - intros Ht. unfold extract_compose_metadata. by rewrite Ht.
  - unfold well_shaped.
    destruct compose_data as [| | | | | d]; try discriminate.
    destruct conf_data as [| | | | | conf]; try discriminate.
    destruct (dict_get d "x-casaos" (VDict [])) as [| | | | | casaos_info]
      eqn:Hci; try discriminate.
    intros H. apply andb_true_iff in H as [H Hsv].
    apply andb_true_iff in H as [Htitle Hconf].
    destruct (truthy (VDict d)) eqn:Ht;
      [| exists []; unfold extract_compose_metadata; by rewrite Ht].
    cbv zeta in Hsv.
    destruct (truthy (dict_get d "services" (VDict []))) eqn:Hts.
    + destruct (dict_get d "services" (VDict [])) as [| | | | | sv] eqn:Esv;
        try discriminate.
      destruct sv as [| [name ms] sv]; [discriminate |].
      destruct ms as [| | | | | main_service]; try discriminate.
      eapply (extract_on_service d conf casaos_info main_service); eauto;
        try (unfold first_service; by rewrite Hts).
    + eapply (extract_on_service d conf casaos_info []); eauto;
        try (unfold first_service; by rewrite Hts).
  - intros d name main_service others -> Hsv Hms.
    assert (Ht : truthy (VDict d) = true) by by destruct d.
    unfold extract_compose_metadata. rewrite Ht.
    cbn [negb py_get bind]. rewrite Hsv.
    unfold first_service. cbn [truthy negb bind].
    destruct main_service; try reflexivity. exfalso. by eapply Hms.
Qed.

End ResolverTotality.

Section TitlePriority.
Context `{B : Builtins}.




End TitlePriority.


(** ** The assembled record *)

Section RecordFacts.
Context `{B : Builtins}.

Lemma truthy_not_none (v : value) : truthy v = true -> v <> VNone.
Proof. intros H ->. discriminate. Qed.

Lemma or_else_final (a c : value) (final r : value) :
  final <> VNone ->
  or_else a (let* x := Ok c in or_else x (Ok final)) = Ok r ->
  r <> VNone.
Proof.
  intros Hf. unfold or_else. cbn [bind].
  destruct (truthy a) eqn:Ea; [intros [= <-]; by apply truthy_not_none |].
  destruct (truthy c) eqn:Ec; intros [= <-]; [by apply truthy_not_none | done].
Qed.

Lemma extract_category_truthy (compose_data conf_data : value) (md : pydict) :
  extract_compose_metadata compose_data conf_data = Ok md ->
  truthy (dict_get md "category" (VStr "Uncategorized")) = true.
Proof.
  intros H. destruct (truthy compose_data) eqn:Ht.
  - destruct (extract_inv _ _ _ H Ht)
      as (ci & sv & ms & lbs & ld & t & title & i & icon & d & desc & cat & a
          & author & ver & port & v & env & mem
          & _ & _ & _ & _ & _ & _ & _ & _ & _ & _ & _ & Hcat & _ & _ & _ & _
          & _ & _ & _ & ->).
    unfold dict_get.
    rewrite (proj1 (proj2 (lookup_md "category" title icon desc cat author ver
                             (if truthy v then v else VList []) env port mem))).
    by eapply resolve_category_truthy.
  - unfold extract_compose_metadata in H. rewrite Ht in H.
    injection H as <-. reflexivity.
Qed.

Lemma extract_volumes_defined (compose_data conf_data : value) (md : pydict) :
  extract_compose_metadata compose_data conf_data = Ok md ->
  dict_get md "volumes" (VList []) <> VNone.
Proof.
  intros H. destruct (truthy compose_data) eqn:Ht.
  - destruct (extract_inv _ _ _ H Ht)
      as (ci & sv & ms & lbs & ld & t & title & i & icon & d & desc & cat & a
          & author & ver & port & v & env & mem
          & _ & _ & _ & _ & _ & _ & _ & _ & _ & _ & _ & _ & _ & _ & _ & _
          & _ & _ & _ & ->).
    unfold dict_get.
    rewrite (proj1 (proj2 (proj2
               (lookup_md "volumes" title icon desc cat author ver
                  (if truthy v then v else VList []) env port mem)))).
    destruct (truthy v) eqn:Ev; [by apply truthy_not_none | discriminate].
  - unfold extract_compose_metadata in H. rewrite Ht in H.
    injection H as <-. discriminate.
Qed.

(** What a successful run of the [try] block went through. *)
Lemma assemble_inv (last_run_time : option datetime) (owner repo : string)
    (repo_stats : value) (fv : folder_visit) (app_data : pydict) :
  assemble last_run_time owner repo repo_stats fv = Ok app_data ->
  exists compose_metadata title desc icon website stars forks shots shot_count,
    extract_compose_metadata
      (get_docker_compose (fv_compose_cache fv) (fv_fetch fv)) (fv_conf fv)
    = Ok compose_metadata
    /\ title <> VNone /\ desc <> VNone /\ website <> VNone
    /\ py_index repo_stats "stars" = Ok stars
    /\ py_index repo_stats "forks" = Ok forks
    /\ app_data =
       [ ("title", title);
         ("description", desc);
         ("icon", icon);
         ("category",
           dict_get compose_metadata "category" (VStr "Uncategorized"));
         ("repo", VStr (owner +:+ "/" +:+ repo));
         ("url", website);
         ("created", opt_str (fv_created fv));
         ("author", dict_get compose_metadata "author" (VStr "Unknown"));
         ("version", dict_get compose_metadata "version" (VStr "Unknown"));
         ("port", dict_get compose_metadata "port" VNone);
         ("volumes", dict_get compose_metadata "volumes" (VList []));
         ("environment", dict_get compose_metadata "environment" (VDict []));
         ("memory", dict_get compose_metadata "memory" VNone);
         ("compose_available",
           VBool (truthy (get_docker_compose (fv_compose_cache fv)
                            (fv_fetch fv))));
         ("stars", stars);
         ("forks", forks);
         ("is_new",
           VBool (is_new last_run_time (fv_created fv)
                    (cache_exists (fv_app_cache fv))));
         ("screenshots", shots);
         ("screenshot_count", shot_count);
         ("updated_at", VStr (fv_now fv)) ].
Proof.
  intros H. unfold assemble in H. cbv zeta in H.
  inv_bind H. rename a into branch.
  inv_bind H. rename a into compose_metadata.
  inv_bind H. rename a into title.
  inv_bind H. rename a into desc.
  inv_bind H. rename a into icon.
  inv_bind H. rename a into w.
  inv_bind H. rename a into website.
  inv_bind H. rename a into stars.
  inv_bind H. rename a into forks.
  inv_bind H. rename a into shots.
  inv_bind H. rename a into shot_count.
  injection H as <-.
  exists compose_metadata, title, desc, icon, website, stars, forks, shots,
    shot_count.
  split; [reflexivity |].
  assert (Hchain : forall a conf k final r,
            final <> VNone ->
            or_else a (let* c := py_get conf k VNone in or_else c (Ok final))
            = Ok r -> r <> VNone).
  { intros a conf k final r Hf Hr.
    destruct (py_get conf k VNone) as [c |] eqn:Ec.
    - by eapply (or_else_final a c final).
    - unfold or_else in Hr. cbn [bind] in Hr.
      destruct (truthy a) eqn:Ea; [| discriminate].
      injection Hr as <-. by apply truthy_not_none. }
  split; [eapply Hchain; [| eassumption]; discriminate |].
  split; [eapply Hchain; [| eassumption]; discriminate |].
  split; [| split; [reflexivity | split; reflexivity]].
  match goal with
  | E : or_else w _ = Ok website |- _ => rename E into Hweb
  end.
  unfold or_else in Hweb. destruct (truthy w) eqn:Ew.
  - injection Hweb as <-. by apply truthy_not_none.
  - inv_bind Hweb. unfold or_else in Hweb.
    destruct (truthy a) eqn:Ea; injection Hweb as <-;
      [by apply truthy_not_none | discriminate].
Qed.


(** What a run of the handler that returned went through. *)
Lemma placeholder_inv (owner repo : string) (repo_stats : value)
    (fv : folder_visit) (app_data : pydict) :
  placeholder owner repo repo_stats fv = Ok app_data ->
  exists branch stars forks,
    py_get repo_stats "default_branch" (VStr "main") = Ok branch
    /\ py_index repo_stats "stars" = Ok stars
    /\ py_index repo_stats "forks" = Ok forks
    /\ app_data =
       [ ("title", VStr (fv_folder fv));
         ("description", VStr "Error loading app data");
         ("icon", VStr placeholder_icon);
         ("category", VStr "Error");
         ("repo", VStr (owner +:+ "/" +:+ repo));
         ("url", VStr (folder_url owner repo branch (fv_folder fv)));
         ("created", VNone);
         ("author", VStr "Unknown");
         ("version", VStr "Unknown");
         ("port", VNone);
         ("volumes", VList []);
         ("environment", VDict []);
         ("memory", VNone);
         ("compose_available", VBool false);
         ("stars", stars);
         ("forks", forks);
         ("is_new", VBool false);
         ("screenshots", VList []);
         ("screenshot_count", VInt 0);
         ("updated_at", VStr (fv_now fv)) ].
Proof.
  unfold placeholder. cbv zeta.
  destruct (py_get repo_stats "default_branch" (VStr "main")) as [branch |];
    cbn [bind]; [| discriminate].
  destruct (py_index repo_stats "stars") as [stars |];
    cbn [bind]; [| discriminate].
  destruct (py_index repo_stats "forks") as [forks |];
    cbn [bind]; [| discriminate].
  intros [= <-]. by exists branch, stars, forks.
Qed.


(** C3, as the code has it: a record built on a cache miss, by the [try]
    block or by the handler, carries all twenty fields; [title],
    [description], [category], [repo], [url], [volumes],
    [compose_available], [is_new] and [updated_at] are never null;
    [created] is null exactly when no creation date was resolved; in a
    record of the [try] block [port] and [memory] are the entries of the
    resolver's mapping, and null when it has none; and [created], [port]
    and [memory] are null in every placeholder record. *)
Theorem app_record_fields (last_run_time : option datetime)
    (owner repo : string) (repo_stats : value) (fv : folder_visit)
    (app_data : pydict) :
  assemble last_run_time owner repo repo_stats fv = Ok app_data
  \/ placeholder owner repo repo_stats fv = Ok app_data ->
  map fst app_data = app_fields
  /\ (forall k, k ∈ defined_fields -> field_defined k app_data)
  /\ (assemble last_run_time owner repo repo_stats fv = Ok app_data ->
      lookup_key "created" app_data = Some (opt_str (fv_created fv))
      /\ (lookup_key "created" app_data = Some VNone <-> fv_created fv = None)
      /\ exists compose_metadata,
           extract_compose_metadata
             (get_docker_compose (fv_compose_cache fv) (fv_fetch fv))
             (fv_conf fv) = Ok compose_metadata
           /\ (forall k, k = "port" \/ k = "memory" ->
                 (lookup_key k compose_metadata = None ->
                  lookup_key k app_data = Some VNone)
                 /\ (forall v, lookup_key k compose_metadata = Some v ->
                               lookup_key k app_data = Some v)))
  /\ (placeholder owner repo repo_stats fv = Ok app_data ->
      lookup_key "created" app_data = Some VNone
      /\ lookup_key "port" app_data = Some VNone
      /\ lookup_key "memory" app_data = Some VNone).
Proof.
  assert (Htry : assemble last_run_time owner repo repo_stats fv = Ok app_data ->
    map fst app_data = app_fields
    /\ (forall k, k ∈ defined_fields -> field_defined k app_data)
    /\ lookup_key "created" app_data = Some (opt_str (fv_created fv))
    /\ (lookup_key "created" app_data = Some VNone <-> fv_created fv = None)
    /\ exists compose_metadata,
         extract_compose_metadata
           (get_docker_compose (fv_compose_cache fv) (fv_fetch fv))
           (fv_conf fv) = Ok compose_metadata
         /\ (forall k, k = "port" \/ k = "memory" ->
               (lookup_key k compose_metadata = None ->
                lookup_key k app_data = Some VNone)
               /\ (forall v, lookup_key k compose_metadata = Some v ->
                             lookup_key k app_data = Some v))).
  { intros H.
    destruct (assemble_inv _ _ _ _ _ _ H)
      as (md & title & desc & icon & website & stars & forks & shots
          & shot_count & Hmd & Ht & Hd & Hw & _ & _ & Hdata).
    split; [by rewrite Hdata |]. split; [| split; [| split]].
    - intros k Hk. unfold defined_fields in Hk.
      pose proof (extract_category_truthy _ _ _ Hmd) as Hcat.
      pose proof (extract_volumes_defined _ _ _ Hmd) as Hvol.
      apply truthy_not_none in Hcat.
      repeat (apply elem_of_cons in Hk as [-> | Hk]);
        try (rewrite Hdata; eexists; split; [reflexivity |];
             first [assumption | discriminate]).
      by apply elem_of_nil in Hk.
    - by rewrite Hdata.
    - rewrite Hdata.
      change (lookup_key "created" _) with (Some (opt_str (fv_created fv))).
      destruct (fv_created fv); split; intros; simplify_eq; done.
    - exists md. split; [exact Hmd |].
      intros k [-> | ->]; rewrite Hdata.
      + change (lookup_key "port" (_ :: _))
          with (Some (dict_get md "port" VNone)).
        unfold dict_get. split; [by intros -> | by intros v ->].
      + change (lookup_key "memory" (_ :: _))
          with (Some (dict_get md "memory" VNone)).
        unfold dict_get. split; [by intros -> | by intros v ->]. }
  assert (Hhandler : placeholder owner repo repo_stats fv = Ok app_data ->
    map fst app_data = app_fields
    /\ (forall k, k ∈ defined_fields -> field_defined k app_data)
    /\ lookup_key "created" app_data = Some VNone
    /\ lookup_key "port" app_data = Some VNone
    /\ lookup_key "memory" app_data = Some VNone).
  { intros H.
    destruct (placeholder_inv _ _ _ _ _ H)
      as (branch & stars & forks & _ & _ & _ & ->).
    split; [reflexivity |]. split; [| repeat split].
    intros k Hk. unfold defined_fields in Hk.
    repeat (apply elem_of_cons in Hk as [-> | Hk]);
      try (eexists; split; [reflexivity | discriminate]).
    by apply elem_of_nil in Hk. }
  intros [H | H].
  - destruct (Htry H) as (Hkeys & Hdef & Hrest).
    split; [exact Hkeys |]. split; [exact Hdef |]. split.
    + intros _. exact Hrest.
    + intros Hp. by destruct (Hhandler Hp) as (_ & _ & Hnull).
  - destruct (Hhandler H) as (Hkeys & Hdef & Hnull).
    split; [exact Hkeys |]. split; [exact Hdef |]. split.
    + intros Ha. by destruct (Htry Ha) as (_ & _ & Hrest).
    + intros _. exact Hnull.
Qed.

End RecordFacts.

(** ** Failure containment *)




Section ContainmentFacts.
Context `{B : Builtins}.









End ContainmentFacts.


Section Containment.
Context `{B : Builtins}.


End Containment.

(** *** Witnesses and counterexamples *)


(** The three cases of the claim, run. *)
Example title_from_vendor :
  (let* md := extract_compose_metadata (B := plain_builtins)
                (titled_doc "A" "B") (titled_conf "C") in
   py_index (VDict md) "title") = Ok (VStr "A").
Proof. vm_compute. reflexivity. Qed.

Example title_from_label :
  (let* md := extract_compose_metadata (B := plain_builtins)
                (titled_doc "" "B") (titled_conf "C") in
   py_index (VDict md) "title") = Ok (VStr "B").
Proof. vm_compute. reflexivity. Qed.

Example title_from_conf :
  (let* md := extract_compose_metadata (B := plain_builtins)
                (titled_doc "" "") (titled_conf "C") in
   py_index (VDict md) "title") = Ok (VStr "C")
  /\ (let* md := extract_compose_metadata (B := plain_builtins)
                   nginx_doc (titled_conf "C") in
      py_index (VDict md) "title") = Ok (VStr "C").
Proof. split; vm_compute; reflexivity. Qed.

Lemma extract_compose_metadata_total_witness :
  extract_compose_metadata (B := plain_builtins) (VDict []) (VList []) = Ok []
  /\ (exists md,
        extract_compose_metadata (B := plain_builtins)
          (titled_doc "A" "B") (titled_conf "C") = Ok md)
  /\ extract_compose_metadata (B := plain_builtins) hollow_doc
       (titled_conf "C") = Raise AttributeError.
Proof.
  split; [| split].
  - apply (proj1 (extract_compose_metadata_total (B := plain_builtins)
                    (VDict []) (VList []))).
    reflexivity.
  - apply (proj1 (proj2 (extract_compose_metadata_total (B := plain_builtins)
                           (titled_doc "A" "B") (titled_conf "C")))).
    vm_compute. reflexivity.
  - apply (proj2 (proj2 (extract_compose_metadata_total (B := plain_builtins)
                           hollow_doc (titled_conf "C")))
             [("services", VDict [("web", VNone)])] "web" VNone []);
      [reflexivity | reflexivity | discriminate].
Defined.

(** C8, as the spec words it, fails: a service declared with an empty body
    makes the resolver raise, as does conf data that are not a mapping when
    the compose document names no title. *)
Lemma extract_compose_metadata_raises :
  extract_compose_metadata (B := plain_builtins) hollow_doc (VDict [])
  = Raise AttributeError
  /\ extract_compose_metadata (B := plain_builtins) nginx_doc (VList [])
     = Raise AttributeError.
Proof. split; vm_compute; reflexivity. Qed.

Lemma app_record_fields_witness :
  exists app_data,
    assemble (B := plain_builtins) (Some march_first)
      "IceWhaleTech" "CasaOS-AppStore" fallback_stats fv_nginx = Ok app_data
    /\ map fst app_data = app_fields
    /\ lookup_key "created" app_data = Some (VStr "2024-03-02T08:30:00Z")
    /\ lookup_key "port" app_data = Some VNone
    /\ lookup_key "memory" app_data = Some VNone.
Proof.
  destruct (assemble (B := plain_builtins) (Some march_first)
              "IceWhaleTech" "CasaOS-AppStore" fallback_stats fv_nginx)
    as [app_data |] eqn:E; [| vm_compute in E; discriminate E].
  exists app_data. split; [reflexivity |].
  destruct (app_record_fields (B := plain_builtins) _ _ _ _ _ app_data
              (or_introl E)) as (Hkeys & _ & Htry & _).
  destruct (Htry E) as (Hcreated & _ & md & Hmd & Hrest).
  vm_compute in Hmd. injection Hmd as <-.
  split; [exact Hkeys |]. split; [exact Hcreated |]. split.
  - apply (proj1 (Hrest "port" (or_introl eq_refl))). reflexivity.
  - apply (proj1 (Hrest "memory" (or_intror eq_refl))). reflexivity.
Defined.

(** C3, as the spec words it, fails: the record of a folder that failed has
    null [created], [port] and [memory]; so has the record of a folder that
    succeeded without a port or a memory limit. *)
Lemma placeholder_has_nulls :
  process_folder (B := plain_builtins) (Some march_first)
    "IceWhaleTech" "CasaOS-AppStore" fallback_stats fv_broken
  = (let* app_data := placeholder (B := plain_builtins)
                        "IceWhaleTech" "CasaOS-AppStore" fallback_stats
                        fv_broken in
     Ok (VDict app_data))
  /\ (let* app_data := placeholder (B := plain_builtins)
                         "IceWhaleTech" "CasaOS-AppStore" fallback_stats
                         fv_broken in
      Ok (no_null app_data, lookup_key "created" app_data,
          lookup_key "port" app_data, lookup_key "memory" app_data))
     = Ok (false, Some VNone, Some VNone, Some VNone)
  /\ (let* app_data := assemble (B := plain_builtins) (Some march_first)
                         "IceWhaleTech" "CasaOS-AppStore" fallback_stats
                         fv_nginx in
      Ok (no_null app_data, lookup_key "port" app_data,
          lookup_key "memory" app_data))
     = Ok (false, Some VNone, Some VNone).
Proof. repeat split; vm_compute; reflexivity. Qed.



(** The sample run: the folder that failed is there as a placeholder, next
    to its sibling and to the folder of the other repository. *)
Example sample_run_titles :
  (let* out := run (B := plain_builtins) sample_last_run sample_repos in
   Ok (map (fun x => (py_index x "title", py_index x "category")) out))
  = Ok [ (Ok (VStr "Nginx"), Ok (VStr "Network"));
         (Ok (VStr "Plex"), Ok (VStr "Media"));
         (Ok (VStr "broken"), Ok (VStr "Error")) ].
Proof. vm_compute. reflexivity. Qed.


(** Equal dates keep the order the records were collected in. *)
Example sort_apps_stable :
  (let* out := sort_apps dated_apps in
   Ok (map (fun x => py_index x "title") out))
  = Ok [Ok (VStr "c"); Ok (VStr "a"); Ok (VStr "e"); Ok (VStr "b");
        Ok (VStr "d")].
Proof. vm_compute. reflexivity. Qed.

Lemma main_ids_distinct_witness :
  exists out,
    main (B := plain_builtins) market_data = Ok out
    /\ NoDup (map ca_id out)
    /\ map ca_id out = ["plex"; "plex-r2"; "plex-1"].
Proof.
  destruct (proj1 (proj2 (main_ids_distinct (B := plain_builtins)))
              market_apps) as (out & Hout & Hnd).
  { repeat constructor. }
  exists out. split; [exact Hout |]. split; [exact Hnd |].
  clear Hnd. vm_compute in Hout. injection Hout as <-. reflexivity.
Defined.

Lemma main_lists_available_witness :
  exists out,
    main (B := plain_builtins) market_data = Ok out
    /\ Forall2 (renamed)
         (omap (listed (B := plain_builtins)) market_apps) out
    /\ length out = 3.
Proof.
  destruct (main (B := plain_builtins) market_data) as [out |] eqn:E;
    [| vm_compute in E; discriminate E].
  exists out. split; [reflexivity |].
  destruct (main_lists_available (B := plain_builtins) market_data out E)
    as ((apps & Happs & Hall & _) & _).
  vm_compute in Happs. injection Happs as <-.
  split; [exact Hall |].
  vm_compute in E. injection E as <-. reflexivity.
Defined.

(** * Further properties of the source connector *)

Lemma dir_names_readable (items : list value) :
  Forall (fun item => entry_readable item = true) items ->
  dir_names items = Ok (omap dir_name items).
Proof.
  induction 1 as [| item items Hitem _ IH]; [reflexivity |].
  destruct item as [| | | | | d]; try discriminate.
  unfold entry_readable in Hitem.
  destruct (lookup_key "type" d) as [type |] eqn:Etype; [| discriminate].
  destruct (is_str type "dir") eqn:Edir.
  - apply bool_decide_eq_true in Hitem as [name Hname].
    simpl. rewrite Etype. simpl. rewrite Edir, Hname. simpl.
    rewrite IH. reflexivity.
  - simpl. rewrite Etype. simpl. rewrite Edir. exact IH.
Qed.

Lemma dir_names_sound (items : list value) (names : list value) :
  dir_names items = Ok names ->
  forall name, name ∈ names ->
    exists item, item ∈ items /\ dir_name item = Some name.
Proof.
  revert names. induction items as [| item items IH]; intros names H name Hin.
  - injection H as <-. by apply elem_of_nil in Hin.
  - cbn [dir_names] in H.
    destruct item as [| | | | | d]; try discriminate.
    cbn [py_index] in H.
    destruct (lookup_key "type" d) as [type |] eqn:Etype; [| discriminate].
    cbn [bind] in H. destruct (is_str type "dir") eqn:Edir.
    + destruct (lookup_key "name" d) as [n |] eqn:Ename; [| discriminate].
      cbn [bind] in H.
      destruct (dir_names items) as [ns |] eqn:Ens; [| discriminate].
      injection H as <-. apply elem_of_cons in Hin as [-> | Hin].
      * exists (VDict d). split; [left |].
        unfold dir_name. by rewrite Etype, Edir.
      * destruct (IH ns eq_refl name Hin) as (item & Hitem & Hname).
        exists item. split; [by right | exact Hname].
    + destruct (IH names H name Hin) as (item & Hitem & Hname).
      exists item. split; [by right | exact Hname].
Qed.

Lemma dir_names_unreadable (items : list value) (item : value) (e : exn) :
  item ∈ items -> py_index item "type" = Raise e ->
  exists e', dir_names items = Raise e'.
Proof.
  intros Hin Hbad. induction items as [| x items IH];
    [by apply elem_of_nil in Hin |].
  cbn [dir_names].
  apply elem_of_cons in Hin as [<- | Hin].
  - rewrite Hbad. cbn [bind]. eauto.
  - destruct (IH Hin) as [e' He'].
    destruct (py_index x "type") as [type |]; cbn [bind]; [| eauto].
    destruct (is_str type "dir"); [| eauto].
    destruct (py_index x "name"); cbn [bind]; [| eauto].
    rewrite He'. cbn [bind]. eauto.
Qed.

(** X1: the folders listed are the names of the directory entries of a 200
    answer, nothing else; for a listing whose entries can all be read they
    are all of them, in listing order; any other status gives the empty
    list. *)
Theorem list_app_folders_dirs (ans : api_answer) :
  (forall name, name ∈ list_app_folders ans ->
     exists listing items item,
       ans = Answer 200 (Some listing)
       /\ py_iter listing = Ok items
       /\ item ∈ items
       /\ dir_name item = Some name)
  /\ (forall items,
        ans = Answer 200 (Some (VList items)) ->
        Forall (fun item => entry_readable item = true) items ->
        list_app_folders ans = omap dir_name items)
  /\ (forall status json,
        ans = Answer status json -> status <> 200%Z ->
        list_app_folders ans = []).
Proof.
  split; [| split].
  - intros name Hin. unfold list_app_folders in Hin.
    destruct ans as [status [listing |] |];
      try (by apply elem_of_nil in Hin).
    destruct (status =? 200)%Z eqn:Es; [| by apply elem_of_nil in Hin].
    apply Z.eqb_eq in Es as ->.
    destruct (py_iter listing) as [items |] eqn:Eit;
      cbn [bind] in Hin; [| by apply elem_of_nil in Hin].
    destruct (dir_names items) as [names |] eqn:En;
      [| by apply elem_of_nil in Hin].
    destruct (dir_names_sound items names En name Hin) as (item & Hi & Hn).
    by exists listing, items, item.
  - intros items -> Hall. unfold list_app_folders. cbn [Z.eqb Pos.eqb py_iter bind].
    by rewrite (dir_names_readable items Hall).
  - intros status json -> Hs. unfold list_app_folders.
    destruct json; [| reflexivity].
    apply Z.eqb_neq in Hs. by rewrite Hs.
Qed.

Lemma list_app_folders_dirs_witness :
  list_app_folders (Answer 200 (Some (VList sample_listing)))
  = [VStr "plex"; VStr "nginx"]
  /\ list_app_folders (Answer 403 None) = [].
Proof.
  split.
  - rewrite (proj1 (proj2 (list_app_folders_dirs
                             (Answer 200 (Some (VList sample_listing)))))
               sample_listing eq_refl).
    + reflexivity.
    + repeat constructor.
  - apply (proj2 (proj2 (list_app_folders_dirs (Answer 403 None)))
             403%Z None eq_refl).
    lia.
Defined.

(** X2: one entry of the listing that cannot be read (not a mapping, or
    without a [type]) empties the whole listing: the folders of that
    repository are all skipped. *)
Theorem list_app_folders_all_or_nothing (items : list value) (item : value)
    (e : exn) :
  item ∈ items ->
  py_index item "type" = Raise e ->
  list_app_folders (Answer 200 (Some (VList items))) = [].
Proof.
  intros Hin Hbad. unfold list_app_folders. cbn [Z.eqb Pos.eqb py_iter bind].
  destruct (dir_names_unreadable items item e Hin Hbad) as [e' ->].
  reflexivity.
Qed.

Lemma list_app_folders_all_or_nothing_witness :
  list_app_folders
    (Answer 200 (Some (VList (sample_listing ++ [VStr "stray"])%list))) = [].
Proof.
  apply (list_app_folders_all_or_nothing _ (VStr "stray") TypeError).
  - apply elem_of_app. right. left.
  - reflexivity.
Defined.

Lemma last_snoc_value (l : list value) (x : value) :
  last (l ++ [x])%list = Some x.
Proof. apply last_snoc. Qed.

(** X3: the creation date is the date of the last commit returned, the
    earliest of the page, whatever the commits before it hold; it is null
    when that entry has no [commit.author.date], when no commit is
    returned, and on every status other than 200. *)
Theorem get_creation_date_earliest :
  (forall newer oldest,
     get_creation_date (Answer 200 (Some (VList (newer ++ [oldest])%list)))
     = match commit_date oldest with
       | Ok date => date
       | Raise _ => VNone
       end)
  /\ get_creation_date (Answer 200 (Some (VList []))) = VNone
  /\ (forall status json,
        status <> 200%Z -> get_creation_date (Answer status json) = VNone)
  /\ get_creation_date NoAnswer = VNone.
Proof.
  split; [| split; [reflexivity | split; [| reflexivity]]].
  - intros newer oldest. unfold get_creation_date, earliest_date.
    cbn [Z.eqb Pos.eqb].
    assert (Ht : truthy (VList (newer ++ [oldest])%list) = true)
      by (destruct newer; reflexivity).
    rewrite Ht. cbn [py_last]. rewrite last_snoc_value. cbn [bind].
    unfold commit_date.
    destruct (py_index oldest "commit") as [commit |]; cbn [bind];
      [| reflexivity].
    destruct (py_index commit "author") as [author |]; cbn [bind];
      reflexivity.
  - intros status json Hs. unfold get_creation_date.
    destruct json; [| reflexivity].
    apply Z.eqb_neq in Hs. by rewrite Hs.
Qed.

Lemma get_creation_date_earliest_witness :
  get_creation_date (Answer 200 (Some (VList sample_commits)))
  = VStr "2023-11-20T07:00:00Z"
  /\ get_creation_date (Answer 403 None) = VNone.
Proof.
  split.
  - exact (proj1 get_creation_date_earliest [_] _).
  - apply (proj1 (proj2 (proj2 get_creation_date_earliest))). lia.
Defined.

(** X4: on a miss of its cache [get_repo_stats] returns a mapping that
    carries [stars], [forks] and [default_branch], whatever the API
    answers: from a 200 answer that is a mapping it takes
    [stargazers_count], [forks_count] and [default_branch], with the
    defaults 0, 0 and [main]; on any other answer it is the fallback: no
    stars, no forks, branch [main].  A fresh cache file is returned as it
    is, whatever it holds. *)
Theorem get_repo_stats_keys (cache : cache_state) (ans : api_answer)
    (now : string) :
  (forall cached, get_repo_stats (Fresh cached) ans now = cached)
  /\ ((forall cached, cache <> Fresh cached) ->
      let repo_stats := get_repo_stats cache ans now in
      stats_shaped repo_stats = true
      /\ (exists stars forks branch,
            py_index repo_stats "stars" = Ok stars
            /\ py_index repo_stats "forks" = Ok forks
            /\ py_index repo_stats "default_branch" = Ok branch)
      /\ (forall repo_data,
            ans = Answer 200 (Some (VDict repo_data)) ->
            py_index repo_stats "stars"
            = Ok (dict_get repo_data "stargazers_count" (VInt 0))
            /\ py_index repo_stats "forks"
               = Ok (dict_get repo_data "forks_count" (VInt 0))
            /\ py_index repo_stats "default_branch"
               = Ok (dict_get repo_data "default_branch" (VStr "main")))
      /\ ((forall repo_data, ans <> Answer 200 (Some (VDict repo_data))) ->
          py_index repo_stats "stars" = Ok (VInt 0)
          /\ py_index repo_stats "forks" = Ok (VInt 0)
          /\ py_index repo_stats "default_branch" = Ok (VStr "main")
          /\ map fst (match repo_stats with VDict d => d | _ => [] end)
             = ["stars"; "forks"; "default_branch"])).
Proof.
  split; [reflexivity |]. intros Hmiss repo_stats.
  assert (Hcases :
    ((forall repo_data, ans <> Answer 200 (Some (VDict repo_data)))
     /\ repo_stats = VDict fallback_stats_dict)
    \/ exists repo_data,
         ans = Answer 200 (Some (VDict repo_data))
         /\ repo_stats
            = VDict [ ("stars", dict_get repo_data "stargazers_count" (VInt 0));
                      ("forks", dict_get repo_data "forks_count" (VInt 0));
                      ("default_branch",
                        dict_get repo_data "default_branch" (VStr "main"));
                      ("updated_at", VStr now) ]).
  { unfold repo_stats, get_repo_stats.
    destruct cache; try (exfalso; by eapply Hmiss);
      (destruct ans as [status [[| | | | | repo_data] |] |];
       try (left; split; [intros ?; discriminate | reflexivity]);
       destruct (status =? 200)%Z eqn:Es;
       [ apply Z.eqb_eq in Es as ->; right; by exists repo_data
       | left; split; [| reflexivity];
         intros ? [= -> _]; discriminate Es ]). }
  clearbody repo_stats.
  destruct Hcases as [[Hans ->] | (repo_data & -> & ->)].
  - split; [reflexivity |]. split; [by eexists _, _, _ |]. split.
    + intros repo_data Hrd. exfalso. by eapply Hans.
    + intros _. by repeat split.
  - split; [reflexivity |]. split; [by eexists _, _, _ |]. split.
    + intros rd [= <-]. by repeat split.
    + intros Hans. exfalso. by eapply Hans.
Qed.

Lemma get_repo_stats_keys_witness :
  py_index (get_repo_stats Stale (Answer 403 None) "2024-03-05T10:00:00")
    "default_branch" = Ok (VStr "main")
  /\ py_index
       (get_repo_stats Absent
          (Answer 200 (Some (VDict [("stargazers_count", VInt 120);
                                    ("default_branch", VStr "master")])))
          "2024-03-05T10:00:00") "default_branch" = Ok (VStr "master").
Proof.
  split.
  - apply (proj2 (proj2 (proj2
             (proj2 (get_repo_stats_keys Stale (Answer 403 None)
                       "2024-03-05T10:00:00") ltac:(discriminate))))).
    discriminate.
  - by apply (proj1 (proj2 (proj2
                (proj2 (get_repo_stats_keys Absent
                          (Answer 200
                             (Some (VDict [("stargazers_count", VInt 120);
                                           ("default_branch",
                                             VStr "master")])))
                          "2024-03-05T10:00:00") ltac:(discriminate))))
                [("stargazers_count", VInt 120);
                 ("default_branch", VStr "master")] eq_refl).
Defined.

Section ScreenshotFacts.
Context `{B : Builtins}.

Lemma probe_screenshots_filter (owner repo folder : string) (branch : value)
    (on_disk : string -> bool) (fetch : string -> shot_answer)
    (patterns : list string) :
  probe_screenshots owner repo folder branch on_disk fetch patterns
  = map (shot_entry owner repo folder branch)
      (List.filter (shot_accepted on_disk fetch) patterns).
Proof.
  induction patterns as [| f rest IH]; [reflexivity |].
  cbn [probe_screenshots List.filter]. unfold shot_accepted at 1.
  destruct (on_disk f); cbn [orb].
  - cbn [map]. by rewrite IH.
  - destruct (fetch f) as [status content_type saved |]; [| exact IH].
    destruct ((status =? 200)%Z && is_prefix "image/" content_type && saved);
      [cbn [map]; by rewrite IH | exact IH].
Qed.

(** X5: on a miss of its cache the screenshot index lists exactly the
    candidate files that are on disk already or were answered 200 with an
    image that could be saved, in the order of the candidates; [count] is
    their number, at most twenty; and a file on disk is listed whatever the
    network answers. *)
Theorem get_app_screenshots_index (owner repo folder : string)
    (branch : value) (cache : cache_state) (on_disk : string -> bool)
    (fetch : string -> shot_answer) (now : string) :
  (forall cached, cache <> Fresh cached) ->
  let index :=
    get_app_screenshots owner repo folder branch cache on_disk fetch now in
  let listed_files :=
    List.filter (shot_accepted on_disk fetch) screenshot_patterns in
  py_index index "screenshots"
  = Ok (VList (map (shot_entry owner repo folder branch) listed_files))
  /\ py_index index "count" = Ok (VInt (Z.of_nat (length listed_files)))
  /\ length listed_files <= 20
  /\ (forall f, f ∈ screenshot_patterns -> on_disk f = true ->
        f ∈ listed_files).
Proof.
  intros Hmiss index listed_files.
  assert (Hindex : index
    = VDict [ ("screenshots",
                VList (map (shot_entry owner repo folder branch) listed_files));
              ("count", VInt (Z.of_nat (length listed_files)));
              ("updated_at", VStr now) ]).
  { unfold index, get_app_screenshots.
    destruct cache; try (exfalso; by eapply Hmiss);
      by rewrite probe_screenshots_filter, length_map. }
  rewrite Hindex. split; [reflexivity |]. split; [reflexivity |]. split.
  - unfold listed_files.
    etrans; [apply List.filter_length_le |]. reflexivity.
  - intros f Hf Hdisk. unfold listed_files.
    apply list_elem_of_In, List.filter_In. split.
    + by apply list_elem_of_In.
    + unfold shot_accepted. by rewrite Hdisk.
Qed.

End ScreenshotFacts.

Lemma get_app_screenshots_index_witness :
  (let* shots :=
     py_index
       (get_app_screenshots (B := plain_builtins)
          "IceWhaleTech" "CasaOS-AppStore" "plex" (VStr "main")
          Absent sample_on_disk sample_shot_fetch "2024-03-05T10:00:00")
       "screenshots" in
   let* items := py_iter shots in
   Ok (map (fun x => py_index x "filename") items))
  = Ok [ Ok (VStr "screenshot-1.png"); Ok (VStr "screen1.png");
         Ok (VStr "preview2.png") ].
Proof.
  rewrite (proj1 (get_app_screenshots_index (B := plain_builtins)
                    "IceWhaleTech" "CasaOS-AppStore" "plex" (VStr "main")
                    Absent sample_on_disk sample_shot_fetch
                    "2024-03-05T10:00:00" ltac:(discriminate))).
  reflexivity.
Defined.

(** * Further properties of the metadata resolver *)

Section ResolverMore.
Context `{B : Builtins}.

(** X6: service labels and environment given as a list of strings are
    read as [key=value] at the first [=]: wherever it stands in the list,
    the last entry for a key decides its value, which may itself contain
    [=]; a key for which the list has no entry gets no value; and an entry
    without [=] is passed over. *)
Theorem label_list_last_wins (before after : list string) (key v : string) :
  has_char "=" key = false ->
  Forall (fun e => is_prefix (key +:+ "=") e = false) after ->
  let entries := VList (map VStr (before ++ [key +:+ "=" +:+ v] ++ after)) in
  (exists d,
      label_dict_of entries = Ok (VDict d)
      /\ lookup_key key d = Some (VStr v))
  /\ (forall main_service,
        dict_get main_service "environment" (VList []) = entries ->
        exists d,
          resolve_environment (VDict main_service) = Ok (VDict d)
          /\ lookup_key key d = Some (VStr v))
  /\ (exists d,
        label_dict_of (VList (map VStr after)) = Ok (VDict d)
        /\ lookup_key key d = None)
  /\ (forall e,
        has_char "=" e = false ->
        label_dict_of (VList (map VStr (before ++ [e] ++ after)))
        = label_dict_of (VList (map VStr (before ++ after)))).
Proof.
  intros Hk Hafter entries.
  destruct (pairs_to_dict_last_wins before after key v [] Hk Hafter)
    as (d & Hd & Hlookup).
  split; [| split; [| split]].
  - exists d. split; [| exact Hlookup].
    unfold entries, label_dict_of. by rewrite Hd.
  - intros main_service Henv. exists d. split; [| exact Hlookup].
    unfold resolve_environment. cbn [py_get bind]. rewrite Henv.
    unfold entries. by rewrite Hd.
  - destruct (pairs_to_dict_other after key [] Hafter) as (d' & Hd' & Hl').
    exists d'. split; [| exact Hl'].
    unfold label_dict_of. by rewrite Hd'.
  - intros e He. unfold label_dict_of.
    by rewrite (pairs_to_dict_plain before after e [] He).
Qed.

(** X7: the version is the [casaos.version] label when the labels carry
    one; else, for an image reference [name:tag], the text after its last
    colon; else, for an image reference without a colon, the empty
    string. *)
Theorem resolve_version_rule (ld main_service : pydict) (image : string) :
  dict_get main_service "image" (VStr "") = VStr image ->
  (forall v, lookup_key "casaos.version" ld = Some v ->
     resolve_version (VDict ld) (VDict main_service) = Ok v)
  /\ (forall name tag,
        lookup_key "casaos.version" ld = None ->
        image = name +:+ String ":" tag ->
        has_char ":" tag = false ->
        resolve_version (VDict ld) (VDict main_service) = Ok (VStr tag))
  /\ (lookup_key "casaos.version" ld = None ->
      has_char ":" image = false ->
      resolve_version (VDict ld) (VDict main_service) = Ok (VStr "")).
Proof.
  intros Himage.
  assert (Hrun : resolve_version (VDict ld) (VDict main_service)
                 = Ok (dict_get ld "casaos.version"
                         (if has_char ":" image
                          then VStr (last_segment ":" image)
                          else VStr ""))).
  { unfold resolve_version. cbn [py_get bind]. rewrite Himage.
    cbn [py_in bind]. rewrite contains_char.
    by destruct (has_char ":" image). }
  rewrite Hrun. unfold dict_get. split; [| split].
  - intros v ->. reflexivity.
  - intros name tag -> -> Htag.
    rewrite has_char_sep. by rewrite last_segment_app.
  - intros -> ->. reflexivity.
Qed.

(** X8: a service without ports gets no [port] entry; a first port given
    as the string ["host:container"] resolves to the text before its first
    colon, and one without a colon to itself.  A first port given as a
    mapping resolves through its [target] when the key [target] is
    present: to the text of the target, or to the empty string when the
    target is empty, [published] not being consulted; only when the key
    [target] is absent does it resolve through [published]: to its text,
    or to the empty string when it is absent or empty. *)
Theorem resolve_port_rule (main_service : pydict) :
  (truthy (dict_get main_service "ports" (VList [])) = false ->
   resolve_port (VDict main_service) = Ok None)
  /\ (forall host container rest,
        dict_get main_service "ports" (VList [])
        = VList (VStr (host +:+ String ":" container) :: rest) ->
        has_char ":" host = false ->
        resolve_port (VDict main_service) = Ok (Some (VStr host)))
  /\ (forall port rest,
        dict_get main_service "ports" (VList []) = VList (VStr port :: rest) ->
        has_char ":" port = false ->
        resolve_port (VDict main_service) = Ok (Some (VStr port)))
  /\ (forall fp rest target,
        dict_get main_service "ports" (VList []) = VList (VDict fp :: rest) ->
        lookup_key "target" fp = Some target ->
        resolve_port (VDict main_service)
        = Ok (Some (VStr (if truthy target then py_str target else ""))))
  /\ (forall fp rest,
        dict_get main_service "ports" (VList []) = VList (VDict fp :: rest) ->
        lookup_key "target" fp = None ->
        resolve_port (VDict main_service)
        = Ok (Some (VStr match lookup_key "published" fp with
                         | Some published =>
                             if truthy published then py_str published else ""
                         | None => ""
                         end))).
Proof.
  unfold resolve_port. cbn [py_get bind].
  split; [| split; [| split; [| split]]].
  - intros ->. reflexivity.
  - intros host container rest -> Hhost.
    cbn [truthy py_first bind py_str].
    rewrite contains_char, has_char_sep.
    by rewrite first_segment_app.
  - intros port rest -> Hport.
    cbn [truthy py_first bind py_str].
    by rewrite contains_char, Hport.
  - intros fp rest target -> Ht.
    cbn [truthy py_first bind]. unfold dict_get. by rewrite Ht.
  - intros fp rest -> Ht.
    cbn [truthy py_first bind]. unfold dict_get. rewrite Ht.
    by destruct (lookup_key "published" fp).
Qed.

End ResolverMore.

Lemma label_list_last_wins_witness :
  exists d,
    label_dict_of
      (VList [VStr "casaos.title=Old"; VStr "note"; VStr "casaos.title=New=2";
              VStr "casaos.icon=i"])
    = Ok (VDict d)
    /\ lookup_key "casaos.title" d = Some (VStr "New=2").
Proof.
  exact (proj1 (label_list_last_wins
                  ["casaos.title=Old"; "note"] ["casaos.icon=i"]
                  "casaos.title" "New=2" eq_refl
                  ltac:(repeat constructor))).
Defined.

Lemma resolve_version_rule_witness :
  resolve_version (VDict [])
    (VDict [("image", VStr "linuxserver/plex:1.40.2")])
  = Ok (VStr "1.40.2")
  /\ resolve_version (VDict [("casaos.version", VStr "7")])
       (VDict [("image", VStr "linuxserver/plex:1.40.2")])
     = Ok (VStr "7").
Proof.
  split.
  - apply (proj1 (proj2 (resolve_version_rule []
                           [("image", VStr "linuxserver/plex:1.40.2")]
                           "linuxserver/plex:1.40.2" eq_refl))
             "linuxserver/plex" "1.40.2"); reflexivity.
  - apply (proj1 (resolve_version_rule [("casaos.version", VStr "7")]
                    [("image", VStr "linuxserver/plex:1.40.2")]
                    "linuxserver/plex:1.40.2" eq_refl)).
    reflexivity.
Defined.

(** A registry port is taken for a tag, and an address before the host port
    for the port. *)
Example version_and_port_edges :
  resolve_version (VDict []) (VDict [("image", VStr "registry:5000/plex")])
  = Ok (VStr "5000/plex")
  /\ resolve_port (B := plain_builtins)
       (VDict [("ports", VList [VStr "127.0.0.1:8080:80"])])
     = Ok (Some (VStr "127.0.0.1")).
Proof. split; vm_compute; reflexivity. Qed.

Lemma resolve_port_rule_witness :
  resolve_port (B := plain_builtins)
    (VDict [("ports", VList [VStr "8080:80"; VStr "443:443"])])
  = Ok (Some (VStr "8080"))
  /\ resolve_port (B := plain_builtins) (VDict [("image", VStr "nginx")])
     = Ok None
  /\ resolve_port (B := plain_builtins)
       (VDict [("ports", VList [VDict [("target", VInt 80);
                                       ("published", VInt 8080)]])])
     = Ok (Some (VStr "80"))
  /\ resolve_port (B := plain_builtins)
       (VDict [("ports", VList [VDict [("target", VStr "");
                                       ("published", VInt 8080)]])])
     = Ok (Some (VStr ""))
  /\ resolve_port (B := plain_builtins)
       (VDict [("ports", VList [VDict [("published", VInt 8080)]])])
     = Ok (Some (VStr "8080")).
Proof.
  split; [| split; [| split; [| split]]].
  - apply (proj1 (proj2 (resolve_port_rule (B := plain_builtins)
                           [("ports", VList [VStr "8080:80"; VStr "443:443"])]))
             "8080" "80" [VStr "443:443"]); reflexivity.
  - apply (proj1 (resolve_port_rule (B := plain_builtins)
                    [("image", VStr "nginx")])).
    reflexivity.
  - apply (proj1 (proj2 (proj2 (proj2 (resolve_port_rule (B := plain_builtins)
                    [("ports", VList [VDict [("target", VInt 80);
                                             ("published", VInt 8080)]])]))))
             [("target", VInt 80); ("published", VInt 8080)] [] (VInt 80));
      reflexivity.
  - apply (proj1 (proj2 (proj2 (proj2 (resolve_port_rule (B := plain_builtins)
                    [("ports", VList [VDict [("target", VStr "");
                                             ("published", VInt 8080)]])]))))
             [("target", VStr ""); ("published", VInt 8080)] [] (VStr ""));
      reflexivity.
  - apply (proj2 (proj2 (proj2 (proj2 (resolve_port_rule (B := plain_builtins)
                    [("ports", VList [VDict [("published", VInt 8080)]])]))))
             [("published", VInt 8080)] []); reflexivity.
Defined.

Lemma infer_category_sound (table : list (string * list string))
    (app_name cat : string) :
  infer_category table app_name = Some cat ->
  exists apps app,
    (cat, apps) ∈ table /\ app ∈ apps /\ contains app app_name = true.
Proof.
  induction table as [| [c apps] table IH]; simpl; [discriminate |].
  destruct (existsb (fun app => contains app app_name) apps) eqn:E.
  - intros [= <-]. apply existsb_exists in E as (app & Hin & Happ).
    exists apps, app. split; [left | split; [by apply list_elem_of_In | done]].
  - intros H. destruct (IH H) as (apps' & app & Hin & Happ & Hc).
    exists apps', app. split; [by right | done].
Qed.

Lemma infer_category_none (table : list (string * list string))
    (app_name : string) :
  infer_category table app_name = None ->
  forall cat apps app,
    (cat, apps) ∈ table -> app ∈ apps -> contains app app_name = false.
Proof.
  induction table as [| [c kws] table IH]; simpl; intros H cat apps app Hin Happ.
  - by apply elem_of_nil in Hin.
  - destruct (existsb (fun a => contains a app_name) kws) eqn:E;
      [discriminate |].
    apply elem_of_cons in Hin as [[= -> ->] | Hin].
    + destruct (contains app app_name) eqn:Ec; [| reflexivity].
      assert (existsb (fun a => contains a app_name) kws = true).
      { apply existsb_exists. exists app. split; [| exact Ec].
        by apply list_elem_of_In. }
      congruence.
    + by eapply IH.
Qed.

Lemma existsb_Exists (app_name : string) (apps : list string) :
  existsb (fun app => contains app app_name) apps = true
  <-> Exists (fun app => contains app app_name = true) apps.
Proof.
  rewrite existsb_exists, Exists_exists. split.
  - intros (app & Hin & Happ). exists app. split; [| exact Happ].
    by apply list_elem_of_In.
  - intros (app & Hin & Happ). exists app. split; [| exact Happ].
    by apply list_elem_of_In.
Qed.

(** The category of the first entry with a keyword in the name. *)
Lemma infer_category_first (before after : list (string * list string))
    (cat : string) (apps : list string) (app_name : string) :
  Forall (fun entry =>
            Forall (fun app => contains app app_name = false) (snd entry))
    before ->
  Exists (fun app => contains app app_name = true) apps ->
  infer_category (before ++ (cat, apps) :: after) app_name = Some cat.
Proof.
  intros Hbefore Happs.
  induction Hbefore as [| [c kws] before Hkws _ IH]; cbn [app infer_category].
  - apply existsb_Exists in Happs. by rewrite Happs.
  - destruct (existsb (fun app => contains app app_name) kws) eqn:E;
      [| exact IH].
    apply existsb_Exists, Exists_exists in E as (app & Hin & Happ).
    cbn [snd] in Hkws. rewrite Forall_forall in Hkws.
    rewrite (Hkws app Hin) in Happ. discriminate.
Qed.

Lemma infer_category_split (table : list (string * list string))
    (app_name cat : string) :
  infer_category table app_name = Some cat ->
  exists before apps after,
    table = (before ++ (cat, apps) :: after)%list
    /\ Forall (fun entry =>
                 Forall (fun app => contains app app_name = false)
                   (snd entry)) before
    /\ Exists (fun app => contains app app_name = true) apps.
Proof.
  induction table as [| [c kws] table IH]; cbn [infer_category];
    [discriminate |].
  destruct (existsb (fun app => contains app app_name) kws) eqn:E.
  - intros [= <-]. exists [], kws, table.
    split; [reflexivity |]. split; [constructor | by apply existsb_Exists].
  - intros H. destruct (IH H) as (before & apps & after & -> & Hb & Ha).
    exists ((c, kws) :: before), apps, after.
    split; [reflexivity |]. split; [| exact Ha].
    constructor; [| exact Hb]. cbn [snd]. apply Forall_forall.
    intros app Hin. destruct (contains app app_name) eqn:Ec; [| reflexivity].
    assert (existsb (fun a => contains a app_name) kws = true).
    { apply existsb_Exists, Exists_exists. by exists app. }
    congruence.
Qed.

(** X9: category inference picks the first category of the table one of
    whose keywords occurs in the name, the table being in the order Media,
    Downloader, Cloud, Database, Network, Home Automation, Utilities, AI,
    Notes, Developer, Finance: for every way of cutting the table at an
    entry, when no keyword of the entries before it occurs in the name and
    one of its own does, its category is the result; a category that is
    inferred is such a first entry; and none is inferred exactly when no
    keyword of the table occurs. *)
Theorem infer_category_first_match (app_name : string) :
  map fst category_mapping
  = ["Media"; "Downloader"; "Cloud"; "Database"; "Network";
     "Home Automation"; "Utilities"; "AI"; "Notes"; "Developer"; "Finance"]
  /\ (forall before cat apps after,
        category_mapping = (before ++ (cat, apps) :: after)%list ->
        Forall (fun entry =>
                  Forall (fun app => contains app app_name = false)
                    (snd entry)) before ->
        Exists (fun app => contains app app_name = true) apps ->
        infer_category category_mapping app_name = Some cat)
  /\ (forall cat,
        infer_category category_mapping app_name = Some cat ->
        exists before apps after,
          category_mapping = (before ++ (cat, apps) :: after)%list
          /\ Forall (fun entry =>
                       Forall (fun app => contains app app_name = false)
                         (snd entry)) before
          /\ Exists (fun app => contains app app_name = true) apps)
  /\ (infer_category category_mapping app_name = None
      <-> Forall (fun entry =>
                    Forall (fun app => contains app app_name = false)
                      (snd entry)) category_mapping).
Proof.
  split; [reflexivity |]. split; [| split; [| split]].
  - intros before cat apps after -> Hbefore Happs.
    by apply infer_category_first.
  - apply infer_category_split.
  - intros Hnone. apply Forall_forall. intros [cat apps] Hin.
    apply Forall_forall. intros app Happ.
    by eapply (infer_category_none category_mapping app_name Hnone cat apps).
  - intros Hall.
    destruct (infer_category category_mapping app_name) as [cat |] eqn:E;
      [| reflexivity].
    destruct (infer_category_sound _ _ _ E) as (apps & app & Hin & Happ & Hc).
    rewrite Forall_forall in Hall. specialize (Hall _ Hin). cbn [snd] in Hall.
    rewrite Forall_forall in Hall. rewrite (Hall app Happ) in Hc.
    discriminate.
Qed.

Lemma infer_category_first_match_witness :
  infer_category category_mapping "nginx with redis" = Some "Database"
  /\ infer_category category_mapping "my jellyfin redis box" = Some "Media".
Proof.
  split.
  - apply (proj1 (proj2 (infer_category_first_match "nginx with redis"))
             (firstn 3 category_mapping) "Database"
             ["mariadb"; "mysql"; "postgres"; "mongodb"; "redis"; "influxdb"]
             (skipn 4 category_mapping)).
    + reflexivity.
    + repeat constructor.
    + apply Exists_exists. exists "redis". split; [| reflexivity].
      repeat first [by left | right].
  - apply (proj1 (proj2 (infer_category_first_match "my jellyfin redis box"))
             [] "Media"
             ["plex"; "jellyfin"; "emby"; "kodi"; "sonarr"; "radarr";
              "lidarr"; "bazarr"; "tautulli"; "overseerr"; "jellyseerr";
              "navidrome"]
             (skipn 1 category_mapping)).
    + reflexivity.
    + constructor.
    + apply Exists_exists. exists "jellyfin". split; [| reflexivity].
      repeat first [by left | right].
Defined.

Section CategoryFacts.
Context `{B : Builtins}.

(** X10: the category is the one of the vendor block when that is not
    empty; else the [casaos.category] label when that is not empty; else
    the category of the conf file when that is not empty; without any it is
    inferred from the lower-cased title, the conf title standing in for an
    empty resolved title, and without a match it is "Uncategorized"; it is
    never empty. *)
Theorem resolve_category_rule (casaos_info ld conf : pydict) (title : value) :
  let vendor := dict_get casaos_info "category" VNone in
  let label := dict_get ld "casaos.category" VNone in
  let given := dict_get conf "category" VNone in
  let resolved :=
    resolve_category (VDict casaos_info) (VDict ld) (VDict conf) title in
  (forall category, resolved = Ok category -> truthy category = true)
  /\ (truthy vendor = true -> resolved = Ok vendor)
  /\ (truthy vendor = false -> truthy label = true -> resolved = Ok label)
  /\ (truthy vendor = false -> truthy label = false ->
      truthy given = true -> resolved = Ok given)
  /\ (forall t,
        truthy vendor = false -> truthy label = false ->
        truthy given = false ->
        (title = VStr t /\ t <> ""
         \/ truthy title = false
            /\ dict_get conf "title" (VStr "") = VStr t) ->
        resolved
        = Ok (VStr (default "Uncategorized"
                      (infer_category category_mapping (lower t))))).
Proof.
  intros vendor label given resolved.
  assert (Hrun : resolved
    = (let* category :=
         (if truthy vendor then Ok vendor
          else if truthy label then Ok label else Ok given) in
       let* category :=
         if truthy category then Ok category
         else
           let* t := or_else title (py_get (VDict conf) "title" (VStr "")) in
           let* app_name := py_lower t in
           match infer_category category_mapping app_name with
           | Some cat => Ok (VStr cat)
           | None => Ok category
           end in
       Ok (if truthy category then category else VStr "Uncategorized"))).
  { unfold resolved, resolve_category, priority_chain, or_else.
    cbn [py_get bind]. fold vendor label given.
    by destruct (truthy vendor), (truthy label). }
  split; [| split; [| split; [| split]]].
  - intros category. apply resolve_category_truthy.
  - intros Hv. rewrite Hrun, Hv. cbn [bind]. rewrite Hv. cbn [bind].
    by rewrite Hv.
  - intros Hv Hl. rewrite Hrun, Hv, Hl. cbn [bind]. rewrite Hl. cbn [bind].
    by rewrite Hl.
  - intros Hv Hl Hg. rewrite Hrun, Hv, Hl. cbn [bind]. rewrite Hg.
    cbn [bind]. by rewrite Hg.
  - intros t Hv Hl Hg Ht. rewrite Hrun, Hv, Hl. cbn [bind]. rewrite Hg.
    assert (Hname : or_else title (py_get (VDict conf) "title" (VStr ""))
                    = Ok (VStr t)).
    { unfold or_else. destruct Ht as [[-> Hne] | [Hfalsy Hconf]].
      - cbn [truthy]. apply string_eqb_false in Hne. by rewrite Hne.
      - rewrite Hfalsy. cbn [py_get]. by rewrite Hconf. }
    rewrite Hname. cbn [bind py_lower].
    destruct (infer_category category_mapping (lower t)) as [cat |] eqn:E;
      cbn [bind default]; [| by rewrite Hg].
    destruct (infer_category_sound _ _ _ E) as (apps & app & Hin & _ & _).
    assert (Hcat : truthy (VStr cat) = true).
    { unfold category_mapping in Hin.
      repeat (apply elem_of_cons in Hin as [[= -> _] | Hin]);
        try reflexivity.
      by apply elem_of_nil in Hin. }
    by rewrite Hcat.
Qed.


End CategoryFacts.

Lemma resolve_category_rule_witness :
  resolve_category (VDict []) (VDict []) (VDict []) (VStr "Jellyfin Server")
  = Ok (VStr "Media")
  /\ resolve_category (VDict [("category", VStr "Tools")])
       (VDict [("casaos.category", VStr "Label")])
       (VDict [("category", VStr "Conf")]) (VStr "Jellyfin Server")
     = Ok (VStr "Tools")
  /\ resolve_category (VDict [("category", VStr "")])
       (VDict [("casaos.category", VStr "Label")])
       (VDict [("category", VStr "Conf")]) (VStr "Jellyfin Server")
     = Ok (VStr "Label")
  /\ resolve_category (VDict [])
       (VDict [("casaos.title", VStr "Jellyfin")])
       (VDict [("category", VStr "Conf")]) (VStr "Jellyfin Server")
     = Ok (VStr "Conf").
Proof.
  split; [| split; [| split]].
  - apply (proj2 (proj2 (proj2 (proj2
             (resolve_category_rule [] [] [] (VStr "Jellyfin Server")))))
             "Jellyfin Server"); try reflexivity.
    left. split; [reflexivity | discriminate].
  - apply (proj1 (proj2 (resolve_category_rule [("category", VStr "Tools")]
                           [("casaos.category", VStr "Label")]
                           [("category", VStr "Conf")]
                           (VStr "Jellyfin Server")))); reflexivity.
  - apply (proj1 (proj2 (proj2
             (resolve_category_rule [("category", VStr "")]
                [("casaos.category", VStr "Label")]
                [("category", VStr "Conf")] (VStr "Jellyfin Server")))));
      reflexivity.
  - apply (proj1 (proj2 (proj2 (proj2
             (resolve_category_rule []
                [("casaos.title", VStr "Jellyfin")]
                [("category", VStr "Conf")] (VStr "Jellyfin Server"))))));
      reflexivity.
Defined.


(** * Further properties of the pipeline *)

Section PipelineMore.
Context `{B : Builtins}.

(** X12: a folder for which no compose document was found still gets a
    full record, when the statistics of its repository are a mapping that
    carries [stars] and [forks]: its title is the conf title or else the
    folder name, its URL the conf website, else the conf URL, else the
    folder's page on GitHub, on the default branch of the statistics or on
    [main]; category, author and version take their defaults, and
    [compose_available] is false. *)
Theorem assemble_without_compose (last_run_time : option datetime)
    (owner repo : string) (repo_stats : value) (fv : folder_visit)
    (conf shots stats : pydict) (stars forks : value) :
  truthy (get_docker_compose (fv_compose_cache fv) (fv_fetch fv)) = false ->
  fv_conf fv = VDict conf ->
  fv_screenshots fv = VDict shots ->
  repo_stats = VDict stats ->
  lookup_key "stars" stats = Some stars ->
  lookup_key "forks" stats = Some forks ->
  exists app_data,
    assemble last_run_time owner repo repo_stats fv = Ok app_data
    /\ lookup_key "title" app_data
       = Some (if truthy (dict_get conf "title" VNone)
               then dict_get conf "title" VNone
               else VStr (fv_folder fv))
    /\ lookup_key "url" app_data
       = Some (if truthy (dict_get conf "website" VNone)
               then dict_get conf "website" VNone
               else if truthy (dict_get conf "url" VNone)
                    then dict_get conf "url" VNone
                    else VStr (folder_url owner repo
                                 (dict_get stats "default_branch" (VStr "main"))
                                 (fv_folder fv)))
    /\ lookup_key "category" app_data = Some (VStr "Uncategorized")
    /\ lookup_key "author" app_data = Some (VStr "Unknown")
    /\ lookup_key "version" app_data = Some (VStr "Unknown")
    /\ lookup_key "compose_available" app_data = Some (VBool false)
    /\ lookup_key "stars" app_data = Some stars
    /\ lookup_key "forks" app_data = Some forks.
Proof.
  intros Hc Hconf Hshots -> Hstars Hforks. unfold assemble. cbv zeta.
  unfold extract_compose_metadata. rewrite Hc, Hconf, Hshots.
  cbn [negb bind py_get py_index]. rewrite Hstars, Hforks.
  assert (Hnil : forall k dflt, dict_get [] k dflt = dflt) by reflexivity.
  rewrite !Hnil. unfold or_else. cbn [truthy bind].
  destruct (truthy (dict_get conf "title" VNone));
    destruct (truthy (dict_get conf "description" VNone));
    destruct (truthy (dict_get conf "website" VNone));
    destruct (truthy (dict_get conf "url" VNone));
    cbn [bind]; eexists; (split; [reflexivity |]); repeat split.
Qed.

Lemma insert_desc_filter (k : string) (x : string * value)
    (l : list (string * value)) :
  filter (fun p => fst p = k) (insert_desc x l)
  = filter (fun p => fst p = k) (x :: l).
Proof.
  induction l as [| y l IH]; [reflexivity |].
  cbn [insert_desc]. destruct (str_ltb (fst x) (fst y)) eqn:E; [| reflexivity].
  rewrite filter_cons, IH, !filter_cons.
  destruct (decide (fst y = k)) as [Hy |]; [| reflexivity].
  destruct (decide (fst x = k)) as [Hx |]; [| reflexivity].
  exfalso. rewrite Hx, Hy in E. unfold str_ltb in E.
  assert (Hrefl : String.compare k k = Eq).
  { clear. induction k as [| a k IH]; simpl; [reflexivity |].
    unfold Ascii.compare. by rewrite N.compare_refl. }
  by rewrite Hrefl in E.
Qed.

Lemma sort_desc_filter (k : string) (l : list (string * value)) :
  filter (fun p => fst p = k) (sort_desc l) = filter (fun p => fst p = k) l.
Proof.
  induction l as [| x l IH]; [reflexivity |].
  cbn [sort_desc foldr]. fold (sort_desc l).
  rewrite insert_desc_filter, !filter_cons, IH. reflexivity.
Qed.

Lemma filter_keyed (k : string) (l : list (string * value)) :
  Forall (fun p => fst p = created_key (snd p)) l ->
  filter (fun x => created_key x = k) (map snd l)
  = map snd (filter (fun p => fst p = k) l).
Proof.
  induction 1 as [| p l Hp _ IH]; [reflexivity |].
  cbn [map]. rewrite !filter_cons, IH, <- Hp.
  by destruct (decide (fst p = k)).
Qed.

End PipelineMore.

(** X13: the final sort is stable: records with the same creation date,
    and in particular the records without one, keep the order in which they
    were collected. *)
Theorem sort_apps_stable_order (apps out : list value) (k : string) :
  Forall (fun x => created_typed x = true) apps ->
  sort_apps apps = Ok out ->
  filter (fun x => created_key x = k) out
  = filter (fun x => created_key x = k) apps.
Proof.
  intros Htyped Hsort. unfold sort_apps in Hsort.
  rewrite (sort_keys_typed apps Htyped) in Hsort. cbn [bind] in Hsort.
  injection Hsort as <-.
  set (keyed := map (fun x => (created_key x, x)) apps).
  assert (Hkeys : Forall (fun p => fst p = created_key (snd p)) keyed).
  { unfold keyed. apply Forall_map, Forall_forall. by intros x _. }
  assert (Hkeys' : Forall (fun p => fst p = created_key (snd p))
                     (sort_desc keyed)) by by rewrite sort_desc_perm.
  rewrite (filter_keyed k _ Hkeys'), sort_desc_filter.
  rewrite <- (filter_keyed k _ Hkeys). unfold keyed.
  rewrite map_map. simpl. by rewrite map_id.
Qed.

Lemma sort_apps_stable_order_witness :
  exists out,
    sort_apps dated_apps = Ok out
    /\ filter (fun x => created_key x = "") out
       = [dated "b" VNone; dated "d" VNone].
Proof.
  destruct (sort_apps dated_apps) as [out |] eqn:E;
    [| vm_compute in E; discriminate E].
  exists out. split; [reflexivity |].
  rewrite (sort_apps_stable_order dated_apps out "" ltac:(repeat constructor) E).
  reflexivity.
Defined.

Lemma assemble_without_compose_witness :
  exists app_data,
    assemble (B := plain_builtins) None "WisdomSky" "CasaOS-Coolstore"
      fallback_stats fv_cached = Ok app_data
    /\ lookup_key "title" app_data = Some (VStr "plex")
    /\ lookup_key "url" app_data
       = Some (VStr "https://github.com/WisdomSky/CasaOS-Coolstore/tree/main/Apps/plex").
Proof.
  destruct (assemble_without_compose (B := plain_builtins) None
              "WisdomSky" "CasaOS-Coolstore" fallback_stats fv_cached
              [] [("screenshots", VList []); ("count", VInt 0)]
              fallback_stats_dict (VInt 0) (VInt 0)
              eq_refl eq_refl eq_refl eq_refl eq_refl eq_refl)
    as (app_data & Hrun & Htitle & Hurl & _).
  exists app_data. split; [exact Hrun |]. split.
  - rewrite Htitle. reflexivity.
  - rewrite Hurl. vm_compute. reflexivity.
Defined.

(** * Further properties of the marketplace export *)

Lemma span_segment_plain (s : string) :
  has_char slash s = false -> span_segment s = (s, EmptyString).
Proof.
  induction s as [| a s IH]; simpl; [reflexivity |].
  intros H. apply orb_false_iff in H as [Ha Hs].
  rewrite Ha, (IH Hs). reflexivity.
Qed.

Lemma span_segment_slash (seg rest : string) :
  has_char slash seg = false ->
  span_segment (seg +:+ String slash rest) = (seg, String slash rest).
Proof.
  induction seg as [| a seg IH]; simpl.
  - intros _. reflexivity.
  - intros H. apply orb_false_iff in H as [Ha Hs].
    rewrite Ha, (IH Hs). reflexivity.
Qed.

Lemma span_segment_sound (s seg rest : string) :
  span_segment s = (seg, rest) -> has_char slash seg = false.
Proof.
  revert seg rest. induction s as [| a s IH]; simpl; intros seg rest.
  - by intros [= <- <-].
  - destruct (bool_decide (a = slash)) eqn:E; [by intros [= <- <-] |].
    destruct (span_segment s) as [seg' rest']. intros [= <- <-].
    simpl. rewrite E. by eapply IH.
Qed.

(** A match of ["/Apps/"] cannot start inside a text that holds no
    ["/Apps"], whatever slash-headed text follows it. *)
Lemma no_early_apps (u suf : string) :
  u <> EmptyString ->
  is_prefix "/Apps" u = false ->
  is_prefix "/" suf = true ->
  is_prefix "/Apps/" (u +:+ suf) = false.
Proof.
  intros Hu Hp Hs.
  destruct suf as [| b suf]; [discriminate |].
  simpl in Hs. rewrite andb_true_r in Hs. apply bool_decide_eq_true in Hs.
  subst b.
  destruct u as [| a1 [| a2 [| a3 [| a4 [| a5 u]]]]]; [done | ..];
    simpl in *;
    repeat (case_bool_decide; simpl in *; try subst; try done).
Qed.

Lemma no_early_tree (u suf : string) :
  u <> EmptyString ->
  is_prefix "/tree" u = false ->
  is_prefix "/" suf = true ->
  is_prefix "/tree/" (u +:+ suf) = false.
Proof.
  intros Hu Hp Hs.
  destruct suf as [| b suf]; [discriminate |].
  simpl in Hs. rewrite andb_true_r in Hs. apply bool_decide_eq_true in Hs.
  subst b.
  destruct u as [| a1 [| a2 [| a3 [| a4 [| a5 u]]]]]; [done | ..];
    simpl in *;
    repeat (case_bool_decide; simpl in *; try subst; try done).
Qed.

Lemma search_app_folder_skip (base suf : string) :
  contains "/Apps" base = false ->
  is_prefix "/" suf = true ->
  search_app_folder (base +:+ suf) = search_app_folder suf.
Proof.
  intros Hc Hs. induction base as [| a base IH]; [reflexivity |].
  cbn [contains] in Hc. apply orb_false_iff in Hc as [Hp Hc].
  change (String a base +:+ suf) with (String a (base +:+ suf)).
  cbn [search_app_folder].
  change (String a (base +:+ suf)) with (String a base +:+ suf).
  rewrite (no_early_apps (String a base) suf); [| done | exact Hp | exact Hs].
  by apply IH.
Qed.

Lemma search_branch_skip (base suf : string) :
  contains "/tree" base = false ->
  is_prefix "/" suf = true ->
  search_branch (base +:+ suf) = search_branch suf.
Proof.
  intros Hc Hs. induction base as [| a base IH]; [reflexivity |].
  cbn [contains] in Hc. apply orb_false_iff in Hc as [Hp Hc].
  change (String a base +:+ suf) with (String a (base +:+ suf)).
  cbn [search_branch].
  change (String a (base +:+ suf)) with (String a base +:+ suf).
  rewrite (no_early_tree (String a base) suf); [| done | exact Hp | exact Hs].
  by apply IH.
Qed.

Lemma search_app_folder_sound (url folder : string) :
  search_app_folder url = Some folder ->
  folder <> "" /\ has_char slash folder = false.
Proof.
  induction url as [| a url IH].
  - cbn [search_app_folder is_prefix]. discriminate.
  - cbn [search_app_folder].
    destruct (if is_prefix "/Apps/" (String a url)
              then match_folder_tail (str_drop 6 (String a url))
              else None) as [f |] eqn:E; [| exact IH].
    intros [= <-].
    destruct (is_prefix "/Apps/" (String a url)); [| discriminate].
    unfold match_folder_tail in E.
    destruct (span_segment (str_drop 6 (String a url))) as [seg rest] eqn:Es.
    apply span_segment_sound in Es.
    destruct (string_eqb seg "") eqn:En; [discriminate |].
    apply string_eqb_false in En.
    assert (f = seg) as ->.
    { destruct (string_eqb rest ""); [congruence |].
      destruct (string_eqb rest "/"); [congruence |].
      destruct (string_eqb rest _); congruence. }
    done.
Qed.

Lemma extract_app_folder_found (base folder : string) :
  contains "/Apps" base = false ->
  folder <> "" ->
  has_char slash folder = false ->
  extract_app_folder_from_url (VStr (base +:+ "/Apps/" +:+ folder))
  = Ok (Some folder).
Proof.
  intros Hbase Hne Hslash. apply string_eqb_false in Hne.
  cbn [extract_app_folder_from_url].
  rewrite search_app_folder_skip; [| exact Hbase | reflexivity].
  change ("/Apps/" +:+ folder) with (String "/" ("Apps/" +:+ folder)).
  cbn [search_app_folder].
  change (is_prefix "/Apps/" (String "/" ("Apps/" +:+ folder))) with true.
  change (str_drop 6 (String "/" ("Apps/" +:+ folder))) with folder.
  unfold match_folder_tail. rewrite (span_segment_plain _ Hslash).
  by rewrite Hne.
Qed.

Lemma get_branch_found (base branch rest : string) :
  contains "/tree" base = false ->
  branch <> "" ->
  has_char slash branch = false ->
  get_branch_from_url (VStr (base +:+ "/tree/" +:+ branch +:+ "/" +:+ rest))
  = Ok branch.
Proof.
  intros Hbase Hne Hslash. apply string_eqb_false in Hne.
  cbn [get_branch_from_url].
  rewrite search_branch_skip; [| exact Hbase | reflexivity].
  change ("/tree/" +:+ branch +:+ "/" +:+ rest)
    with (String "/" ("tree/" +:+ branch +:+ "/" +:+ rest)).
  cbn [search_branch].
  change (is_prefix "/tree/" (String "/" ("tree/" +:+ branch +:+ "/" +:+ rest)))
    with true.
  change (str_drop 6 (String "/" ("tree/" +:+ branch +:+ "/" +:+ rest)))
    with (branch +:+ String slash rest).
  unfold match_branch_tail. rewrite (span_segment_slash _ _ Hslash).
  by rewrite Hne.
Qed.

(** X14: for a URL [base/Apps/folder], with or without a final slash,
    whose [base] holds no ["/Apps"] and whose [folder] is non-empty and
    without a slash, the folder extracted is [folder]; whatever is
    extracted from any URL is non-empty and without a slash; and a value
    that is not a string raises. *)
Theorem extract_app_folder_round_trip (base folder : string) :
  contains "/Apps" base = false ->
  folder <> "" ->
  has_char slash folder = false ->
  extract_app_folder_from_url (VStr (base +:+ "/Apps/" +:+ folder))
  = Ok (Some folder)
  /\ extract_app_folder_from_url (VStr (base +:+ "/Apps/" +:+ folder +:+ "/"))
     = Ok (Some folder)
  /\ (forall url f,
        extract_app_folder_from_url (VStr url) = Ok (Some f) ->
        f <> "" /\ has_char slash f = false)
  /\ extract_app_folder_from_url VNone = Raise TypeError.
Proof.
  intros Hbase Hne Hslash.
  split; [by apply extract_app_folder_found |].
  apply string_eqb_false in Hne.
  split; [| split; [| reflexivity]].
  - cbn [extract_app_folder_from_url].
    rewrite search_app_folder_skip; [| exact Hbase | reflexivity].
    change ("/Apps/" +:+ folder +:+ "/")
      with (String "/" ("Apps/" +:+ folder +:+ "/")).
    cbn [search_app_folder].
    change (is_prefix "/Apps/" (String "/" ("Apps/" +:+ folder +:+ "/")))
      with true.
    change (str_drop 6 (String "/" ("Apps/" +:+ folder +:+ "/")))
      with (folder +:+ String slash EmptyString).
    unfold match_folder_tail. rewrite (span_segment_slash _ _ Hslash).
    by rewrite Hne.
  - intros url f [= H]. exact (search_app_folder_sound url f H).
Qed.

(** X15: for a URL [base/tree/branch/...] whose [base] holds no ["/tree"]
    and whose [branch] is non-empty and without a slash, the branch found
    is [branch]; for a URL without ["/tree/"] it is [main]. *)
Theorem get_branch_round_trip (base branch rest : string) :
  contains "/tree" base = false ->
  branch <> "" ->
  has_char slash branch = false ->
  get_branch_from_url (VStr (base +:+ "/tree/" +:+ branch +:+ "/" +:+ rest))
  = Ok branch
  /\ (forall url,
        contains "/tree/" url = false ->
        get_branch_from_url (VStr url) = Ok "main").
Proof.
  intros Hbase Hne Hslash. split; [by apply get_branch_found |].
  intros url Hc. cbn [get_branch_from_url]. f_equal.
  assert (Hnone : search_branch url = None); [| by rewrite Hnone].
  induction url as [| a url IH]; [reflexivity |].
  cbn [contains] in Hc. apply orb_false_iff in Hc as [Hp Hc].
  cbn [search_branch]. rewrite Hp. by apply IH.
Qed.

Lemma extract_app_folder_round_trip_witness :
  extract_app_folder_from_url
    (VStr "https://github.com/IceWhaleTech/CasaOS-AppStore/tree/main/Apps/nginx")
  = Ok (Some "nginx").
Proof.
  exact (proj1 (extract_app_folder_round_trip
                  "https://github.com/IceWhaleTech/CasaOS-AppStore/tree/main"
                  "nginx" eq_refl ltac:(discriminate) eq_refl)).
Defined.

Lemma get_branch_round_trip_witness :
  get_branch_from_url
    (VStr "https://github.com/IceWhaleTech/CasaOS-AppStore/tree/master/Apps/nginx")
  = Ok "master"
  /\ get_branch_from_url (VStr "https://example.org/kodi") = Ok "main".
Proof.
  split.
  - exact (proj1 (get_branch_round_trip
                    "https://github.com/IceWhaleTech/CasaOS-AppStore"
                    "master" "Apps/nginx" eq_refl ltac:(discriminate) eq_refl)).
  - apply (proj2 (get_branch_round_trip "" "b" "" eq_refl
                    ltac:(discriminate) eq_refl)).
    reflexivity.
Defined.

Section ExportMore.
Context `{B : Builtins}.

(** The page URL the pipeline builds for a folder gives back the folder,
    and of the branch the text up to its first slash. *)
Lemma folder_url_inverted (owner repo branch tail folder : string) :
  contains "/tree" ("https://github.com/" +:+ owner +:+ "/" +:+ repo) = false ->
  contains "/Apps"
    ("https://github.com/" +:+ owner +:+ "/" +:+ repo +:+ "/tree/"
     +:+ branch +:+ tail)
  = false ->
  branch <> "" -> has_char slash branch = false ->
  tail = "" \/ is_prefix "/" tail = true ->
  folder <> "" -> has_char slash folder = false ->
  extract_app_folder_from_url
    (VStr (folder_url owner repo (VStr (branch +:+ tail)) folder))
  = Ok (Some folder)
  /\ get_branch_from_url
       (VStr (folder_url owner repo (VStr (branch +:+ tail)) folder))
     = Ok branch.
Proof.
  intros Htree Happs Hb Hbs Htail Hf Hfs. split.
  - pose proof (extract_app_folder_found _ folder Happs Hf Hfs) as H.
    unfold folder_url. cbn [py_str].
    rewrite <- H. do 2 f_equal.
    rewrite !str_app_assoc. reflexivity.
  - unfold folder_url. cbn [py_str]. destruct Htail as [-> | Htail].
    + pose proof (get_branch_found _ branch ("Apps/" +:+ folder) Htree Hb Hbs)
        as H.
      rewrite <- H. do 2 f_equal.
      rewrite str_app_nil_r, !str_app_assoc. reflexivity.
    + destruct tail as [| c tail]; [discriminate |].
      cbn [is_prefix] in Htail. apply andb_true_iff in Htail as [Hc _].
      apply bool_decide_eq_true in Hc. subst c.
      pose proof (get_branch_found _ branch (tail +:+ "/Apps/" +:+ folder)
                    Htree Hb Hbs) as H.
      rewrite <- H. do 2 f_equal.
      rewrite !str_app_assoc. reflexivity.
Qed.

(** The compose URL of a converted entry, from what the two searches find
    in its [url]. *)
Lemma convert_compose_of (a : pydict) (url : value) (folder : option string)
    (branch : string) (converted : cosmos_app) :
  dict_get a "url" (VStr "") = url ->
  extract_app_folder_from_url url = Ok folder ->
  get_branch_from_url url = Ok branch ->
  convert_app_to_cosmos (VDict a) = Ok converted ->
  ca_compose converted
  = compose_url_of (dict_get a "repo" (VStr "")) branch folder
  /\ ca_repository converted
     = (if truthy url then py_str url
        else "https://github.com/" +:+ py_str (dict_get a "repo" (VStr ""))).
Proof.
  intros Hurl Hfolder Hbranch Hconv.
  unfold convert_app_to_cosmos in Hconv. rewrite Hurl in Hconv.
  rewrite Hfolder, Hbranch in Hconv. cbn [bind] in Hconv.
  inv_bind Hconv. inv_bind Hconv. injection Hconv as <-.
  split; reflexivity.
Qed.

Lemma compose_url_of_folder (owner repo branch folder : string) :
  folder <> "" ->
  compose_url_of (VStr (owner +:+ "/" +:+ repo)) branch (Some folder)
  = "https://raw.githubusercontent.com/" +:+ owner +:+ "/" +:+ repo +:+ "/"
      +:+ branch +:+ "/Apps/" +:+ folder +:+ "/docker-compose.yml".
Proof.
  intros Hf. unfold compose_url_of. cbn [py_str].
  assert (Ht1 : truthy (VStr (owner +:+ "/" +:+ repo)) = true)
    by (destruct owner; reflexivity).
  assert (Ht2 : truthy (VStr folder) = true).
  { cbn [truthy]. apply string_eqb_false in Hf. by rewrite Hf. }
  rewrite Ht1, Ht2. cbn [andb].
  rewrite !str_app_assoc. reflexivity.
Qed.

(** An entry of the shape the pipeline writes is converted. *)
Lemma convert_app_to_cosmos_total (a : pydict) :
  app_wf (VDict a) = true ->
  exists converted, convert_app_to_cosmos (VDict a) = Ok converted.
Proof.
  unfold app_wf.
  destruct (dict_get a "url" (VStr "")) as [| | | url | |] eqn:Eurl;
    try discriminate.
  destruct (dict_get a "repo" (VStr "")) as [| | | repo | |] eqn:Erepo;
    try discriminate.
  intros Hwf. apply andb_true_iff in Hwf as [Hcat Hshots].
  unfold convert_app_to_cosmos. rewrite Eurl.
  unfold extract_app_folder_from_url, get_branch_from_url. cbn [bind].
  destruct (py_iter (dict_get a "screenshots" (VList []))) as [shots |];
    [cbn [bind] | discriminate].
  assert (Htags : exists tags,
             get_tags_from_category (dict_get a "category" (VStr ""))
             = Ok tags).
  { unfold get_tags_from_category.
    destruct (dict_get a "category" (VStr "")) as [| b | z | c | l | d];
      try (rewrite Hcat; eauto); try (simpl; eauto; fail).
    destruct (negb (truthy (VStr c))); [eauto |].
    destruct (string_eqb c "Uncategorized"); eauto. }
  destruct Htags as [tags ->]. cbn [bind]. eauto.
Qed.

(** X16: for a record of the shape the pipeline writes whose [url] is the
    folder's page on GitHub
    ([https://github.com/owner/repo/tree/branch/Apps/folder], with no
    ["/tree"] in [owner/repo], no ["/Apps"] before the folder, and a
    non-empty folder name without a slash) and whose [repo] is
    [owner/repo], the exporter builds the compose URL of
    [docker-compose.yml] in that repository and folder, on the branch named
    by the text of the branch up to its first slash: the branch itself when
    its name has no slash ([tail] empty), and only the first segment of a
    name such as [release/1.0]. *)
Theorem convert_compose_url (a : pydict)
    (owner repo branch tail folder : string) :
  app_wf (VDict a) = true ->
  dict_get a "url" (VStr "")
  = VStr (folder_url owner repo (VStr (branch +:+ tail)) folder) ->
  dict_get a "repo" (VStr "") = VStr (owner +:+ "/" +:+ repo) ->
  contains "/tree" ("https://github.com/" +:+ owner +:+ "/" +:+ repo) = false ->
  contains "/Apps"
    ("https://github.com/" +:+ owner +:+ "/" +:+ repo +:+ "/tree/"
     +:+ branch +:+ tail)
  = false ->
  branch <> "" -> has_char slash branch = false ->
  tail = "" \/ is_prefix "/" tail = true ->
  folder <> "" -> has_char slash folder = false ->
  exists converted,
    convert_app_to_cosmos (VDict a) = Ok converted
    /\ ca_compose converted
       = "https://raw.githubusercontent.com/" +:+ owner +:+ "/" +:+ repo
           +:+ "/" +:+ branch +:+ "/Apps/" +:+ folder
           +:+ "/docker-compose.yml".
Proof.
  intros Hwf Hurl Hrepo Htree Happs Hb Hbs Htail Hf Hfs.
  destruct (convert_app_to_cosmos_total a Hwf) as [converted Hconv].
  exists converted. split; [exact Hconv |].
  destruct (folder_url_inverted owner repo branch tail folder Htree Happs
              Hb Hbs Htail Hf Hfs) as [Hfolder Hbranch].
  destruct (convert_compose_of a _ _ _ _ Hurl Hfolder Hbranch Hconv)
    as [-> _].
  rewrite Hrepo. by apply compose_url_of_folder.
Qed.

End ExportMore.

(** The condition on the repository names holds for every configured
    repository, on the branches [main] and [master]. *)
Example REPOS_urls_invertible :
  forallb
    (fun p =>
       negb (contains "/tree"
               ("https://github.com/" +:+ fst p +:+ "/" +:+ snd p))
       && negb (contains "/Apps"
                  ("https://github.com/" +:+ fst p +:+ "/" +:+ snd p
                   +:+ "/tree/main"))
       && negb (contains "/Apps"
                  ("https://github.com/" +:+ fst p +:+ "/" +:+ snd p
                   +:+ "/tree/master")))
    REPOS = true.
Proof. vm_compute. reflexivity. Qed.

Lemma convert_compose_url_witness :
  (exists converted,
     convert_app_to_cosmos (B := plain_builtins)
       (VDict [ ("title", VStr "Nginx");
                ("repo", VStr "IceWhaleTech/CasaOS-AppStore");
                ("url", VStr "https://github.com/IceWhaleTech/CasaOS-AppStore/tree/main/Apps/nginx") ])
     = Ok converted
     /\ ca_compose converted
        = "https://raw.githubusercontent.com/IceWhaleTech/CasaOS-AppStore/main/Apps/nginx/docker-compose.yml")
  /\ (exists converted,
        convert_app_to_cosmos (B := plain_builtins)
          (VDict [ ("title", VStr "Nginx");
                   ("repo", VStr "IceWhaleTech/CasaOS-AppStore");
                   ("url", VStr "https://github.com/IceWhaleTech/CasaOS-AppStore/tree/release/1.0/Apps/nginx") ])
        = Ok converted
        /\ ca_compose converted
           = "https://raw.githubusercontent.com/IceWhaleTech/CasaOS-AppStore/release/Apps/nginx/docker-compose.yml").
Proof.
  split.
  - exact (convert_compose_url (B := plain_builtins)
             [ ("title", VStr "Nginx");
               ("repo", VStr "IceWhaleTech/CasaOS-AppStore");
               ("url", VStr "https://github.com/IceWhaleTech/CasaOS-AppStore/tree/main/Apps/nginx") ]
             "IceWhaleTech" "CasaOS-AppStore" "main" "" "nginx"
             eq_refl eq_refl eq_refl eq_refl eq_refl
             ltac:(discriminate) eq_refl (or_introl eq_refl)
             ltac:(discriminate) eq_refl).
  - exact (convert_compose_url (B := plain_builtins)
             [ ("title", VStr "Nginx");
               ("repo", VStr "IceWhaleTech/CasaOS-AppStore");
               ("url", VStr "https://github.com/IceWhaleTech/CasaOS-AppStore/tree/release/1.0/Apps/nginx") ]
             "IceWhaleTech" "CasaOS-AppStore" "release" "/1.0" "nginx"
             eq_refl eq_refl eq_refl eq_refl eq_refl
             ltac:(discriminate) eq_refl (or_intror eq_refl)
             ltac:(discriminate) eq_refl).
Defined.

(** ** The identifier *)

Lemma all_chars_impl (p q : ascii -> bool) (s : string) :
  (forall a, p a = true -> q a = true) ->
  all_chars p s = true -> all_chars q s = true.
Proof.
  intros Hpq. induction s as [| a s IH]; simpl; [done |].
  intros H. apply andb_true_iff in H as [Ha Hs].
  by rewrite (Hpq a Ha), (IH Hs).
Qed.

Lemma drop_special_kept (s : string) :
  all_chars kept_char (drop_special s) = true.
Proof.
  induction s as [| a s IH]; simpl; [reflexivity |].
  destruct (is_alnum a || is_whitespace a || bool_decide (a = dash)) eqn:E;
    [| exact IH].
  simpl. unfold kept_char at 1. by rewrite E.
Qed.

Lemma dash_whitespace_word (in_run : bool) (s : string) :
  all_chars kept_char s = true ->
  all_chars word_char (dash_whitespace in_run s) = true.
Proof.
  revert in_run. induction s as [| a s IH]; intros in_run; simpl; [done |].
  intros H. apply andb_true_iff in H as [Ha Hs].
  destruct (is_whitespace a) eqn:Ew.
  - destruct in_run; simpl; by rewrite ?IH.
  - simpl. rewrite (IH false Hs), andb_true_r.
    unfold kept_char in Ha. rewrite Ew, orb_false_r in Ha. exact Ha.
Qed.

Lemma lstrip_dash_chars (p : ascii -> bool) (s : string) :
  all_chars p s = true -> all_chars p (lstrip_dash s) = true.
Proof.
  induction s as [| a s IH]; simpl; [done |].
  intros H. destruct (bool_decide (a = dash)); [| exact H].
  apply andb_true_iff in H as [_ Hs]. by apply IH.
Qed.

Lemma rev_app_chars (p : ascii -> bool) (s acc : string) :
  all_chars p (String.rev_app s acc) = all_chars p s && all_chars p acc.
Proof.
  revert acc. induction s as [| a s IH]; intros acc; simpl; [reflexivity |].
  rewrite IH. simpl. by destruct (p a), (all_chars p s), (all_chars p acc).
Qed.

Lemma rev_chars (p : ascii -> bool) (s : string) :
  all_chars p (String.rev s) = all_chars p s.
Proof. unfold String.rev. rewrite rev_app_chars. simpl. apply andb_true_r. Qed.

Lemma lower_char_safe (a : ascii) :
  word_char a = true -> url_safe_char (lower_char a) = true.
Proof.
  destruct a as [[] [] [] [] [] [] [] []]; vm_compute; congruence.
Qed.

Lemma lower_char_dash (a : ascii) : lower_char a = dash -> a = dash.
Proof.
  destruct a as [[] [] [] [] [] [] [] []]; vm_compute; congruence.
Qed.

Lemma lower_chars (s : string) :
  all_chars word_char s = true -> all_chars url_safe_char (lower s) = true.
Proof.
  induction s as [| a s IH]; simpl; [done |].
  intros H. apply andb_true_iff in H as [Ha Hs].
  by rewrite (lower_char_safe a Ha), (IH Hs).
Qed.

Lemma first_char_lstrip (s : string) : first_char (lstrip_dash s) <> Some dash.
Proof.
  induction s as [| a s IH]; simpl; [done |].
  case_bool_decide as Ha; [exact IH |]. simpl. congruence.
Qed.

Lemma last_char_lstrip (s : string) :
  last_char (lstrip_dash s) = None
  \/ last_char (lstrip_dash s) = last_char s.
Proof.
  induction s as [| a s IH]; [by left |].
  cbn [lstrip_dash]. case_bool_decide; [| by right].
  destruct IH as [IH | IH]; [by left |].
  cbn [last_char]. rewrite IH.
  destruct (last_char s); [by right | by left].
Qed.

Lemma last_char_rev_app (s acc : string) :
  last_char (String.rev_app s acc)
  = match last_char acc with
    | Some b => Some b
    | None => first_char s
    end.
Proof.
  revert acc. induction s as [| a s IH]; intros acc; simpl.
  - by destruct (last_char acc).
  - rewrite IH. simpl. by destruct (last_char acc).
Qed.

Lemma first_char_rev_app (s acc : string) :
  first_char (String.rev_app s acc)
  = match last_char s with
    | Some b => Some b
    | None => first_char acc
    end.
Proof.
  revert acc. induction s as [| a s IH]; intros acc; simpl; [reflexivity |].
  rewrite IH. by destruct (last_char s).
Qed.

Lemma strip_dash_edges (s : string) :
  first_char (strip_dash s) <> Some dash
  /\ last_char (strip_dash s) <> Some dash.
Proof.
  unfold strip_dash, String.rev. split.
  - rewrite first_char_rev_app. simpl.
    destruct (last_char_lstrip (String.rev_app (lstrip_dash s) ""))
      as [-> | ->]; [done |].
    rewrite last_char_rev_app. simpl.
    pose proof (first_char_lstrip s).
    destruct (first_char (lstrip_dash s)); [congruence | done].
  - rewrite last_char_rev_app. simpl. apply first_char_lstrip.
Qed.

Lemma first_char_lower (s : string) :
  first_char (lower s) = lower_char <$> first_char s.
Proof. by destruct s. Qed.

Lemma last_char_lower (s : string) :
  last_char (lower s) = lower_char <$> last_char s.
Proof.
  induction s as [| a s IH]; simpl; [reflexivity |].
  rewrite IH. by destruct (last_char s).
Qed.

(** X17: an identifier is made of lower-case letters, digits and hyphens
    only, and neither starts nor ends with a hyphen, whatever the name it
    is made from. *)
Theorem sanitize_id_url_safe (name : string) :
  all_chars url_safe_char (sanitize_id name) = true
  /\ first_char (sanitize_id name) <> Some dash
  /\ last_char (sanitize_id name) <> Some dash.
Proof.
  unfold sanitize_id.
  set (t := dash_whitespace false (drop_special name)).
  destruct (strip_dash_edges t) as [Hfirst Hlast].
  split; [| split].
  - apply lower_chars. unfold strip_dash.
    rewrite rev_chars. apply lstrip_dash_chars.
    rewrite rev_chars. apply lstrip_dash_chars.
    apply dash_whitespace_word, drop_special_kept.
  - rewrite first_char_lower.
    destruct (first_char (strip_dash t)) as [a |]; [| done].
    simpl. intros [= Ha]. apply lower_char_dash in Ha. by subst.
  - rewrite last_char_lower.
    destruct (last_char (strip_dash t)) as [a |]; [| done].
    simpl. intros [= Ha]. apply lower_char_dash in Ha. by subst.
Qed.

(** Titles run through [sanitize_id]. *)
Example sanitize_id_samples :
  sanitize_id "  Emby   Server (v2) -- " = "emby-server-v2"
  /\ sanitize_id "Plex!" = "plex"
  /\ sanitize_id "(!)" = "".
Proof. repeat split. Qed.

(** ** Tags *)

Lemma extra_tags_sound (table : list (string * list string))
    (category t : string) :
  t ∈ extra_tags table category ->
  exists cat extra,
    (cat, extra) ∈ table /\ t ∈ extra
    /\ contains (lower cat) (lower category) = true.
Proof.
  induction table as [| [cat extra] table IH]; cbn [extra_tags].
  - intros H. by apply elem_of_nil in H.
  - destruct (contains (lower cat) (lower category)) eqn:E.
    + intros H. exists cat, extra. split; [left | done].
    + intros H. destruct (IH H) as (cat' & extra' & Hin & Ht & Hc).
      exists cat', extra'. split; [by right | done].
Qed.

Lemma extra_tags_short (category : string) :
  length (extra_tags category_tags category) <= 3.
Proof.
  unfold category_tags. cbn [extra_tags].
  repeat match goal with
         | |- context [if ?b then _ else _] => destruct b
         end; cbn [length]; lia.
Qed.

Lemma size_list_to_set_le (l : list string) :
  size (list_to_set l : gset string) <= length l.
Proof.
  induction l as [| x l IH]; cbn [list_to_set length].
  - by rewrite size_empty.
  - rewrite size_union_alt, size_singleton.
    assert (size (list_to_set l ∖ {[x]} : gset string)
            <= size (list_to_set l : gset string))
      by (by apply subseteq_size, subseteq_difference_l).
    lia.
Qed.

Lemma size_tags (c : string) (extra : list string) :
  length extra <= 3 ->
  size (list_to_set (c :: extra) ∪ {[ "self-hosted" ]} : gset string) <= 5.
Proof.
  intros Hextra. rewrite size_union_alt.
  pose proof (size_list_to_set_le (c :: extra)) as Hsize.
  cbn [length] in Hsize.
  assert (size ({[ "self-hosted" ]} ∖ list_to_set (c :: extra) : gset string)
          <= size ({[ "self-hosted" ]} : gset string)) as Hrest
    by (by apply subseteq_size, subseteq_difference_l).
  rewrite size_singleton in Hrest. lia.
Qed.

Lemma tags_self_hosted (category : value) (tags : gset string) :
  get_tags_from_category category = Ok tags -> "self-hosted" ∈ tags.
Proof.
  unfold get_tags_from_category.
  destruct (negb (truthy category)); [intros [= <-]; set_solver |].
  destruct category as [| | | c | |]; try discriminate.
  destruct (string_eqb c "Uncategorized"); intros [= <-]; set_solver.
Qed.

(** X18: the tags of a category always hold "self-hosted" and are at most
    five; an empty category and "Uncategorized" give that tag alone; any
    other category is itself a tag, and every further tag comes from a
    table entry whose name occurs in the category, case ignored. *)
Theorem get_tags_from_category_rule (category : value) (tags : gset string) :
  get_tags_from_category category = Ok tags ->
  "self-hosted" ∈ tags
  /\ size tags <= 5
  /\ (truthy category = false \/ category = VStr "Uncategorized" ->
      tags = {[ "self-hosted" ]})
  /\ (forall c,
        category = VStr c -> c <> "" -> c <> "Uncategorized" ->
        c ∈ tags
        /\ forall t,
             t ∈ tags ->
             t = c \/ t = "self-hosted"
             \/ exists cat extra,
                  (cat, extra) ∈ category_tags /\ t ∈ extra
                  /\ contains (lower cat) (lower c) = true).
Proof.
  intros H. split; [by eapply tags_self_hosted |].
  unfold get_tags_from_category in H.
  destruct (truthy category) eqn:Et; cbn [negb] in H.
  - destruct category as [| | | c | |]; try discriminate.
    pose proof (extra_tags_short c) as Hshort.
    pose proof (extra_tags_sound category_tags c) as Hsound.
    revert H Hshort Hsound.
    generalize (extra_tags category_tags c). intros extra H Hshort Hsound.
    destruct (string_eqb c "Uncategorized") eqn:Eu.
    + assert (tags = {[ "self-hosted" ]}) as -> by congruence.
      split; [rewrite size_singleton; lia |].
      split; [done |].
      intros c' [= <-] _ Hc. apply string_eqb_false in Hc. congruence.
    + assert (tags = list_to_set (c :: extra) ∪ {[ "self-hosted" ]}) as ->
        by congruence.
      apply string_eqb_false in Eu. split; [| split].
      * by apply size_tags.
      * intros [Hf | [= ->]]; [discriminate | done].
      * intros c' [= <-] _ _. split; [set_solver |].
        intros t Ht. apply elem_of_union in Ht as [Ht | Ht].
        -- apply elem_of_list_to_set, elem_of_cons in Ht as [-> | Ht];
             [by left |].
           right. right. by apply Hsound.
        -- apply elem_of_singleton in Ht. by right; left.
  - assert (tags = {[ "self-hosted" ]}) as -> by congruence.
    split; [rewrite size_singleton; lia |].
    split; [done |].
    intros c -> Hne _. cbn [truthy] in Et.
    apply string_eqb_false in Hne. by rewrite Hne in Et.
Qed.

Lemma get_tags_from_category_rule_witness :
  exists tags,
    get_tags_from_category (VStr "Media Server") = Ok tags
    /\ "self-hosted" ∈ tags /\ "Media Server" ∈ tags /\ size tags <= 5.
Proof.
  eexists. split; [reflexivity |].
  destruct (get_tags_from_category_rule (VStr "Media Server") _ eq_refl)
    as (Hself & Hsize & _ & Hcat).
  split; [exact Hself |]. split; [| exact Hsize].
  apply (Hcat "Media Server"); [reflexivity | discriminate | discriminate].
Defined.

(** A category that is neither empty nor a string stops the export. *)
Example get_tags_from_category_raises :
  get_tags_from_category (VList [VStr "Media"]) = Raise AttributeError.
Proof. reflexivity. Qed.

(** ** Converted entries *)

Lemma str_take_length (n : nat) (s : string) :
  String.length (str_take n s) = min n (String.length s).
Proof.
  revert s. induction n as [| n IH]; intros [| a s]; simpl; try reflexivity.
  by rewrite IH.
Qed.

Lemma str_take_drop (n : nat) (s : string) :
  s = str_take n s +:+ str_drop n s.
Proof.
  revert s. induction n as [| n IH]; intros [| a s]; try reflexivity.
  cbn [str_take str_drop].
  change (String a (str_take n s) +:+ str_drop n s)
    with (String a (str_take n s +:+ str_drop n s)).
  by rewrite <- IH.
Qed.

Lemma Ok_inj {A : Type} (x y : A) : Ok x = Ok y -> x = y.
Proof. congruence. Qed.

Section ConvertFacts.
Context `{B : Builtins}.

(** X20: in a converted entry the identifier is the sanitized name, the
    tags hold "self-hosted", and the short description has at most 200
    characters: a description string is cut to its first 200 characters,
    and without one the text is "No description available.". *)
Theorem convert_app_fields (a : pydict) (converted : cosmos_app) :
  convert_app_to_cosmos (VDict a) = Ok converted ->
  ca_id converted = sanitize_id (ca_name converted)
  /\ "self-hosted" ∈ ca_tags converted
  /\ String.length (ca_description converted) <= 200
  /\ (forall s,
        dict_get a "description" (VStr "") = VStr s -> s <> "" ->
        String.length (ca_description converted) = min 200 (String.length s)
        /\ exists rest, s = ca_description converted +:+ rest)
  /\ (lookup_key "description" a = None ->
      ca_description converted = "No description available.").
Proof.
  unfold convert_app_to_cosmos. cbv zeta.
  repeat match goal with
         | |- bind ?m _ = Ok _ -> _ =>
             destruct m eqn:?; cbn [bind]; [| discriminate]
         end.
  intros Heq. apply Ok_inj in Heq. subst converted.
  cbn [ca_id ca_name ca_tags ca_description].
  split; [reflexivity |]. split; [by eapply tags_self_hosted |].
  split; [| split].
  - destruct (truthy _); [| cbn [String.length]; lia].
    rewrite str_take_length. lia.
  - intros s Hs Hne. rewrite Hs. cbn [market_text truthy py_str].
    apply string_eqb_false in Hne. rewrite Hne. cbn [negb].
    split; [apply str_take_length |].
    exists (str_drop 200 s). apply str_take_drop.
  - intros Hnone. unfold dict_get. rewrite Hnone. reflexivity.
Qed.

End ConvertFacts.

Lemma convert_app_fields_witness :
  exists converted,
    convert_app_to_cosmos (B := plain_builtins)
      (VDict [("title", VStr "Emby  Server");
              ("description", VStr "Media server")])
    = Ok converted
    /\ ca_id converted = sanitize_id (ca_name converted)
    /\ String.length (ca_description converted) = 12.
Proof.
  destruct (convert_app_to_cosmos (B := plain_builtins)
      (VDict [("title", VStr "Emby  Server");
              ("description", VStr "Media server")]))
    as [converted |] eqn:E; [| vm_compute in E; discriminate E].
  exists converted. split; [reflexivity |].
  destruct (convert_app_fields (B := plain_builtins)
              [("title", VStr "Emby  Server");
               ("description", VStr "Media server")] converted E)
    as (Hid & _ & _ & Hdesc & _).
  destruct (Hdesc "Media server" eq_refl ltac:(discriminate)) as (Hlen & _).
  split; [exact Hid | exact Hlen].
Defined.

(** ** Identifiers in the export *)

Lemma find_free_id_shape (fuel : nat) (seen_ids : gset string)
    (original_id id : string) (counter : Z) (r : string) :
  find_free_id fuel seen_ids original_id id counter = Some r ->
  ((id ∉ seen_ids) /\ r = id)
  \/ (id ∈ seen_ids /\ exists k, r = candidate original_id k).
Proof.
  revert id counter. induction fuel as [| fuel IH]; intros id counter;
    cbn [find_free_id]; case_bool_decide as Hid.
  - discriminate.
  - intros [= <-]. by left.
  - intros H. right. split; [done |].
    destruct (IH _ _ H) as [[_ ->] | [_ [k ->]]]; eauto.
  - intros [= <-]. by left.
Qed.

Lemma free_id_shape (seen_ids : gset string) (original_id id : string) :
  ((id ∉ seen_ids) /\ free_id seen_ids original_id id = id)
  \/ (id ∈ seen_ids
      /\ exists k, free_id seen_ids original_id id = candidate original_id k).
Proof.
  unfold free_id.
  destruct (find_free_id_enough_fuel seen_ids original_id id 1) as [r Hr].
  rewrite Hr. cbn [default]. by eapply find_free_id_shape.
Qed.

Section IdentifierFacts.
Context `{B : Builtins}.

Lemma main_step_derived (cosmos_apps out : list cosmos_app)
    (seen_ids seen_ids' : gset string) (app : value) :
  (forall x, x ∈ seen_ids <-> x ∈ map ca_id cosmos_apps) ->
  main_step (cosmos_apps, seen_ids) app = Ok (out, seen_ids') ->
  (forall x, x ∈ seen_ids' <-> x ∈ map ca_id out)
  /\ match listed app with
     | None => out = cosmos_apps
     | Some converted =>
         exists written,
           out = (cosmos_apps ++ [written])%list
           /\ derived converted written
           /\ (ca_id written = ca_id converted
               <-> ca_id converted ∉ seen_ids)
     end.
Proof.
  intros Hinv Hstep. unfold main_step in Hstep. unfold listed.
  inv_bind Hstep.
  destruct (truthy a); simpl in Hstep; [| simplify_eq; by split].
  inv_bind Hstep. rename a0 into cosmos_app.
  destruct (string_eqb (ca_compose cosmos_app) ""); simpl in Hstep;
    [simplify_eq; by split |].
  inv_bind Hstep. rename a0 into id1. simplify_eq.
  pose proof (free_id_shape seen_ids (ca_id cosmos_app) id1) as Hshape.
  pose proof (proj1 (free_id_fresh seen_ids (ca_id cosmos_app) id1)) as Hfresh.
  set (new_id := free_id seen_ids (ca_id cosmos_app) id1) in *.
  split.
  - intros x. rewrite map_app. cbn [map ca_id set_id].
    rewrite elem_of_union, elem_of_singleton, elem_of_app,
      list_elem_of_singleton, Hinv. tauto.
  - exists (set_id cosmos_app new_id). split; [reflexivity |].
    match goal with
    | E : (if bool_decide _ then _ else _) = Ok id1 |- _ => rename E into Hid
    end.
    split; [split; [reflexivity |] |]; cbn [ca_id set_id].
    + case_bool_decide as Hseen.
      * destruct Hshape as [[_ ->] | [_ [k ->]]].
        -- inv_bind Hid. simplify_eq. right. eauto.
        -- right. by exists (pretty k).
      * simplify_eq. destruct Hshape as [[_ ->] | [Hin _]]; [by left | done].
    + split.
      * intros Heq. by rewrite <- Heq.
      * intros Hnot. case_bool_decide as Hseen; [done |]. simplify_eq.
        by destruct Hshape as [[_ ->] | [Hin _]].
Qed.

Lemma main_loop_derived (apps : list value) (cosmos_apps out : list cosmos_app)
    (seen_ids seen_ids' : gset string) :
  (forall x, x ∈ seen_ids <-> x ∈ map ca_id cosmos_apps) ->
  main_loop apps (cosmos_apps, seen_ids) = Ok (out, seen_ids') ->
  exists new,
    out = (cosmos_apps ++ new)%list
    /\ Forall2 derived (omap listed apps) new
    /\ forall i converted written,
         omap listed apps !! i = Some converted ->
         new !! i = Some written ->
         (ca_id written = ca_id converted
          <-> ca_id converted ∉ map ca_id (cosmos_apps ++ take i new)%list).
Proof.
  revert cosmos_apps seen_ids.
  induction apps as [| app rest IH]; intros cosmos_apps seen_ids Hinv Hloop.
  - simpl in Hloop. simplify_eq. exists [].
    split; [by rewrite app_nil_r |]. split; [constructor |].
    intros i converted written Hi. by destruct i.
  - simpl in Hloop. inv_bind Hloop. destruct a as [mid seen_mid].
    destruct (main_step_derived _ _ _ _ _ Hinv E) as [Hinv' Hstep].
    destruct (IH _ _ Hinv' Hloop) as (new & -> & Hall & Hkeep).
    change (app :: rest) with ([app] ++ rest)%list.
    rewrite omap_app. cbn [omap list_omap].
    destruct (listed app) as [converted |] eqn:El.
    + destruct Hstep as (written & -> & Hder & Hfirst).
      exists (written :: new). split; [by rewrite <- app_assoc |].
      split; [by constructor |].
      intros [| i] conv w Hc Hw; simpl in Hc, Hw; simplify_eq.
      * cbn [take]. rewrite app_nil_r. rewrite Hfirst.
        by rewrite (Hinv (ca_id conv)).
      * rewrite (Hkeep i conv w Hc Hw). cbn [take].
        by rewrite <- app_assoc.
    + subst mid. exists new. split; [reflexivity |].
      split; [exact Hall | exact Hkeep].
Qed.

(** X19: the identifier of every output entry starts with the sanitized
    name of its app: it is that name itself, or that name followed by a
    hyphen and a suffix; and it is the name itself exactly when no earlier
    output entry already has that identifier. *)
Theorem main_ids_derived (data : value) (out : list cosmos_app) :
  main data = Ok out ->
  exists apps,
    (let* apps_field := py_get data "apps" (VList []) in py_iter apps_field)
    = Ok apps
    /\ Forall2 derived (omap listed apps) out
    /\ forall i converted written,
         omap listed apps !! i = Some converted ->
         out !! i = Some written ->
         (ca_id written = ca_id converted
          <-> ca_id converted ∉ map ca_id (take i out)).
Proof.
  intros Hmain. unfold main in Hmain.
  inv_bind Hmain. inv_bind Hmain. inv_bind Hmain. simplify_eq.
  destruct a1 as [out seen_ids]. cbn [fst].
  match goal with
  | H : main_loop _ _ = Ok _ |- _ =>
      apply main_loop_derived in H as (new & -> & Hall & Hkeep);
        [| intros x; cbn [map]; set_solver]
  end.
  cbn [app] in *. eexists. split; [cbn [bind]; eassumption |].
  split; [exact Hall | exact Hkeep].
Qed.

(** X21: a record the pipeline assembles for a folder with a compose
    document and without a website or URL in its conf file, whose category
    is a string and whose screenshots are a list, is converted and listed
    by the exporter, with the folder's page as repository and, as compose
    URL, the [docker-compose.yml] of that folder, whichever compose file
    the pipeline found.  The branch of the compose URL is the default
    branch of the statistics up to its first slash: the default branch
    itself when its name has no slash.  The conditions on the names are
    those of the URL search: no ["/tree"] in [owner/repo], no ["/Apps"]
    before the folder, a non-empty folder name without a slash. *)
Theorem pipeline_record_exported (last_run_time : option datetime)
    (owner repo : string) (repo_stats : value) (fv : folder_visit)
    (conf : pydict) (branch tail category : string) (shots : list value)
    (app_data : pydict) :
  assemble last_run_time owner repo repo_stats fv = Ok app_data ->
  truthy (get_docker_compose (fv_compose_cache fv) (fv_fetch fv)) = true ->
  fv_conf fv = VDict conf ->
  truthy (dict_get conf "website" VNone) = false ->
  truthy (dict_get conf "url" VNone) = false ->
  py_get repo_stats "default_branch" (VStr "main")
  = Ok (VStr (branch +:+ tail)) ->
  lookup_key "category" app_data = Some (VStr category) ->
  lookup_key "screenshots" app_data = Some (VList shots) ->
  contains "/tree" ("https://github.com/" +:+ owner +:+ "/" +:+ repo) = false ->
  contains "/Apps"
    ("https://github.com/" +:+ owner +:+ "/" +:+ repo +:+ "/tree/"
     +:+ branch +:+ tail)
  = false ->
  branch <> "" -> has_char slash branch = false ->
  tail = "" \/ is_prefix "/" tail = true ->
  fv_folder fv <> "" -> has_char slash (fv_folder fv) = false ->
  exists converted,
    convert_app_to_cosmos (VDict app_data) = Ok converted
    /\ listed (VDict app_data) = Some converted
    /\ ca_repository converted
       = folder_url owner repo (VStr (branch +:+ tail)) (fv_folder fv)
    /\ ca_compose converted
       = "https://raw.githubusercontent.com/" +:+ owner +:+ "/" +:+ repo
           +:+ "/" +:+ branch +:+ "/Apps/" +:+ fv_folder fv
           +:+ "/docker-compose.yml".
Proof.
  intros Hasm Hcompose Hconf Hw Hu Hbranch Hcat Hshots Htree Happs Hb Hbs
    Htail Hf Hfs.
  assert (Hfields :
    dict_get app_data "url" (VStr "")
    = VStr (folder_url owner repo (VStr (branch +:+ tail)) (fv_folder fv))
    /\ dict_get app_data "repo" (VStr "") = VStr (owner +:+ "/" +:+ repo)
    /\ dict_get app_data "compose_available" (VBool false) = VBool true).
  { clear Hcat Hshots. revert Hasm. unfold assemble. cbv zeta.
    rewrite Hconf, Hbranch, Hcompose. cbn [bind py_get].
    unfold or_else at 6 7. rewrite Hw, Hu. cbn [bind].
    repeat match goal with
           | |- bind ?m _ = Ok _ -> _ =>
               destruct m; cbn [bind]; [| discriminate]
           end.
    intros [= <-]. repeat split. }
  destruct Hfields as (Hurl & Hrepo & Hav).
  assert (Hwf : app_wf (VDict app_data) = true).
  { unfold app_wf. rewrite Hurl, Hrepo. unfold dict_get at 1 2.
    rewrite Hcat, Hshots. reflexivity. }
  destruct (convert_app_to_cosmos_total app_data Hwf) as [converted Hconv].
  exists converted. split; [exact Hconv |].
  destruct (folder_url_inverted owner repo branch tail (fv_folder fv) Htree
              Happs Hb Hbs Htail Hf Hfs) as [Hfolder Hfound].
  destruct (convert_compose_of app_data _ _ _ _ Hurl Hfolder Hfound Hconv)
    as [Hc Hr].
  rewrite Hrepo, (compose_url_of_folder _ _ _ _ Hf) in Hc.
  split; [| split; [| exact Hc]].
  - unfold listed. cbn [py_get]. rewrite Hav. cbn [truthy]. rewrite Hconv.
    rewrite Hc. reflexivity.
  - rewrite Hr. reflexivity.
Qed.

End IdentifierFacts.

Lemma main_ids_derived_witness :
  exists out,
    main (B := plain_builtins) market_data = Ok out
    /\ Forall2 derived (omap (listed (B := plain_builtins)) market_apps) out
    /\ map ca_id out = ["plex"; "plex-r2"; "plex-1"].
Proof.
  destruct (main (B := plain_builtins) market_data) as [out |] eqn:E;
    [| vm_compute in E; discriminate E].
  exists out. split; [reflexivity |].
  destruct (main_ids_derived (B := plain_builtins) market_data out E)
    as (apps & Happs & Hall & _).
  vm_compute in Happs. injection Happs as <-.
  split; [exact Hall |].
  vm_compute in E. injection E as <-. reflexivity.
Defined.

Lemma pipeline_record_exported_witness :
  exists app_data converted,
    assemble (B := plain_builtins) None "IceWhaleTech" "CasaOS-AppStore"
      fallback_stats fv_nginx = Ok app_data
    /\ listed (B := plain_builtins) (VDict app_data) = Some converted
    /\ ca_compose converted
       = "https://raw.githubusercontent.com/IceWhaleTech/CasaOS-AppStore/main/Apps/nginx/docker-compose.yml".
Proof.
  destruct (assemble (B := plain_builtins) None "IceWhaleTech"
              "CasaOS-AppStore" fallback_stats fv_nginx)
    as [app_data |] eqn:E; [| vm_compute in E; discriminate E].
  assert (Hfields : lookup_key "category" app_data = Some (VStr "Network")
                    /\ lookup_key "screenshots" app_data = Some (VList [])).
  { pose proof E as E'. vm_compute in E'. injection E' as <-.
    split; reflexivity. }
  destruct Hfields as [Hcat Hshots].
  destruct (pipeline_record_exported (B := plain_builtins) None
              "IceWhaleTech" "CasaOS-AppStore" fallback_stats fv_nginx
              [("title", VStr "Nginx")] "main" "" "Network" [] app_data
              E eq_refl eq_refl eq_refl eq_refl eq_refl Hcat Hshots
              eq_refl eq_refl ltac:(discriminate) eq_refl (or_introl eq_refl)
              ltac:(discriminate) eq_refl)
    as (converted & _ & Hlisted & _ & Hcompose).
  exists app_data, converted. split; [reflexivity |].
  split; [exact Hlisted | exact Hcompose].
Defined.

(** ** Screenshots in the export *)

Section ScreenshotExport.
Context `{B : Builtins}.


End ScreenshotExport.
